(** * fits-reader: the FITS structure decoder, embedded and verified

    A shallow embedding of [src/fits-structure.ts] (classes [MetaDataParser]
    and [FitsStructure]) and of [src/primary-hdu.ts] (classes [Filter] and
    [PrimaryHDU]), followed by the properties of the decoder.

    Conventions of the embedding.
    - A Node [Buffer] is a list of bytes; [subarray] clamps as Node does.
    - A JavaScript string is its sequence of UTF-16 code units;
      [Buffer.toString()] is the UTF-8 decoder with U+FFFD replacement.
    - A JavaScript number that the program only ever obtains as an integer
      or as NaN (lengths, offsets, [parseInt] results, their sums, products
      and block counts) is a [num]: [NaN] or an exact integer.  Doubles agree
      with this while magnitudes stay below 2^53; rounding and overflow past
      that bound are outside the model.
    - Decoded samples and statistics are IEEE-754 doubles ([float]).
    - [throw] is a [Throw] completion; the object state reached before the
      throw is kept, as mutation of [this] is in JavaScript.  A loop whose
      bound is used up completes with [Diverge].
    - [toLowerCase], the conversion of a number to a string and [Math.pow]
      are parameters ([Runtime]); [console] output is not modelled.
    - [PrimaryHDU.load] takes the bytes of the file in place of its name;
      [PrimaryHDU.loadFile] takes the outcome of reading it, the bytes or
      a rejection.
    - The fields [images] and [stats] of a [PrimaryHDU] and the methods
      that use them are in [Layers], over the object of module
      [PrimaryHDU]; [images] shares its objects with [structures] and is
      kept as indices into that list. *)

From Stdlib Require Import ZArith NArith List Lia Bool Sorting.Sorted.
From Stdlib Require Import Strings.String Strings.Ascii Strings.Byte.
From Stdlib Require Import Numbers.DecimalString.
From Stdlib Require Import Floats.PrimFloat Floats.SpecFloat Floats.FloatOps.
From stdpp Require Import base decidable countable gmap list.

Local Open Scope Z_scope.

(** ** The JavaScript runtime the program relies on *)

Module Js.

(** *** Strings *)

Abbreviation jsstring := (list N).

Definition str (s : string) : jsstring :=
  map Byte.to_N (list_byte_of_string s).

Definition substring (s : jsstring) (from to : nat) : jsstring :=
  take (to - from) (drop from s).

Definition substringFrom (s : jsstring) (from : nat) : jsstring :=
  drop from s.

Fixpoint startsWith (s prefix : jsstring) : bool :=
  match prefix, s with
  | [], _ => true
  | p :: prefix', c :: s' => (N.eqb c p) && startsWith s' prefix'
  | _ :: _, [] => false
  end.

Fixpoint includes (s needle : jsstring) : bool :=
  startsWith s needle ||
  match s with
  | [] => false
  | _ :: s' => includes s' needle
  end.

(** [s.charAt(0) !== " "]: [charAt] past the end is the empty string. *)
Definition charAt0_is_space (s : jsstring) : bool :=
  match s with
  | c :: _ => N.eqb c 32
  | [] => false
  end.

(** WhiteSpace and LineTerminator code units, as [trim] and [parseInt]
    strip them. *)
Definition isWhiteSpace (c : N) : bool :=
  existsb (N.eqb c)
    [9; 10; 11; 12; 13; 32; 160; 5760; 8232; 8233; 8239; 8287; 12288; 65279]%N
  || ((8192 <=? c)%N && (c <=? 8202)%N).

Fixpoint trimStart (s : jsstring) : jsstring :=
  match s with
  | c :: s' => if isWhiteSpace c then trimStart s' else s
  | [] => []
  end.

Definition trimEnd (s : jsstring) : jsstring := rev (trimStart (rev s)).

Definition trim (s : jsstring) : jsstring := trimEnd (trimStart s).

(** [s.split(sep)[0]] for a one-unit separator: the part before its first
    occurrence, the whole string when there is none. *)
Fixpoint split_first (s : jsstring) (sep : N) : jsstring :=
  match s with
  | c :: s' => if N.eqb c sep then [] else c :: split_first s' sep
  | [] => []
  end.

(** Template-literal conversion of an integer-valued number. *)
Definition intToString (z : Z) : jsstring := str (NilZero.string_of_int (Z.to_int z)).

(** *** Numbers that are integers or NaN *)

Inductive num : Type := NaN | Int (z : Z).

Definition isNaN (x : num) : bool :=
  match x with NaN => true | Int _ => false end.

Definition num_lt (x y : num) : bool :=
  match x, y with Int a, Int b => a <? b | _, _ => false end.

Definition num_le (x y : num) : bool :=
  match x, y with Int a, Int b => a <=? b | _, _ => false end.

Definition num_gt (x y : num) : bool := num_lt y x.

(** [x === y] on numbers: NaN equals nothing. *)
Definition num_eq (x y : num) : bool :=
  match x, y with Int a, Int b => a =? b | _, _ => false end.

(** Sums and products are exact integers; the doubles of the program
    agree with them while the results stay below 2^53 in magnitude. *)
Definition num_add (x y : num) : num :=
  match x, y with Int a, Int b => Int (a + b) | _, _ => NaN end.

Definition num_mul (x y : num) : num :=
  match x, y with Int a, Int b => Int (a * b) | _, _ => NaN end.

Definition Math_abs (x : num) : num :=
  match x with Int a => Int (Z.abs a) | NaN => NaN end.

(** [Math.ceil(x / d)] for a positive integer constant [d]. *)
Definition Math_ceil_div (x : num) (d : Z) : num :=
  match x with Int a => Int (- ((- a) / d)) | NaN => NaN end.

(** [x / d] where the program only divides multiples of [d] (bits by 8). *)
Definition num_div_exact (x : num) (d : Z) : num :=
  match x with Int a => Int (a / d) | NaN => NaN end.

(** *** parseInt(string), radix omitted *)

Definition digitValue (c : N) : option Z :=
  if ((48 <=? c) && (c <=? 57))%N then Some (Z.of_N c - 48)
  else if ((97 <=? c) && (c <=? 122))%N then Some (Z.of_N c - 87)
  else if ((65 <=? c) && (c <=? 90))%N then Some (Z.of_N c - 55)
  else None.

(** The longest prefix of digits of the radix, accumulated left to right;
    [None] when there is no digit at all. *)
Fixpoint parseDigits (radix : Z) (s : jsstring) (acc : option Z) : option Z :=
  match s with
  | c :: s' =>
      match digitValue c with
      | Some d =>
          if d <? radix
          then parseDigits radix s' (Some (match acc with Some a => a | None => 0 end * radix + d))
          else acc
      | None => acc
      end
  | [] => acc
  end.

Definition parseInt (input : jsstring) : num :=
  let s := trimStart input in
  let '(sign, s) :=
    match s with
    | 45%N :: s' => (-1, s')
    | 43%N :: s' => (1, s')
    | _ => (1, s)
    end in
  let '(radix, s) :=
    match s with
    | 48%N :: 120%N :: s' => (16, s')
    | 48%N :: 88%N :: s' => (16, s')
    | _ => (10, s)
    end in
  match parseDigits radix s None with
  | Some v => Int (sign * v)
  | None => NaN
  end.

(** *** Buffers *)

Abbreviation Buffer := (list byte).

Definition buffer_length (b : Buffer) : num := Int (Z.of_nat (length b)).

(** Node's [adjustOffset]: NaN is 0, a negative offset counts from the
    end, and the result is clamped to [0, length]. *)
Definition adjustOffset (offset : num) (len : nat) : nat :=
  match offset with
  | NaN => 0%nat
  | Int z =>
      if z <? 0 then Z.to_nat (Z.max (z + Z.of_nat len) 0)
      else Z.to_nat (Z.min z (Z.of_nat len))
  end.

(** [buf.subarray(start, end)]; [None] for an omitted [end]. *)
Definition subarray (b : Buffer) (start : num) (end_ : option num) : Buffer :=
  let s := adjustOffset start (length b) in
  let e := match end_ with Some e => adjustOffset e (length b) | None => length b end in
  take (e - s) (drop s b).

(** *** Buffer.toString(): UTF-8 decoding to UTF-16 code units *)

Definition utf16_of_codepoint (c : N) : list N :=
  (if c <? 65536 then [c]
   else [55296 + (c - 65536) / 1024; 56320 + (c - 65536) mod 1024])%N.

(** Decoder state: idle, or inside a multi-byte sequence with the code
    point so far, the continuation bytes still due and the range allowed
    for the next one. *)
Inductive utf8_state : Type :=
| Idle
| Pending (cp : N) (remaining : nat) (lower upper : N).

Definition utf8_lead (b : N) : utf8_state * list N :=
  (if b <=? 127 then (Idle, [b])
   else if (194 <=? b) && (b <=? 223) then (Pending (N.land b 31) 1 128 191, [])
   else if (224 <=? b) && (b <=? 239) then
     (Pending (N.land b 15) 2 (if b =? 224 then 160 else 128) (if b =? 237 then 159 else 191), [])
   else if (240 <=? b) && (b <=? 244) then
     (Pending (N.land b 7) 3 (if b =? 240 then 144 else 128) (if b =? 244 then 143 else 191), [])
   else (Idle, [65533]))%N.

Definition utf8_step (st : utf8_state) (b : N) : utf8_state * list N :=
  match st with
  | Idle => utf8_lead b
  | Pending cp remaining lower upper =>
      if ((lower <=? b) && (b <=? upper))%N then
        let cp' := N.lor (N.shiftl cp 6) (N.land b 63) in
        match remaining with
        | S (S r) => (Pending cp' (S r) 128 191, [])
        | _ => (Idle, utf16_of_codepoint cp')
        end
      else
        let '(st', out) := utf8_lead b in (st', 65533%N :: out)
  end.

Fixpoint utf8_run (st : utf8_state) (bytes : list byte) : jsstring :=
  match bytes with
  | [] => match st with Idle => [] | Pending _ _ _ _ => [65533%N] end
  | b :: rest =>
      let '(st', out) := utf8_step st (Byte.to_N b) in
      out ++ utf8_run st' rest
  end.

Definition toString (b : Buffer) : jsstring := utf8_run Idle b.

(** *** Doubles *)

(** The double nearest to an integer (exact below 2^53). *)
Definition float_of_Z (z : Z) : float :=
  SF2Prim (binary_normalize prec emax z 0 false).

Definition Number_MAX_VALUE : float := 0x1.fffffffffffffp+1023%float.
Definition Number_MIN_VALUE : float := 0x1p-1074%float.

(** The value of an IEEE-754 binary32 bit pattern, as a double. *)
Definition float32_of_bits (bits : Z) : float :=
  let s := 0 <? bits / 2 ^ 31 in
  let e := (bits / 2 ^ 23) mod 256 in
  let m := bits mod 2 ^ 23 in
  SF2Prim
    (if e =? 255 then (if m =? 0 then S754_infinity s else S754_nan)
     else if e =? 0 then (if m =? 0 then S754_zero s else S754_finite s (Z.to_pos m) (-149))
     else S754_finite s (Z.to_pos (m + 2 ^ 23)) (e - 150)).

(** *** Reading numbers from a Buffer *)

(** [buf[i]]: the byte, or [None] for [undefined]. *)
Definition byteAt (b : Buffer) (i : num) : option Z :=
  match i with
  | Int z => if z <? 0 then None else (fun x => Z.of_N (Byte.to_N x)) <$> (b !! Z.to_nat z)
  | NaN => None
  end.

(** [ToInt32]: wrap-around to a signed 32-bit integer, as [<<] does. *)
Definition toInt32 (z : Z) : Z :=
  let u := z mod 2 ^ 32 in if u <? 2 ^ 31 then u else u - 2 ^ 32.

End Js.
Import Js.

(** ** Errors and completions *)

(** One constructor per [throw] site of the program, and the two errors the
    runtime raises on its behalf. *)
Inductive JsError : Type :=
| EntryLengthError (entry : jsstring)        (* MetaDataParser.checkEntry *)
| KeyNotFoundError (key : jsstring)          (* FitsStructure.getMetadataValue *)
| ShouldNotHappenError                       (* FitsStructure.getRawHeaders *)
| InvalidAxesError (n : num)                 (* FitsStructure.numAxis, inside its try *)
| NaxisMissingError                          (* FitsStructure.numAxis, from its catch *)
| AxisIndexError (index : Z) (numAxis : num) (* FitsStructure.sizeAxis *)
| UnsupportedDataTypeError (dataType : jsstring) (* FitsStructure.getDataValues, default case *)
| InvalidPixelDataTypeError (dataType : jsstring) (* FitsStructure.bitsPerPixel *)
| MustLoadFirstError                         (* PrimaryHDU.getHdu, getStructures *)
| RangeError                                 (* Buffer read past the end *)
| TypeError.                                 (* method call on undefined *)

Inductive completion (A : Type) : Type :=
| Normal (a : A)
| Throw (e : JsError)
| Diverge.
Arguments Normal {A} a.
Arguments Throw {A} e.
Arguments Diverge {A}.

(** The error kinds of the design document (its section 7), and the kind
    each throw site of the program belongs to; [None] where the document
    names none. *)
Inductive ErrorKind : Type :=
| MalformedRecord | MissingTerminator | MissingKeyword | InvalidAxisCount
| InvalidAxisIndex | InvalidPixelEncoding | UnsupportedEncoding
| ShapeMismatch | EmptyInput | IndexOutOfRange | IOFailure.

Definition errorKind (e : JsError) : option ErrorKind :=
  match e with
  | EntryLengthError _ => Some MalformedRecord
  | KeyNotFoundError _ => Some MissingKeyword
  | InvalidAxesError _ | NaxisMissingError => Some InvalidAxisCount
  | AxisIndexError _ _ => Some InvalidAxisIndex
  | UnsupportedDataTypeError _ => Some UnsupportedEncoding
  | InvalidPixelDataTypeError _ => Some InvalidPixelEncoding
  | ShouldNotHappenError | MustLoadFirstError | RangeError | TypeError => None
  end.

(** Methods: a computation over the state of [this]. *)
Definition M (S A : Type) : Type := S -> completion A * S.

Definition ret {S A} (a : A) : M S A := fun s => (Normal a, s).
Definition throw {S A} (e : JsError) : M S A := fun s => (Throw e, s).
Definition diverge {S A} : M S A := fun s => (Diverge, s).
Definition lift {S A} (c : completion A) : M S A := fun s => (c, s).
Definition gets {S A} (f : S -> A) : M S A := fun s => (Normal (f s), s).
Definition modify {S} (f : S -> S) : M S unit := fun s => (Normal tt, f s).

Definition bind {S A B} (m : M S A) (k : A -> M S B) : M S B :=
  fun s =>
    match m s with
    | (Normal a, s') => k a s'
    | (Throw e, s') => (Throw e, s')
    | (Diverge, s') => (Diverge, s')
    end.

(** [try { m } catch (error) { h error }] *)
Definition try_catch {S A} (m : M S A) (h : JsError -> M S A) : M S A :=
  fun s =>
    match m s with
    | (Throw e, s') => h e s'
    | r => r
    end.

#[global] Instance completion_bind : MBind completion := fun A B k c =>
  match c with
  | Normal a => k a
  | Throw e => Throw e
  | Diverge => Diverge
  end.
#[global] Instance M_ret {S} : MRet (M S) := fun A => @ret S A.
#[global] Instance M_bind {S} : MBind (M S) := fun A B k m => @bind S A B m k.

(** [array.forEach(callback)] where the callback updates captured locals
    [L] and may throw. *)
Fixpoint forEach {S A L} (f : A -> L -> M S L) (xs : list A) (locals : L) : M S L :=
  match xs with
  | [] => ret locals
  | x :: xs' => locals' ← f x locals; forEach f xs' locals'
  end.

(** *** Reads that raise RangeError *)

Definition readUInt8 (b : Buffer) (offset : num) : completion float :=
  match byteAt b offset with
  | Some v => Normal (float_of_Z v)
  | None => Throw RangeError
  end.

Definition readInt32BE (b : Buffer) (offset : num) : completion float :=
  match byteAt b offset, byteAt b (num_add offset (Int 1)),
        byteAt b (num_add offset (Int 2)), byteAt b (num_add offset (Int 3)) with
  | Some first, Some b1, Some b2, Some last =>
      Normal (float_of_Z (toInt32 (first * 2 ^ 24) + b1 * 2 ^ 16 + b2 * 2 ^ 8 + last))
  | _, _, _, _ => Throw RangeError
  end.

Definition readFloatBE (b : Buffer) (offset : num) : completion float :=
  match byteAt b offset, byteAt b (num_add offset (Int 1)),
        byteAt b (num_add offset (Int 2)), byteAt b (num_add offset (Int 3)) with
  | Some first, Some b1, Some b2, Some last =>
      Normal (float32_of_bits (first * 2 ^ 24 + b1 * 2 ^ 16 + b2 * 2 ^ 8 + last))
  | _, _, _, _ => Throw RangeError
  end.


(** ** class MetaDataParser *)

Module MetaDataParser.

Definition checkEntry (entry : jsstring) : completion unit :=
  if negb (length entry =? 80)%nat
  then Throw (EntryLengthError entry)
  else Normal tt.

Definition isValidKeyword (key : jsstring) : bool :=
  negb (charAt0_is_space key) && (length key =? 8)%nat.

Definition hasValue (entry : jsstring) : bool :=
  bool_decide (substring entry 8 10 = str "= ").

(** [Some key], or [None] where the method returns [undefined]. *)
Definition getKey (entry : jsstring) : completion (option jsstring) :=
  checkEntry entry ;;
  let key := substring entry 0 8 in
  if isValidKeyword key then Normal (Some (trim key)) else Normal None.

Definition getValue (entry : jsstring) : completion jsstring :=
  checkEntry entry ;;
  Normal (trim (split_first (substringFrom entry 9) 47)).

Definition isCommentaryKeyword (key : jsstring) : bool :=
  bool_decide (key ∈ [str "COMMENT"; str "HISTORY"; str "CONTINUE"]).

End MetaDataParser.

(** ** enum PixelDataType *)

Module PixelDataType.
Definition UnsignedBinary : jsstring := str "8".
Definition Signed16 : jsstring := str "16".
Definition Signed32 : jsstring := str "32".
Definition Signed64 : jsstring := str "64".
Definition SingleFloat : jsstring := str "-32".
Definition DoubleFloat : jsstring := str "-64".
(** [Object.values(PixelDataType)] *)
Definition values : list jsstring :=
  [UnsignedBinary; Signed16; Signed32; Signed64; SingleFloat; DoubleFloat].
End PixelDataType.

(** The built-ins whose results depend on tables and algorithms of the
    engine (Unicode case mapping, shortest round-trip number printing, the
    [pow] of the C library): the program is embedded over any runtime. *)
Class Runtime : Type := {
  toLowerCase : jsstring -> jsstring;
  numberToString : float -> jsstring;
  Math_pow : float -> float -> float
}.

(** ** class FitsStructure *)

Module FitsStructure.

Definition BLOCK_SIZE : Z := 2880.
Definition RECORD_SIZE : Z := 80.

Definition numBlocks (numBytes : num) : num := Math_ceil_div numBytes BLOCK_SIZE.

(** The fields of an instance.  [rawHeaders] is [None] while undefined. *)
Record t : Type := mk {
  headers : gmap jsstring jsstring;
  rawHeaders : option (list jsstring);
  commentaryHeaders : gmap jsstring (list jsstring);
  rawData : Buffer
}.

(** [new FitsStructure(data)] *)
Definition new (data : Buffer) : t := mk ∅ None ∅ data.

Definition set_header (key value : jsstring) (this : t) : t :=
  mk (<[key := value]> (headers this)) (rawHeaders this) (commentaryHeaders this) (rawData this).

Definition set_commentary (key : jsstring) (fragments : list jsstring) (this : t) : t :=
  mk (headers this) (rawHeaders this) (<[key := fragments]> (commentaryHeaders this)) (rawData this).

Definition set_rawHeaders (metadata : list jsstring) (this : t) : t :=
  mk (headers this) (Some metadata) (commentaryHeaders this) (rawData this).

Definition getDataBlock (blockNum : Z) : M t Buffer :=
  gets (fun this =>
    subarray (rawData this) (Int ((blockNum - 1) * BLOCK_SIZE)) (Some (Int (blockNum * BLOCK_SIZE)))).

(** The [for] loop runs for i = 0, 80, ..., 2800. *)
Definition getMetadataBlock (blockNum : Z) : M t (list jsstring) :=
  buffer ← getDataBlock blockNum;
  mret (map (fun k : nat =>
               let i := Z.of_nat k * RECORD_SIZE in
               toString (subarray buffer (Int i) (Some (Int (i + RECORD_SIZE)))))
            (seq 0 (Z.to_nat (BLOCK_SIZE / RECORD_SIZE)))).

(** The callback of [block.forEach] in [getRawHeaders]; its captured
    locals are [found] and [metadata]. *)
Definition scanEntry (entry : jsstring) (locals : bool * list jsstring)
  : M t (bool * list jsstring) :=
  let '(found, metadata) := locals in
  let found := if negb found then startsWith entry (str "END") else found in
  let metadata := metadata ++ [entry] in
  key ← lift (MetaDataParser.getKey entry);
  match key with
  | Some ((_ :: _) as key) =>
      if MetaDataParser.isCommentaryKeyword key then
        (* the console.warn for CONTINUE leaves the state alone *)
        existing ← gets (fun this => commentaryHeaders this !! key);
        match existing with
        | None => modify (set_commentary key [])
        | Some _ => mret tt
        end ;;
        commentary ← gets (fun this => commentaryHeaders this !! key);
        match commentary with
        | None => throw ShouldNotHappenError
        | Some c => modify (set_commentary key (c ++ [substringFrom entry 8]))
        end
      else
        value ← lift (MetaDataParser.getValue entry);
        modify (set_header key value)
  | _ => mret tt
  end ;;
  mret (found, metadata).

(** [while (!found) { ... blockNum++ }] *)
Fixpoint getRawHeaders_loop (fuel : nat) (blockNum : Z) (found : bool)
    (metadata : list jsstring) : M t (list jsstring) :=
  if found then mret metadata
  else
    match fuel with
    | O => diverge
    | S fuel' =>
        block ← getMetadataBlock blockNum;
        '(found', metadata') ← forEach scanEntry block (found, metadata);
        getRawHeaders_loop fuel' (blockNum + 1) found' metadata'
    end.

(** The loop cannot pass the first block that reaches the end of the
    data (see [getRawHeaders_no_Diverge]), which bounds its iterations. *)
Definition getRawHeaders : M t (list jsstring) :=
  cached ← gets rawHeaders;
  match cached with
  | Some raw => mret raw
  | None =>
      data ← gets rawData;
      metadata ← getRawHeaders_loop (S (length data / 2880)) 1 false [];
      modify (set_rawHeaders metadata) ;;
      mret metadata
  end.

Definition getHeaderMap : M t (gmap jsstring jsstring) :=
  size0 ← gets (fun this => bool_decide (size (headers this) = 0%nat));
  (if size0 : bool then getRawHeaders ;; mret tt else mret tt) ;;
  gets headers.

Definition getNumHeaderBlocks : M t num :=
  raw ← getRawHeaders;
  mret (numBlocks (num_mul (Int (Z.of_nat (length raw))) (Int RECORD_SIZE))).

Definition getMetadataValue (key : jsstring) : M t jsstring :=
  map ← getHeaderMap;
  match map !! key with
  | Some ((_ :: _) as value) => mret value
  | _ => throw (KeyNotFoundError key)
  end.

Definition numAxis : M t num :=
  try_catch
    (naxis ← getMetadataValue (str "NAXIS");
     let n := parseInt naxis in
     if isNaN n || num_lt n (Int 0) || num_gt n (Int 999)
     then throw (InvalidAxesError n)
     else mret n)
    (fun error => (* console.error(error) *) throw NaxisMissingError).

Definition sizeAxis (index : Z) : M t num :=
  numAxis ← numAxis;
  if isNaN numAxis || num_le numAxis (Int 0)
  then throw (AxisIndexError index numAxis)
  else
    value ← getMetadataValue (str "NAXIS" ++ intToString index);
    mret (parseInt value).

Definition pixelDataType : M t jsstring := getMetadataValue (str "BITPIX").

Definition bitsPerPixel : M t num :=
  dataType ← pixelDataType;
  if bool_decide (dataType ∈ PixelDataType.values)
  then mret (Math_abs (parseInt dataType))
  else throw (InvalidPixelDataTypeError dataType).

(** [for (let i = 1; i <= numAxis; i++)] over the indices still to visit. *)
Fixpoint getDataSize_loop (indices : list Z) (prod : num) : M t num :=
  match indices with
  | [] => mret prod
  | i :: rest =>
      length ← sizeAxis i;
      getDataSize_loop rest (num_mul prod length)
  end.

Definition loop_count (bound : num) : nat :=
  match bound with Int n => Z.to_nat n | NaN => 0%nat end.

Definition getDataSize : M t num :=
  numAxis ← numAxis;
  if num_eq numAxis (Int 0) then mret numAxis
  else
    bits ← bitsPerPixel;
    getDataSize_loop (map Z.of_nat (seq 1 (loop_count numAxis))) (num_div_exact bits 8).

Definition getNumDataBlocks : M t num :=
  size ← getDataSize;
  mret (numBlocks size).

Definition getNumStructureBlocks : M t num :=
  h ← getNumHeaderBlocks;
  d ← getNumDataBlocks;
  mret (num_add h d).

Definition getNumStructureBytes : M t num :=
  blocks ← getNumStructureBlocks;
  mret (num_mul blocks (Int BLOCK_SIZE)).

(** [Some next], or [None] where the method returns [undefined]. *)
Definition getNextStructure : M t (option t) :=
  nextStart ← getNumStructureBytes;
  data ← gets rawData;
  if num_gt (buffer_length data) nextStart
  then mret (Some (new (subarray data nextStart None)))
  else mret None.

Definition getDataUnit : M t Buffer :=
  numAxis ← numAxis;
  if num_eq numAxis (Int 0) then mret []
  else
    startBlock ← getNumHeaderBlocks;
    dataBlocks ← getNumDataBlocks;
    let endBlock := num_add startBlock dataBlocks in
    data ← gets rawData;
    mret (subarray data (num_mul startBlock (Int BLOCK_SIZE))
                        (Some (num_mul endBlock (Int BLOCK_SIZE)))).

(** [while (offset < data.length) { switch (dataType) ... }] *)
Fixpoint getDataValues_loop (fuel : nat) (dataType : jsstring) (bytesPerPixel : num)
    (data : Buffer) (offset : num) (values : list float) : completion (list float) :=
  if num_lt offset (buffer_length data) then
    match fuel with
    | O => Diverge
    | S fuel' =>
        if bool_decide (dataType = PixelDataType.SingleFloat) then
          value ← readFloatBE data offset;
          getDataValues_loop fuel' dataType bytesPerPixel data
            (num_add offset bytesPerPixel) (values ++ [value])
        else if bool_decide (dataType = PixelDataType.Signed32) then
          value ← readInt32BE data offset;
          getDataValues_loop fuel' dataType bytesPerPixel data
            (num_add offset bytesPerPixel) (values ++ [value])
        else if bool_decide (dataType = PixelDataType.UnsignedBinary) then
          value ← readUInt8 data offset;
          getDataValues_loop fuel' dataType bytesPerPixel data
            (num_add offset bytesPerPixel) (values ++ [value])
        else Throw (UnsupportedDataTypeError dataType)
    end
  else Normal values.

(** Each iteration advances [offset] by at least one byte, which bounds
    the loop by the length of the data (see [total_getDataValues]). *)
Definition getDataValues : M t (list float) :=
  data ← getDataUnit;
  dataType ← pixelDataType;
  bits ← bitsPerPixel;
  let bytesPerPixel := num_div_exact bits 8 in
  lift (getDataValues_loop (length data) dataType bytesPerPixel data (Int 0) []).

(** The inner [for] of [getDataValuesArray]: [data[i]] is [None] where
    it is [undefined]. *)
Fixpoint fillRow (cols : nat) (data : list float) (i : nat) (row : list (option float))
  : list (option float) * nat :=
  match cols with
  | O => (row, i)
  | S cols' => fillRow cols' data (S i) (row ++ [data !! i])
  end.

Fixpoint fillRows (rows cols : nat) (data : list float) (i : nat)
    (values : list (list (option float))) : list (list (option float)) :=
  match rows with
  | O => values
  | S rows' =>
      let '(row, i') := fillRow cols data i [] in
      fillRows rows' cols data i' (values ++ [row])
  end.

Definition getDataValuesArray : M t (list (list (option float))) :=
  width ← sizeAxis 1;
  height ← sizeAxis 2;
  data ← getDataValues;
  mret (fillRows (loop_count height) (loop_count width) data 0 []).

Section WithRuntime.
Context `{Runtime}.

(** [xtension && xtension.toLowerCase().includes("image")]: the string
    itself when it is falsy, the boolean otherwise. *)
Definition isImage : M t (jsstring + bool) :=
  xtension ← getMetadataValue (str "XTENSION");
  match xtension with
  | [] => mret (inl xtension)
  | _ :: _ => mret (inr (includes (toLowerCase xtension) (str "image")))
  end.

(** Comparison of strings by code units. *)
Fixpoint string_lt (a b : jsstring) : bool :=
  match a, b with
  | _, [] => false
  | [], _ :: _ => true
  | x :: a', y :: b' => (x <? y)%N || ((x =? y)%N && string_lt a' b')
  end.

(** [array.sort()] without a comparator: numbers are ordered by their
    string conversions, and equal strings keep their order. *)
Fixpoint sort_insert (x : float) (sorted : list float) : list float :=
  match sorted with
  | [] => [x]
  | y :: rest =>
      if string_lt (numberToString x) (numberToString y)
      then x :: y :: rest
      else y :: sort_insert x rest
  end.

Definition Array_sort (data : list float) : list float :=
  foldl (fun sorted x => sort_insert x sorted) [] data.

Record DataStats : Type := mkStats {
  min : float;
  max : float;
  median : option float;   (* [None] for undefined *)
  mean : float;
  stdDev : float
}.

(** [data[data.length / 2]]: an element only at an integer index. *)
Definition index_half (data : list float) : option float :=
  if Nat.even (length data) then data !! (length data / 2)%nat else None.

(** The callback of [data.forEach] in [getDataStats], over the captured
    [min], [max] and [sum]. *)
Definition accumulate (acc : float * float * float) (value : float) : float * float * float :=
  let '(min, max, sum) := acc in
  let min := if (value <? min)%float then value else min in
  let max := if (max <? value)%float then value else max in
  (min, max, (sum + value)%float).

(** The body of [getDataStats] once [data] is at hand. *)
Definition dataStats (data : list float) : DataStats :=
  let data := Array_sort data in   (* sort() works in place *)
  let median := index_half data in
  let '(min, max, sum) := foldl accumulate (Number_MAX_VALUE, Number_MIN_VALUE, 0%float) data in
  let count := float_of_Z (Z.of_nat (length data)) in
  let mean := (sum / count)%float in
  let stdDev :=
    PrimFloat.sqrt
      (foldl (fun sum value => sum + Math_pow (value - mean) 2)%float 0%float data / count) in
  mkStats min max median mean stdDev.

Definition getDataStats : M t DataStats :=
  data ← getDataValues;
  mret (dataStats data).

End WithRuntime.

(** [centerPixel()]: both coordinates are read from CRPIX1. *)
Record Pixel : Type := mkPixel { x : num; y : num }.

Definition centerPixel : M t Pixel :=
  x ← (value ← getMetadataValue (str "CRPIX1"); mret (parseInt value));
  y ← (value ← getMetadataValue (str "CRPIX1"); mret (parseInt value));
  mret (mkPixel x y).

End FitsStructure.

(** ** class PrimaryHDU *)

Module PrimaryHDU.

(** [hdu] and [structures] are [None] while undefined.  The elements of
    [structures] are objects: the list holds the state each has reached. *)
Record t : Type := mk {
  hdu : option FitsStructure.t;
  structures : option (list FitsStructure.t)
}.

(** [new PrimaryHDU(fileName)] *)
Definition new : t := mk None None.

Definition structures_of (this : t) : list FitsStructure.t :=
  match structures this with Some l => l | None => [] end.

(** [while (next) { this.structures.push(next); next = next.getNextStructure(); }]
    The call mutates the object just pushed, so the state it reaches is
    what the list holds. *)
Fixpoint load_loop (fuel : nat) (next : option FitsStructure.t) : M t unit :=
  match next with
  | None => mret tt
  | Some structure =>
      match fuel with
      | O => diverge
      | S fuel' =>
          fun this =>
            let '(result, structure') := FitsStructure.getNextStructure structure in
            let this' := mk (hdu this) (Some (structures_of this ++ [structure'])) in
            match result with
            | Normal next' => load_loop fuel' next' this'
            | Throw e => (Throw e, this')
            | Diverge => (Diverge, this')
            end
      end
  end.

(** [load()], with the bytes that [getFileBuffer] read from the file. *)
Definition load (fuel : nat) (file : Buffer) : M t unit :=
  fun this =>
    match hdu this with
    | Some _ => (Normal tt, this)
    | None =>
        let '(result, primary) := FitsStructure.getNextStructure (FitsStructure.new file) in
        let this' := mk (Some primary) (Some []) in
        match result with
        | Normal next => load_loop fuel next this'
        | Throw e => (Throw e, this')
        | Diverge => (Diverge, this')
        end
    end.

Definition getHdu : M t FitsStructure.t :=
  h ← gets hdu;
  match h with
  | None => throw MustLoadFirstError
  | Some h => mret h
  end.

Definition getStructures : M t (list FitsStructure.t) :=
  s ← gets structures;
  match s with
  | None => throw MustLoadFirstError
  | Some s => mret s
  end.

(** [this.getStructures()[layerNum]]: [None] where it is [undefined]. *)
Definition getStructure (layerNum : nat) : M t (option FitsStructure.t) :=
  s ← getStructures;
  mret (s !! layerNum).

(** The outcome of [getFileBuffer]: its promise resolves with the bytes
    of the file, or is rejected, with the error of [readFile] or by its
    own throw for a missing buffer. *)
Inductive FileRead : Type :=
| Resolved (file : Buffer)
| Rejected.

(** What the promise of [load()] settles to: the completion of its body
    once the bytes are at hand, or the rejection of the read, whose error
    is the file system's. *)
Inductive Settled : Type :=
| Ran (result : completion unit)
| ReadRejected.

(** [load()] with the outcome of the read.  The file is read only while
    [hdu] is undefined, and a rejected read leaves the [await] before
    anything is assigned. *)
Definition loadFile (fuel : nat) (read : FileRead) (this : t) : Settled * t :=
  match hdu this with
  | Some _ => (Ran (Normal tt), this)
  | None =>
      match read with
      | Rejected => (ReadRejected, this)
      | Resolved file => let '(result, this') := load fuel file this in (Ran result, this')
      end
  end.

End PrimaryHDU.

(** ** class Filter *)

Module Filter.

(** A [Filter] object is its [filter] method, which may throw. *)
Definition t : Type := float -> completion float.

(** [Math.max] and [Math.min] of two numbers: NaN if either is NaN, and
    +0 above -0. *)
Definition Math_max (a b : float) : float :=
  if is_nan a || is_nan b then nan
  else if (a <? b)%float then b
  else if (b <? a)%float then a
  else if get_sign a then b else a.

Definition Math_min (a b : float) : float :=
  if is_nan a || is_nan b then nan
  else if (a <? b)%float then a
  else if (b <? a)%float then b
  else if get_sign a then a else b.

(** [median + stdDev] and [median - stdDev] where [median] may be
    [undefined]: [undefined] converts to NaN, and NaN plus or minus any
    number is NaN. *)
Definition plus (median : option float) (stdDev : float) : float :=
  match median with
  | Some m => (m + stdDev)%float
  | None => nan
  end.

Definition minus (median : option float) (stdDev : float) : float :=
  match median with
  | Some m => (m - stdDev)%float
  | None => nan
  end.

Section WithRuntime.
Context `{Runtime}.

(** [Filter.basicFilter(structure)], as a method of the structure. *)
Definition basicFilter : M FitsStructure.t t :=
  stats ← FitsStructure.getDataStats;
  let max := plus (FitsStructure.median stats) (FitsStructure.stdDev stats) in
  let min := minus (FitsStructure.median stats) (FitsStructure.stdDev stats) in
  mret (fun value => Normal (Math_min (Math_max value min) max)).

End WithRuntime.

End Filter.

(** ** class PrimaryHDU: images, statistics and filtered layers *)

Module Layers.

(** The whole object: [hdu] and [structures] as above, with [images] and
    [stats].  The [images] array holds objects that [structures] holds
    too, so it is kept as their indices in [structures]; [stats] is an
    array used as a table from layer numbers. *)
Record t : Type := mk {
  units : PrimaryHDU.t;
  images : option (list nat);
  stats : gmap nat FitsStructure.DataStats
}.

(** [new PrimaryHDU(fileName)] *)
Definition new : t := mk PrimaryHDU.new None ∅.

Definition set_structures (structures : list FitsStructure.t) (this : t) : t :=
  mk (PrimaryHDU.mk (PrimaryHDU.hdu (units this)) (Some structures)) (images this) (stats this).

Definition set_images (indices : list nat) (this : t) : t :=
  mk (units this) (Some indices) (stats this).

Definition set_stats (layerNum : nat) (s : FitsStructure.DataStats) (this : t) : t :=
  mk (units this) (images this) (<[layerNum := s]> (stats this)).

Definition load (fuel : nat) (file : Buffer) : M t unit :=
  fun this =>
    let '(result, units') := PrimaryHDU.load fuel file (units this) in
    (result, mk units' (images this) (stats this)).

Definition getStructures : M t (list FitsStructure.t) :=
  fun this => (fst (PrimaryHDU.getStructures (units this)), this).

(** [this.getStructure(layerNum).method()]: the call changes the object
    in the list; [undefined] has no methods. *)
Definition onStructure {A : Type} (layerNum : nat) (method : M FitsStructure.t A) : M t A :=
  structures ← getStructures;
  match structures !! layerNum with
  | Some structure =>
      let '(result, structure') := method structure in
      modify (set_structures (<[layerNum := structure']> structures)) ;;
      lift result
  | None => throw TypeError
  end.

(** The objects at the indices. *)
Definition objects (indices : list nat) (structures : list FitsStructure.t)
  : list FitsStructure.t :=
  omap (fun i => structures !! i) indices.

(** The truth value of what [isImage] returns. *)
Definition truthy (v : jsstring + bool) : bool :=
  match v with
  | inl s => negb (bool_decide (s = []))
  | inr b => b
  end.

Section WithRuntime.
Context `{Runtime}.

(** [structures.filter((structure) => structure.isImage())], over the
    structures already visited, those still to visit and the indices kept;
    the list it returns with is the state the structures have reached. *)
Fixpoint filter_isImage (visited rest : list FitsStructure.t) (kept : list nat)
  : completion (list nat) * list FitsStructure.t :=
  match rest with
  | [] => (Normal kept, visited)
  | structure :: rest' =>
      let '(result, structure') := FitsStructure.isImage structure in
      match result with
      | Normal v =>
          filter_isImage (visited ++ [structure']) rest'
            (if truthy v then kept ++ [length visited] else kept)
      | Throw e => (Throw e, visited ++ structure' :: rest')
      | Diverge => (Diverge, visited ++ structure' :: rest')
      end
  end.

Definition getImageStructures : M t (list FitsStructure.t) :=
  cached ← gets images;
  match cached with
  | Some indices => gets (fun this => objects indices (PrimaryHDU.structures_of (units this)))
  | None =>
      structures ← getStructures;
      let '(result, structures') := filter_isImage [] structures [] in
      modify (set_structures structures') ;;
      indices ← lift result;
      modify (set_images indices) ;;
      mret (objects indices structures')
  end.

Definition getLayerStats (layerNum : nat) : M t FitsStructure.DataStats :=
  cached ← gets (fun this => stats this !! layerNum);
  match cached with
  | Some s => mret s
  | None =>
      s ← onStructure layerNum FitsStructure.getDataStats;
      modify (set_stats layerNum s) ;;
      mret s
  end.

(** *** [getLayerStats] over the two-dimensional array

    The version of the file without [Filter] computes the statistics of a
    layer from [getDataValuesArray]; it looks into [stats] but never
    stores there. *)

(** [Array.prototype.toString] of a row, which [sort] compares rows by:
    the elements joined by commas, [undefined] being the empty string. *)
Fixpoint rowToString (row : list (option float)) : jsstring :=
  match row with
  | [] => []
  | value :: rest =>
      (match value with Some v => numberToString v | None => [] end)
      ++ match rest with
         | [] => []
         | _ :: _ => 44%N :: rowToString rest
         end
  end.

Fixpoint sort_insert_row (row : list (option float)) (sorted : list (list (option float)))
  : list (list (option float)) :=
  match sorted with
  | [] => [row]
  | other :: rest =>
      if FitsStructure.string_lt (rowToString row) (rowToString other)
      then row :: other :: rest
      else other :: sort_insert_row row rest
  end.

Definition sort_rows (data : list (list (option float))) : list (list (option float)) :=
  foldl (fun sorted row => sort_insert_row row sorted) [] data.

(** The callback of the inner [row.forEach]: a comparison with [undefined]
    is false, and adding [undefined] makes the sum NaN. *)
Definition accumulate_entry (acc : float * float * float) (value : option float)
  : float * float * float :=
  match value with
  | Some v => FitsStructure.accumulate acc v
  | None => let '(min, max, _) := acc in (min, max, nan)
  end.

(** [sum + Math.pow(value - mean, 2)] *)
Definition add_square (mean : float) (sum : float) (value : option float) : float :=
  match value with
  | Some v => (sum + Math_pow (v - mean) 2)%float
  | None => nan
  end.

Record RowStats : Type := mkRowStats {
  rows_min : float;
  rows_max : float;
  rows_median : option (list (option float));   (* a row, or [None] for undefined *)
  rows_mean : float;
  rows_foo : float
}.

(** The body of the method once [data] is at hand; [data[0].length] throws
    when there is no row. *)
Definition rowStats (data : list (list (option float))) : completion RowStats :=
  let data := sort_rows data in   (* sort() works in place *)
  let median := if Nat.even (length data) then data !! (length data / 2)%nat else None in
  let '(min, max, sum) :=
    foldl (fun acc row => foldl accumulate_entry acc row)
      (Number_MAX_VALUE, Number_MIN_VALUE, 0%float) data in
  match data with
  | [] => Throw TypeError
  | first :: _ =>
      let mean :=
        (sum / float_of_Z (Z.of_nat (length data) * Z.of_nat (length first)))%float in
      let foo :=
        foldl (fun rowSum row => (rowSum + foldl (add_square mean) 0 row)%float)
          0%float data in
      Normal (mkRowStats min max median mean foo)
  end.

(** The cached object when [stats] has one, the computed one otherwise. *)
Definition getLayerStats_rows (layerNum : nat) : M t (FitsStructure.DataStats + RowStats) :=
  cached ← gets (fun this => stats this !! layerNum);
  match cached with
  | Some s => mret (inl s)
  | None =>
      data ← onStructure layerNum FitsStructure.getDataValuesArray;
      s ← lift (rowStats data);
      mret (inr s)
  end.

(** [data.forEach((value) => filtered.push(filter.filter(value)))] *)
Fixpoint filterEach (filter : Filter.t) (data filtered : list float) : completion (list float) :=
  match data with
  | [] => Normal filtered
  | value :: data' =>
      v ← filter value;
      filterEach filter data' (filtered ++ [v])
  end.

(** [filterLayer(layerNum, filter?)]; [None] for an omitted filter. *)
Definition filterLayer (layerNum : nat) (filter : option Filter.t) : M t (list float) :=
  filter ← match filter with
           | Some f => mret f
           | None => onStructure layerNum Filter.basicFilter
           end;
  data ← onStructure layerNum FitsStructure.getDataValues;
  lift (filterEach filter data []).

End WithRuntime.

End Layers.

(** ** A reference runtime and sample files *)

Module Samples.

(** ASCII case mapping: what [toLowerCase] does on ASCII strings. *)
Definition ascii_toLowerCase (s : jsstring) : jsstring :=
  map (fun c => if ((65 <=? c) && (c <=? 90))%N then (c + 32)%N else c) s.

Definition integer_of_float (f : float) : option Z :=
  match Prim2SF f with
  | S754_zero _ => Some 0
  | S754_finite s m e =>
      let sign := if s then -1 else 1 in
      if 0 <=? e then Some (sign * (Z.pos m * 2 ^ e))
      else if Z.pos m mod 2 ^ (- e) =? 0 then Some (sign * (Z.pos m / 2 ^ (- e)))
      else None
  | _ => None
  end.

(** Number-to-string conversion of NaN, the infinities and the
    integer-valued doubles below 10^21, which print as their decimal
    digits.  Other doubles are not printed (the empty string stands in);
    no evaluation below reaches them. *)
Definition integer_numberToString (f : float) : jsstring :=
  match Prim2SF f with
  | S754_nan => str "NaN"
  | S754_infinity s => if s then str "-Infinity" else str "Infinity"
  | _ => match integer_of_float f with
         | Some z => intToString z
         | None => []
         end
  end.

(** [Math.pow(x, 2)] as the product, which is exact on small integers. *)
Definition square_pow (x y : float) : float := (x * x)%float.

Definition runtime : Runtime :=
  {| toLowerCase := ascii_toLowerCase;
     numberToString := integer_numberToString;
     Math_pow := square_pow |}.

(** An 80-byte header record: the text, then spaces. *)
Definition card (s : string) : list byte :=
  take 80 (list_byte_of_string s ++ repeat " "%byte 80).

(** A 2880-byte header block: the records, then blank records. *)
Definition headerBlock (cards : list string) : list byte :=
  take 2880 (concat (map card cards) ++ repeat " "%byte 2880).

(** A 2880-byte data block: the bytes, then zero fill. *)
Definition dataBlock (bytes : list byte) : list byte :=
  take 2880 (bytes ++ repeat x00 2880).

Definition primary_header : list byte :=
  headerBlock ["SIMPLE  =                    T";
               "BITPIX  =                    8";
               "NAXIS   =                    0";
               "END"]%string.

Definition image_header : list byte :=
  headerBlock ["XTENSION= 'IMAGE   '";
               "BITPIX  =                    8";
               "NAXIS   =                    2";
               "NAXIS1  =                    2";
               "NAXIS2  =                    2";
               "END"]%string.

(** Two units: a primary unit without data, then a 2 x 2 image of
    unsigned bytes 10, 20, 30, 40, its data block filled to 2880 bytes. *)
Definition two_unit_file : Buffer :=
  primary_header ++ image_header ++ dataBlock [x0a; x14; x1e; x28].

(** The same file cut off after its four data bytes. *)
Definition two_unit_file_cut : Buffer :=
  primary_header ++ image_header ++ [x0a; x14; x1e; x28].

(** One unit with five unsigned samples 1..5, cut off after them. *)
Definition five_samples_file : Buffer :=
  headerBlock ["SIMPLE  =                    T";
               "BITPIX  =                    8";
               "NAXIS   =                    1";
               "NAXIS1  =                    5";
               "END"]%string
  ++ [x01; x02; x03; x04; x05].

(** One unit that declares a negative axis length. *)
Definition negative_axis_file : Buffer :=
  headerBlock ["SIMPLE  =                    T";
               "BITPIX  =                    8";
               "NAXIS   =                    1";
               "NAXIS1  =                -5000";
               "END"]%string.

(** One unit of a single 16-bit sample. *)
Definition int16_file : Buffer :=
  headerBlock ["SIMPLE  =                    T";
               "BITPIX  =                   16";
               "NAXIS   =                    1";
               "NAXIS1  =                    1";
               "END"]%string
  ++ dataBlock [x00; x01].

(** One unit of two 32-bit integers, -2 and 256, cut off after them. *)
Definition int32_file : Buffer :=
  headerBlock ["SIMPLE  =                    T";
               "BITPIX  =                   32";
               "NAXIS   =                    1";
               "NAXIS1  =                    2";
               "END"]%string
  ++ [xff; xff; xff; xfe; x00; x00; x01; x00].

(** A header with a keyword whose value field holds only a comment. *)
Definition blank_value_file : Buffer :=
  headerBlock ["SIMPLE  =                    T";
               "BITPIX  =                    8";
               "NAXIS   =                    0";
               "OBSERVER=                      / not recorded";
               "END"]%string.

(** A full header block of blank records: no END anywhere. *)
Definition no_end_file : Buffer := headerBlock [].

(** The second unit of the two-unit files: the view from byte 2880 on,
    and the state it is in once [getNextStructure] has run on it. *)
Definition image_unit (file : Buffer) : FitsStructure.t :=
  FitsStructure.new (drop 2880 file).

Definition image_unit_scanned (file : Buffer) : FitsStructure.t :=
  snd (FitsStructure.getNextStructure (image_unit file)).

(** What [load] leaves in a [PrimaryHDU] for a two-unit file: the primary
    unit in [hdu], and its one successor in [structures]. *)
Definition loaded (file : Buffer) : PrimaryHDU.t :=
  PrimaryHDU.mk
    (Some (snd (FitsStructure.getNextStructure (FitsStructure.new file))))
    (Some [image_unit_scanned file]).

End Samples.

(** ** Further sample files *)

Module Files.
Import Samples.

(** A header that repeats a keyword, carries commentary, and has a record
    after END. *)
Definition repeated_keyword_file : Buffer :=
  headerBlock ["SIMPLE  =                    T";
               "BITPIX  =                    8";
               "NAXIS   =                    0";
               "OBSERVER= 'first'";
               "COMMENT  one";
               "OBSERVER= 'second' / the later record";
               "HISTORY  made by hand";
               "COMMENT  two";
               "END";
               "ORIGIN  = 'after the end'"]%string.

(** A full header block with keywords and no END. *)
Definition unterminated_file : Buffer :=
  headerBlock ["SIMPLE  =                    T";
               "BITPIX  =                    8";
               "NAXIS   =                    0"]%string.

(** One unit of two 32-bit integers, cut off two bytes short. *)
Definition int32_cut_file : Buffer :=
  headerBlock ["SIMPLE  =                    T";
               "BITPIX  =                   32";
               "NAXIS   =                    1";
               "NAXIS1  =                    2";
               "END"]%string
  ++ [xff; xff; xff; xfe; x00; x00].

(** One unit of four unsigned samples, all zero, cut off after them. *)
Definition zero_samples_file : Buffer :=
  headerBlock ["SIMPLE  =                    T";
               "BITPIX  =                    8";
               "NAXIS   =                    1";
               "NAXIS1  =                    4";
               "END"]%string
  ++ [x00; x00; x00; x00].

(** A header with the reference pixel of both axes. *)
Definition reference_pixel_file : Buffer :=
  headerBlock ["SIMPLE  =                    T";
               "BITPIX  =                    8";
               "NAXIS   =                    0";
               "CRPIX1  =                   10";
               "CRPIX2  =                   20";
               "END"]%string.

(** Two units, the second without an XTENSION record. *)
Definition bare_extension_file : Buffer := primary_header ++ primary_header.

(** Two units, the second with the five samples 1..5. *)
Definition five_samples_layer_file : Buffer := primary_header ++ five_samples_file.

(** A [PrimaryHDU] object after [load] on a file. *)
Definition loaded_layers (fuel : nat) (file : Buffer) : Layers.t :=
  snd (Layers.load fuel file Layers.new).

(** One unit whose BITPIX value, 12, is none of the six of the
    enumeration; it has one axis and two data bytes. *)
Definition invalid_bitpix_file : Buffer :=
  headerBlock ["SIMPLE  =                    T";
               "BITPIX  =                   12";
               "NAXIS   =                    1";
               "NAXIS1  =                    2";
               "END"]%string
  ++ dataBlock [x00; x01].

(** A header of two blocks: in the first, END stands two columns to the
    right; the second starts with an END record. *)
Definition indented_end_file : Buffer :=
  headerBlock ["SIMPLE  =                    T";
               "BITPIX  =                    8";
               "NAXIS   =                    0";
               "  END"]%string
  ++ headerBlock ["END"]%string.

(** One unit of the four unsigned samples 9, 10, 100 and 2, cut off after
    them: their order as strings is 10, 100, 2, 9. *)
Definition string_order_file : Buffer :=
  headerBlock ["SIMPLE  =                    T";
               "BITPIX  =                    8";
               "NAXIS   =                    1";
               "NAXIS1  =                    4";
               "END"]%string
  ++ [x09; x0a; x64; x02].

End Files.

(** ** Vocabulary of the properties *)

Module View.

(** The record at index [j] of a view: the 80 bytes from offset 80 j, as
    the string [toString] makes of them. *)
Definition recordAt (data : Buffer) (j : nat) : jsstring :=
  toString (subarray data (Int (80 * Z.of_nat j)) (Some (Int (80 * Z.of_nat j + 80)))).

(** A terminator record, as the scan recognises it. *)
Definition isTerminator (entry : jsstring) : bool := startsWith entry (str "END").

(** A terminator record in the words of the design document (its
    sections 3 and 4.2): a record whose trimmed content begins with END. *)
Definition isTerminatorTrimmed (entry : jsstring) : bool :=
  startsWith (trim entry) (str "END").

(** The entries [getMetadataBlock] makes of block [blockNum]. *)
Definition blockEntries (data : Buffer) (blockNum : Z) : list jsstring :=
  map (fun k : nat =>
         let i := Z.of_nat k * FitsStructure.RECORD_SIZE in
         toString
           (subarray
              (subarray data (Int ((blockNum - 1) * FitsStructure.BLOCK_SIZE))
                 (Some (Int (blockNum * FitsStructure.BLOCK_SIZE))))
              (Int i) (Some (Int (i + FitsStructure.RECORD_SIZE)))))
      (seq 0 36).

(** Two states of one unit that differ at most in the keyword and
    commentary maps. *)
Definition same_view (this this' : FitsStructure.t) : Prop :=
  FitsStructure.rawData this' = FitsStructure.rawData this
  /\ FitsStructure.rawHeaders this' = FitsStructure.rawHeaders this.

(** What an unfinished multi-byte sequence still owes the output. *)
Definition utf8_debt (st : utf8_state) : nat :=
  match st with Idle => 0 | Pending _ _ _ _ => 1 end.

(** Big-endian reading of a group of bytes, and the two's-complement value
    of an unsigned [bits]-bit number. *)
Definition be_unsigned (bytes : list byte) : Z :=
  foldl (fun acc b => acc * 256 + Z.of_N (Byte.to_N b)) 0 bytes.

Definition twos_complement (bits u : Z) : Z :=
  if u <? 2 ^ (bits - 1) then u else u - 2 ^ bits.

(** The three encodings [getDataValues] decodes, their strides in bytes,
    and the number each stride stands for. *)
Definition decodable : list jsstring :=
  [PixelDataType.UnsignedBinary; PixelDataType.Signed32; PixelDataType.SingleFloat].

Definition undecodable : list jsstring :=
  [PixelDataType.Signed16; PixelDataType.Signed64; PixelDataType.DoubleFloat].

Definition strideOf (dataType : jsstring) : nat :=
  if bool_decide (dataType = PixelDataType.UnsignedBinary) then 1 else 4.

Definition decodeStride (dataType : jsstring) (bytes : list byte) : float :=
  if bool_decide (dataType = PixelDataType.UnsignedBinary) then float_of_Z (be_unsigned bytes)
  else if bool_decide (dataType = PixelDataType.Signed32)
  then float_of_Z (twos_complement 32 (be_unsigned bytes))
  else float32_of_bits (be_unsigned bytes).

(** The consecutive groups of [stride] bytes of a byte range. *)
Definition strides (stride : nat) (data : list byte) : list (list byte) :=
  map (fun k => take stride (drop (k * stride) data)) (seq 0 (length data / stride)).

(** Once [rawHeaders] is set, no method changes the unit any more. *)
Definition preserves {A : Type} (m : M FitsStructure.t A) : Prop :=
  forall this raw, FitsStructure.rawHeaders this = Some raw -> snd (m this) = this.

(** A method that starts with the scan: on a new unit it does what it does
    on the unit the scan leaves. *)
Definition scans_first {A : Type} (m : M FitsStructure.t A) : Prop :=
  forall data raw this,
    FitsStructure.getRawHeaders (FitsStructure.new data) = (Normal raw, this) ->
    m (FitsStructure.new data) = m this.

(** The states in which the program holds a unit: as [new] made it, or
    with its header cached by an earlier call. *)
Definition ready (this : FitsStructure.t) : Prop :=
  this = FitsStructure.new (FitsStructure.rawData this)
  \/ is_Some (FitsStructure.rawHeaders this).

(** [Diverge] marks a loop that used up the bound the model gives it.
    No method of a unit completes with it: the bounds are never reached. *)
Definition total {A : Type} (m : M FitsStructure.t A) : Prop :=
  forall this, fst (m this) <> Diverge.

End View.

Module Header.

(** The keyword a record carries, for the scan: the first eight
    characters trimmed, when they do not start with a space and are not
    blank. *)
Definition keyOf (entry : jsstring) : option jsstring :=
  if MetaDataParser.isValidKeyword (substring entry 0 8)
  then match trim (substring entry 0 8) with
       | [] => None
       | key => Some key
       end
  else None.

(** The value field of a record, as [getValue] cuts it out. *)
Definition valueOf (entry : jsstring) : jsstring :=
  trim (split_first (substringFrom entry 9) 47).

(** What the scan does to the two maps of a unit for one record of 80
    characters. *)
Definition store (this : FitsStructure.t) (entry : jsstring) : FitsStructure.t :=
  match keyOf entry with
  | Some key =>
      if MetaDataParser.isCommentaryKeyword key
      then FitsStructure.set_commentary key
             (default [] (FitsStructure.commentaryHeaders this !! key)
              ++ [substringFrom entry 8]) this
      else FitsStructure.set_header key (valueOf entry) this
  | None => this
  end.

(** The records of a header that carry a keyword, in file order. *)
Definition recordsOf (key : jsstring) (raw : list jsstring) : list jsstring :=
  filter (fun entry => keyOf entry = Some key) raw.

(** What a header declares for a keyword: the value field of the last
    record that carries it; nothing for a commentary keyword. *)
Definition declared (key : jsstring) (raw : list jsstring) : option jsstring :=
  if MetaDataParser.isCommentaryKeyword key then None
  else valueOf <$> last (recordsOf key raw).

End Header.

Module Encoding.

(** The byte of value [z mod 256]. *)
Definition byte_of_Z (z : Z) : byte :=
  default x00 (Byte.of_N (Z.to_N (z mod 256))).

(** The four bytes of a 32-bit two's-complement integer, most significant
    first: what a FITS writer stores for BITPIX = 32. *)
Definition int32_bytes (z : Z) : list byte :=
  let u := z mod 2 ^ 32 in
  [byte_of_Z (u / 2 ^ 24); byte_of_Z (u / 2 ^ 16); byte_of_Z (u / 2 ^ 8); byte_of_Z u].

(** Rows of [width] entries cut from a flat list in row-major order; an
    entry past the end of the list is [None]. *)
Definition rowMajor (height width : nat) (data : list float) : list (list (option float)) :=
  map (fun row => map (fun col => data !! (row * width + col)%nat) (seq 0 width))
      (seq 0 height).

(** A byte of the ASCII range, the 80 bytes of record [j] of a view, and
    the test for a record that starts with the bytes of END. *)
Definition isAscii (b : byte) : bool := (Byte.to_N b <? 128)%N.

Definition recordBytes (data : Buffer) (j : nat) : list byte :=
  take 80 (drop (80 * j) data).

Definition startsWithEND (bytes : list byte) : bool :=
  startsWith (map Byte.to_N bytes) (str "END").

End Encoding.

Module Chain.

(** The state in which [load] stores the unit on a view: what
    [getNextStructure] leaves of the new unit. *)
Definition scanned (view : Buffer) : FitsStructure.t :=
  snd (FitsStructure.getNextStructure (FitsStructure.new view)).

(** [views] are the successive successors of [view], and the last of them
    has none. *)
Fixpoint successors (view : Buffer) (views : list Buffer) : Prop :=
  match views with
  | [] => fst (FitsStructure.getNextStructure (FitsStructure.new view)) = Normal None
  | next :: rest =>
      fst (FitsStructure.getNextStructure (FitsStructure.new view))
      = Normal (Some (FitsStructure.new next))
      /\ successors next rest
  end.

End Chain.

Module Images.

(** What [isImage] finds in the keyword map of a unit: whether the
    XTENSION value, in lower case, contains "image"; [None] without a
    non-empty XTENSION value. *)
Definition isImageOf `{Runtime} (structure : FitsStructure.t) : option bool :=
  match FitsStructure.headers structure !! str "XTENSION" with
  | Some ((_ :: _) as xtension) => Some (includes (toLowerCase xtension) (str "image"))
  | _ => None
  end.

(** The indices of a list at which a test holds, in ascending order. *)
Fixpoint positions {A : Type} (test : A -> bool) (l : list A) : list nat :=
  match l with
  | [] => []
  | a :: l' => (if test a then [0%nat] else []) ++ map S (positions test l')
  end.

End Images.
Import View.

Import Samples.

Import Files Header Encoding Chain Images.

(** * Properties *)

Ltac unfold_M :=
  unfold mbind, mret, M_bind, M_ret, completion_bind, bind, ret, lift, gets,
    modify, throw, diverge, try_catch.

(** ** Slices of a buffer *)

Lemma subarray_range (b : Buffer) (s e : Z) :
  0 <= s <= e ->
  subarray b (Int s) (Some (Int e)) = take (Z.to_nat (e - s)) (drop (Z.to_nat s) b).
Proof.
  intros [Hs He]. unfold subarray, adjustOffset.
  destruct (Z.ltb_spec s 0); [lia|]. destruct (Z.ltb_spec e 0); [lia|].
  destruct (Z.le_gt_cases s (Z.of_nat (length b))).
  - rewrite (Z.min_l s) by lia.
    destruct (Z.le_gt_cases e (Z.of_nat (length b))).
    + rewrite Z.min_l by lia. f_equal. lia.
    + rewrite Z.min_r by lia.
      rewrite !take_ge; [reflexivity | rewrite length_drop; lia | rewrite length_drop; lia].
  - rewrite !Z.min_r by lia. rewrite Nat2Z.id, Nat.sub_diag, take_0.
    rewrite (drop_ge b (Z.to_nat s)) by lia. now rewrite take_nil.
Qed.

Lemma recordAt_bytes (data : Buffer) (j : nat) :
  recordAt data j = toString (take 80 (drop (80 * j) data)).
Proof.
  unfold recordAt. rewrite subarray_range by lia. do 2 f_equal; [|f_equal]; lia.
Qed.

Lemma seq_offset (a len : nat) :
  forall b, seq (a + b) len = map (fun k => (a + k)%nat) (seq b len).
Proof.
  induction len as [|len IH]; intros b; [reflexivity|].
  cbn [seq map]. f_equal. rewrite <- IH. f_equal. lia.
Qed.

Lemma blockEntries_records (data : Buffer) (m : nat) :
  blockEntries data (Z.of_nat (S m)) = map (recordAt data) (seq (36 * m) 36).
Proof.
  unfold blockEntries.
  replace (seq (36 * m) 36) with (map (fun k => (36 * m + k)%nat) (seq 0 36))
    by (rewrite <- seq_offset; f_equal; lia).
  rewrite map_map. apply map_ext_in. intros k Hk. apply in_seq in Hk.
  rewrite recordAt_bytes. unfold FitsStructure.RECORD_SIZE, FitsStructure.BLOCK_SIZE.
  rewrite !subarray_range by lia. f_equal.
  replace (Z.to_nat (Z.of_nat k * 80 + 80 - Z.of_nat k * 80)) with 80%nat by lia.
  replace (Z.to_nat (Z.of_nat (S m) * 2880 - (Z.of_nat (S m) - 1) * 2880)) with (80 * k + (2880 - 80 * k))%nat by lia.
  replace (Z.to_nat (Z.of_nat k * 80)) with (80 * k)%nat by lia.
  replace (Z.to_nat ((Z.of_nat (S m) - 1) * 2880)) with (2880 * m)%nat by lia.
  rewrite <- take_drop_commute, take_take, drop_drop.
  f_equal; [|f_equal]; lia.
Qed.

Lemma getMetadataBlock_entries (blockNum : Z) (this : FitsStructure.t) :
  FitsStructure.getMetadataBlock blockNum this
  = (Normal (blockEntries (FitsStructure.rawData this) blockNum), this).
Proof. reflexivity. Qed.

(** ** The UTF-8 decoder never makes more code units than it reads bytes *)

Lemma utf16_of_codepoint_length (c : N) : (length (utf16_of_codepoint c) <= 2)%nat.
Proof. unfold utf16_of_codepoint. destruct (c <? 65536)%N; cbn; lia. Qed.

Lemma utf8_lead_length (b : N) :
  (length (snd (utf8_lead b)) + utf8_debt (fst (utf8_lead b)) <= 1)%nat.
Proof.
  unfold utf8_lead.
  repeat match goal with |- context [if ?c then _ else _] => destruct c end; cbn; lia.
Qed.

Lemma utf8_step_length (st : utf8_state) (b : N) :
  (length (snd (utf8_step st b)) + utf8_debt (fst (utf8_step st b)) <= 1 + utf8_debt st)%nat.
Proof.
  destruct st as [|cp remaining lower upper]; cbn [utf8_step utf8_debt].
  - pose proof (utf8_lead_length b). lia.
  - destruct ((lower <=? b)%N && (b <=? upper)%N).
    + destruct remaining as [|[|r]]; cbn [fst snd utf8_debt length];
        try (pose proof (utf16_of_codepoint_length (N.lor (N.shiftl cp 6) (N.land b 63)))); lia.
    + pose proof (utf8_lead_length b). destruct (utf8_lead b) as [st' out].
      cbn [fst snd length] in *. lia.
Qed.

Lemma utf8_run_length (bytes : list byte) :
  forall st, (length (utf8_run st bytes) <= length bytes + utf8_debt st)%nat.
Proof.
  induction bytes as [|b rest IH]; intros st.
  - destruct st; cbn; lia.
  - cbn [utf8_run]. pose proof (utf8_step_length st (Byte.to_N b)) as Hstep.
    destruct (utf8_step st (Byte.to_N b)) as [st' out]. cbn [fst snd] in Hstep.
    rewrite length_app. specialize (IH st'). cbn [length]. lia.
Qed.

Lemma toString_length (bytes : Buffer) : (length (toString bytes) <= length bytes)%nat.
Proof. unfold toString. pose proof (utf8_run_length bytes Idle). cbn in *. lia. Qed.

(** A record of 80 characters lies wholly inside the view. *)
Lemma recordAt_full (data : Buffer) (j : nat) :
  length (recordAt data j) = 80%nat -> (80 * j + 80 <= length data)%nat.
Proof.
  rewrite recordAt_bytes. intros Hlen.
  pose proof (toString_length (take 80 (drop (80 * j) data))) as Hle.
  rewrite Hlen, length_take, length_drop in Hle. lia.
Qed.

(** ** One record of the scan *)

Lemma same_view_refl (this : FitsStructure.t) : same_view this this.
Proof. split; reflexivity. Qed.

Lemma same_view_trans (a b c : FitsStructure.t) :
  same_view a b -> same_view b c -> same_view a c.
Proof. intros [H1 H2] [H3 H4]. split; congruence. Qed.

Lemma getKey_bad_length (entry : jsstring) :
  length entry <> 80%nat -> MetaDataParser.getKey entry = Throw (EntryLengthError entry).
Proof.
  intros Hlen. unfold MetaDataParser.getKey, MetaDataParser.checkEntry.
  destruct (Nat.eqb_spec (length entry) 80); [contradiction|reflexivity].
Qed.

Lemma getKey_good_length (entry : jsstring) :
  length entry = 80%nat ->
  MetaDataParser.getKey entry
  = Normal (if MetaDataParser.isValidKeyword (substring entry 0 8)
            then Some (trim (substring entry 0 8)) else None).
Proof.
  intros Hlen. unfold MetaDataParser.getKey, MetaDataParser.checkEntry.
  rewrite Hlen. cbn. destruct (MetaDataParser.isValidKeyword _); reflexivity.
Qed.

Lemma getValue_good_length (entry : jsstring) :
  length entry = 80%nat ->
  MetaDataParser.getValue entry = Normal (trim (split_first (substringFrom entry 9) 47)).
Proof.
  intros Hlen. unfold MetaDataParser.getValue, MetaDataParser.checkEntry.
  rewrite Hlen. reflexivity.
Qed.

Lemma scanEntry_bad_length (entry : jsstring) (locals : bool * list jsstring)
    (this : FitsStructure.t) :
  length entry <> 80%nat ->
  FitsStructure.scanEntry entry locals this = (Throw (EntryLengthError entry), this).
Proof.
  intros Hlen. destruct locals as [found metadata].
  unfold FitsStructure.scanEntry. unfold_M. rewrite (getKey_bad_length entry Hlen).
  reflexivity.
Qed.

Lemma scanEntry_good_length (entry : jsstring) (found : bool) (metadata : list jsstring)
    (this : FitsStructure.t) :
  length entry = 80%nat ->
  exists this',
    FitsStructure.scanEntry entry (found, metadata) this
    = (Normal (found || isTerminator entry, metadata ++ [entry]), this')
    /\ same_view this this'.
Proof.
  intros Hlen. unfold FitsStructure.scanEntry. unfold_M.
  rewrite (getKey_good_length entry Hlen).
  replace (if negb found then startsWith entry (str "END") else found)
    with (found || isTerminator entry) by (destruct found; reflexivity).
  destruct (MetaDataParser.isValidKeyword (substring entry 0 8));
    [|eexists; split; [reflexivity | apply same_view_refl]].
  destruct (trim (substring entry 0 8)) as [|c key];
    [eexists; split; [reflexivity | apply same_view_refl]|].
  destruct (MetaDataParser.isCommentaryKeyword (c :: key)).
  - destruct (FitsStructure.commentaryHeaders this !! (c :: key)) as [fragments|] eqn:Hget.
    + rewrite Hget. eexists. split; [reflexivity | split; reflexivity].
    + cbn [FitsStructure.set_commentary FitsStructure.commentaryHeaders].
      rewrite lookup_insert_eq. eexists. split; [reflexivity | split; reflexivity].
  - rewrite (getValue_good_length entry Hlen).
    eexists. split; [reflexivity | split; reflexivity].
Qed.

(** ** One block of the scan *)

Lemma forEach_scanEntry (entries : list jsstring) :
  forall (found : bool) (metadata : list jsstring) (this : FitsStructure.t),
  exists this',
    same_view this this'
    /\ ((Forall (fun entry => length entry = 80%nat) entries
         /\ forEach FitsStructure.scanEntry entries (found, metadata) this
            = (Normal (found || existsb isTerminator entries, metadata ++ entries), this'))
        \/ (exists good bad rest,
              entries = good ++ bad :: rest
              /\ Forall (fun entry => length entry = 80%nat) good
              /\ length bad <> 80%nat
              /\ forEach FitsStructure.scanEntry entries (found, metadata) this
                 = (Throw (EntryLengthError bad), this'))).
Proof.
  induction entries as [|entry entries IH]; intros found metadata this.
  - exists this. split; [apply same_view_refl|]. left. split; [constructor|].
    cbn. rewrite orb_false_r, app_nil_r. reflexivity.
  - cbn [forEach]. unfold mbind, M_bind, bind.
    destruct (Nat.eq_dec (length entry) 80%nat) as [Hlen | Hlen].
    + destruct (scanEntry_good_length entry found metadata this Hlen) as (this1 & -> & Hsame1).
      destruct (IH (found || isTerminator entry) (metadata ++ [entry]) this1)
        as (this' & Hsame & [[Hall Hrun] | (good & bad & rest & -> & Hgood & Hbad & Hrun)]).
      * exists this'. split; [eapply same_view_trans; eassumption|]. left.
        split; [constructor; assumption|]. rewrite Hrun. cbn [existsb].
        rewrite orb_assoc, <- app_assoc. reflexivity.
      * exists this'. split; [eapply same_view_trans; eassumption|]. right.
        exists (entry :: good), bad, rest.
        split; [reflexivity|]. split; [constructor; assumption|].
        split; [assumption|exact Hrun].
    + rewrite (scanEntry_bad_length entry (found, metadata) this Hlen).
      exists this. split; [apply same_view_refl|]. right.
      exists [], entry, entries. split; [reflexivity|]. split; [constructor|].
      split; [assumption|reflexivity].
Qed.

Lemma forEach_scanEntry_good (entries : list jsstring) (found : bool)
    (metadata : list jsstring) (this : FitsStructure.t) :
  Forall (fun entry => length entry = 80%nat) entries ->
  exists this',
    same_view this this'
    /\ forEach FitsStructure.scanEntry entries (found, metadata) this
       = (Normal (found || existsb isTerminator entries, metadata ++ entries), this').
Proof.
  intros Hall.
  destruct (forEach_scanEntry entries found metadata this)
    as (this' & Hsame & [[_ Hrun] | (good & bad & rest & -> & _ & Hbad & _)]).
  - exists this'. split; assumption.
  - apply Forall_app in Hall. destruct Hall as [_ Hall].
    apply Forall_cons in Hall. destruct Hall as [Hlen _]. contradiction.
Qed.

(** ** The loop over the blocks *)

Lemma getRawHeaders_loop_found (fuel : nat) (blockNum : Z) (metadata : list jsstring)
    (this : FitsStructure.t) :
  FitsStructure.getRawHeaders_loop fuel blockNum true metadata this = (Normal metadata, this).
Proof. destruct fuel; reflexivity. Qed.

Lemma getRawHeaders_loop_step (fuel : nat) (m : nat) (metadata : list jsstring)
    (this : FitsStructure.t) :
  FitsStructure.getRawHeaders_loop (S fuel) (Z.of_nat (S m)) false metadata this
  = match forEach FitsStructure.scanEntry
            (map (recordAt (FitsStructure.rawData this)) (seq (36 * m) 36))
            (false, metadata) this with
    | (Normal (found', metadata'), this') =>
        FitsStructure.getRawHeaders_loop fuel (Z.of_nat (S (S m))) found' metadata' this'
    | (Throw e, this') => (Throw e, this')
    | (Diverge, this') => (Diverge, this')
    end.
Proof.
  cbn [FitsStructure.getRawHeaders_loop]. unfold mbind, M_bind, bind.
  rewrite getMetadataBlock_entries, blockEntries_records.
  destruct (forEach _ _ _ _) as [[[found' metadata']| |] this']; try reflexivity.
  replace (Z.of_nat (S m) + 1) with (Z.of_nat (S (S m))) by lia. reflexivity.
Qed.

Lemma existsb_records_false (data : Buffer) (start len : nat) :
  (forall j, (start <= j < start + len)%nat -> isTerminator (recordAt data j) = false) ->
  existsb isTerminator (map (recordAt data) (seq start len)) = false.
Proof.
  intros Hno. apply not_true_is_false. intros Hex.
  apply existsb_exists in Hex. destruct Hex as (entry & Hin & Hterm).
  apply in_map_iff in Hin. destruct Hin as (j & <- & Hj). apply in_seq in Hj.
  rewrite (Hno j Hj) in Hterm. discriminate.
Qed.

Lemma existsb_records_true (data : Buffer) (start len j : nat) :
  (start <= j < start + len)%nat -> isTerminator (recordAt data j) = true ->
  existsb isTerminator (map (recordAt data) (seq start len)) = true.
Proof.
  intros Hj Hterm. apply existsb_exists. exists (recordAt data j).
  split; [|assumption]. apply in_map. apply in_seq. assumption.
Qed.

Lemma Forall_records (data : Buffer) (start len : nat) :
  (forall j, (start <= j < start + len)%nat -> length (recordAt data j) = 80%nat) ->
  Forall (fun entry => length entry = 80%nat) (map (recordAt data) (seq start len)).
Proof.
  intros Hall. apply Forall_forall. intros entry Hin.
  apply list_elem_of_In, in_map_iff in Hin. destruct Hin as (j & <- & Hj).
  apply in_seq in Hj. auto.
Qed.

(** The records of a block split at its first record of another length. *)
Lemma records_split (data : Buffer) (start len : nat) (good rest : list jsstring)
    (bad : jsstring) :
  map (recordAt data) (seq start len) = good ++ bad :: rest ->
  Forall (fun entry => length entry = 80%nat) good ->
  bad = recordAt data (start + length good)
  /\ (length good < len)%nat
  /\ forall j, (start <= j < start + length good)%nat -> length (recordAt data j) = 80%nat.
Proof.
  intros Hsplit Hgood.
  assert (Hlook : forall k, (k < len)%nat ->
            (good ++ bad :: rest) !! k = Some (recordAt data (start + k))).
  { intros k Hk. rewrite <- Hsplit. change (map (recordAt data) (seq start len))
      with (recordAt data <$> seq start len).
    rewrite list_lookup_fmap, lookup_seq_lt by assumption. reflexivity. }
  assert (Hlen : (length good < len)%nat).
  { apply (f_equal length) in Hsplit.
    rewrite length_map, length_seq, length_app in Hsplit. cbn in Hsplit. lia. }
  split; [|split; [assumption|]].
  - specialize (Hlook (length good) Hlen).
    rewrite list_lookup_middle in Hlook by reflexivity. congruence.
  - intros j Hj. replace j with (start + (j - start))%nat by lia.
    assert (Hk : (j - start < length good)%nat) by lia.
    specialize (Hlook (j - start)%nat ltac:(lia)).
    rewrite lookup_app_l in Hlook by assumption.
    rewrite Forall_lookup in Hgood. exact (Hgood _ _ Hlook).
Qed.

(** From block [m + 1] on, within the bound the program gives its loop:
    the scan ends at a terminator, or at the first record whose length is
    not 80. *)
Lemma scan_loop_total (data : Buffer) :
  forall (fuel m : nat) (metadata : list jsstring) (this : FitsStructure.t),
    FitsStructure.rawData this = data ->
    (2880 * m <= length data < 2880 * (m + fuel))%nat ->
    (forall j, (j < 36 * m)%nat -> length (recordAt data j) = 80%nat) ->
    exists this',
      same_view this this'
      /\ ((exists metadata' j,
             FitsStructure.getRawHeaders_loop fuel (Z.of_nat (S m)) false metadata this
             = (Normal metadata', this')
             /\ isTerminator (recordAt data j) = true)
          \/ (exists j,
                FitsStructure.getRawHeaders_loop fuel (Z.of_nat (S m)) false metadata this
                = (Throw (EntryLengthError (recordAt data j)), this')
                /\ length (recordAt data j) <> 80%nat
                /\ forall j', (j' < j)%nat -> length (recordAt data j') = 80%nat)).
Proof.
  induction fuel as [|fuel IH]; intros m metadata this Hdata Hbound Hbefore; [lia|].
  rewrite getRawHeaders_loop_step, Hdata.
  destruct (forEach_scanEntry (map (recordAt data) (seq (36 * m) 36)) false metadata this)
    as (this1 & Hsame1 & [[Hall Hrun] | (good & bad & rest & Hsplit & Hgood & Hbad & Hrun)]);
    rewrite Hrun.
  - destruct (existsb isTerminator (map (recordAt data) (seq (36 * m) 36))) eqn:Hex.
    + cbn [orb]. rewrite getRawHeaders_loop_found.
      apply existsb_exists in Hex. destruct Hex as (entry & Hin & Hterm).
      apply in_map_iff in Hin. destruct Hin as (j & <- & _).
      exists this1. split; [assumption|]. left. eauto.
    + cbn [orb].
      assert (Hblock : forall j, (36 * m <= j < 36 * m + 36)%nat ->
                                 length (recordAt data j) = 80%nat).
      { intros j Hj. rewrite Forall_forall in Hall. apply Hall.
        apply list_elem_of_In, in_map, in_seq. assumption. }
      pose proof (recordAt_full data (36 * m + 35)%nat (Hblock (36 * m + 35)%nat ltac:(lia))) as Hfull.
      destruct (IH (S m) (metadata ++ map (recordAt data) (seq (36 * m) 36)) this1)
        as (this' & Hsame & Hcases).
      * destruct Hsame1 as [Hraw _]. congruence.
      * lia.
      * intros j Hj. destruct (Nat.lt_ge_cases j (36 * m)); [auto | apply Hblock; lia].
      * exists this'. split; [eapply same_view_trans; eassumption | exact Hcases].
  - destruct (records_split data (36 * m) 36 good rest bad Hsplit Hgood)
      as (-> & Hlt & Hgood').
    exists this1. split; [assumption|]. right. exists (36 * m + length good)%nat.
    split; [reflexivity|]. split; [assumption|].
    intros j Hj. destruct (Nat.lt_ge_cases j (36 * m)); [auto | apply Hgood'; lia].
Qed.

(** Blocks [m + 1] to [m + n] hold records of 80 characters without a
    terminator, block [m + n + 1] holds records of 80 characters with one:
    the loop returns the records of all these blocks. *)
Lemma scan_loop_finds (data : Buffer) (n : nat) :
  forall (m fuel : nat) (metadata : list jsstring) (this : FitsStructure.t),
    FitsStructure.rawData this = data ->
    (forall j, (36 * m <= j < 36 * (m + n + 1))%nat -> length (recordAt data j) = 80%nat) ->
    (forall j, (36 * m <= j < 36 * (m + n))%nat -> isTerminator (recordAt data j) = false) ->
    (exists j, (36 * (m + n) <= j < 36 * (m + n + 1))%nat
               /\ isTerminator (recordAt data j) = true) ->
    (n < fuel)%nat ->
    exists this',
      FitsStructure.getRawHeaders_loop fuel (Z.of_nat (S m)) false metadata this
      = (Normal (metadata ++ map (recordAt data) (seq (36 * m) (36 * (n + 1)))), this')
      /\ same_view this this'.
Proof.
  induction n as [|n IH]; intros m fuel metadata this Hdata Hlen Hno Hyes Hfuel;
    (destruct fuel as [|fuel]; [lia|]); rewrite getRawHeaders_loop_step, Hdata.
  - destruct (forEach_scanEntry_good (map (recordAt data) (seq (36 * m) 36)) false metadata this)
      as (this1 & Hsame1 & ->).
    { apply Forall_records. intros j Hj. apply Hlen. lia. }
    destruct Hyes as (j & Hj & Hterm).
    rewrite (existsb_records_true data (36 * m) 36 j) by (assumption || lia).
    cbn [orb]. rewrite getRawHeaders_loop_found. exists this1.
    split; [|assumption]. do 3 f_equal.
  - destruct (forEach_scanEntry_good (map (recordAt data) (seq (36 * m) 36)) false metadata this)
      as (this1 & Hsame1 & ->).
    { apply Forall_records. intros j Hj. apply Hlen. lia. }
    rewrite (existsb_records_false data (36 * m) 36) by (intros j Hj; apply Hno; lia).
    cbn [orb].
    destruct (IH (S m) fuel (metadata ++ map (recordAt data) (seq (36 * m) 36)) this1)
      as (this' & Hrun & Hsame).
    + destruct Hsame1 as [Hraw _]. congruence.
    + intros j Hj. apply Hlen. lia.
    + intros j Hj. apply Hno. lia.
    + destruct Hyes as (j & Hj & Hterm). exists j. split; [lia|assumption].
    + lia.
    + exists this'. split; [|eapply same_view_trans; eassumption].
      rewrite Hrun. f_equal. rewrite <- app_assoc. do 2 f_equal.
      rewrite <- map_app. f_equal.
      replace (36 * (S n + 1))%nat with (36 + 36 * (n + 1))%nat by lia.
      rewrite seq_app. do 2 f_equal. lia.
Qed.

(** ** The scan of a unit *)

Lemma getRawHeaders_cached (this : FitsStructure.t) (raw : list jsstring) :
  FitsStructure.rawHeaders this = Some raw ->
  FitsStructure.getRawHeaders this = (Normal raw, this).
Proof.
  intros Hraw. unfold FitsStructure.getRawHeaders. unfold_M. rewrite Hraw. reflexivity.
Qed.

Lemma getRawHeaders_uncached (this : FitsStructure.t) :
  FitsStructure.rawHeaders this = None ->
  FitsStructure.getRawHeaders this
  = match FitsStructure.getRawHeaders_loop
            (S (length (FitsStructure.rawData this) / 2880)) 1 false [] this with
    | (Normal metadata, this') => (Normal metadata, FitsStructure.set_rawHeaders metadata this')
    | (Throw e, this') => (Throw e, this')
    | (Diverge, this') => (Diverge, this')
    end.
Proof.
  intros Hraw. unfold FitsStructure.getRawHeaders. unfold_M. rewrite Hraw.
  destruct (FitsStructure.getRawHeaders_loop _ _ _ _ _) as [[metadata| |] this']; reflexivity.
Qed.

Lemma fuel_bound (data : Buffer) :
  (2880 * 0 <= length data < 2880 * (0 + S (length data / 2880)))%nat.
Proof.
  pose proof (Nat.div_mod_eq (length data) 2880).
  pose proof (Nat.mod_upper_bound (length data) 2880). lia.
Qed.

Lemma scan_total (this : FitsStructure.t) :
  FitsStructure.rawHeaders this = None ->
  exists this',
    same_view this this'
    /\ ((exists metadata j,
           FitsStructure.getRawHeaders this
           = (Normal metadata, FitsStructure.set_rawHeaders metadata this')
           /\ isTerminator (recordAt (FitsStructure.rawData this) j) = true)
        \/ (exists j,
              FitsStructure.getRawHeaders this
              = (Throw (EntryLengthError (recordAt (FitsStructure.rawData this) j)), this')
              /\ length (recordAt (FitsStructure.rawData this) j) <> 80%nat
              /\ forall j', (j' < j)%nat ->
                            length (recordAt (FitsStructure.rawData this) j') = 80%nat)).
Proof.
  intros Hraw. rewrite (getRawHeaders_uncached this Hraw).
  destruct (scan_loop_total (FitsStructure.rawData this)
              (S (length (FitsStructure.rawData this) / 2880)) 0 [] this eq_refl
              (fuel_bound _) ltac:(intros j Hj; lia))
    as (this' & Hsame & [(metadata & j & Hrun & Hterm) | (j & Hrun & Hbad & Hfirst)]);
    change (Z.of_nat 1) with 1 in Hrun; rewrite Hrun; exists this'; (split; [assumption|]).
  - left. eauto.
  - right. eauto.
Qed.

(** The bound the program's model gives the scanning loop is never used up. *)
Lemma getRawHeaders_no_Diverge (this : FitsStructure.t) :
  fst (FitsStructure.getRawHeaders this) <> Diverge.
Proof.
  destruct (FitsStructure.rawHeaders this) as [raw|] eqn:Hraw.
  - rewrite (getRawHeaders_cached this raw Hraw). discriminate.
  - destruct (scan_total this Hraw)
      as (this' & _ & [(metadata & j & -> & _) | (j & -> & _)]); discriminate.
Qed.

(** ** Headers without a terminator *)

(** C4, as the program has it: when no record of the view starts with END,
    the scan of a new unit fails, and it fails with the record-length
    error of [checkEntry] (the design's MalformedRecord) on the first
    record that is not 80 characters long, which lies no further than the
    end of the input.  The scan does not loop. *)
Theorem getRawHeaders_without_terminator (data : Buffer) :
  (forall j, isTerminator (recordAt data j) = false) ->
  exists j this',
    FitsStructure.getRawHeaders (FitsStructure.new data)
    = (Throw (EntryLengthError (recordAt data j)), this')
    /\ length (recordAt data j) <> 80%nat
    /\ (forall j', (j' < j)%nat -> length (recordAt data j') = 80%nat)
    /\ (80 * j <= length data)%nat
    /\ errorKind (EntryLengthError (recordAt data j)) = Some MalformedRecord.
Proof.
  intros Hno.
  destruct (scan_total (FitsStructure.new data) eq_refl)
    as (this' & _ & [(metadata & j & _ & Hterm) | (j & Hrun & Hbad & Hfirst)]);
    cbn [FitsStructure.rawData FitsStructure.new] in *.
  - rewrite Hno in Hterm. discriminate.
  - exists j, this'. split; [assumption|]. split; [assumption|]. split; [assumption|].
    split; [|reflexivity].
    destruct j as [|j]; [lia|].
    pose proof (recordAt_full data j (Hfirst j ltac:(lia))). lia.
Qed.

Lemma recordAt_past_end (data : Buffer) (j : nat) :
  (length data <= 80 * j)%nat -> recordAt data j = [].
Proof.
  intros Hj. rewrite recordAt_bytes, drop_ge by assumption. reflexivity.
Qed.

Lemma no_end_file_has_no_terminator (j : nat) :
  isTerminator (recordAt no_end_file j) = false.
Proof.
  destruct (Nat.lt_ge_cases j 36) as [Hj | Hj].
  - do 36 (destruct j as [|j]; [vm_compute; reflexivity|]). lia.
  - rewrite recordAt_past_end; [reflexivity|].
    change (length no_end_file) with 2880%nat. lia.
Qed.

Lemma getRawHeaders_without_terminator_witness :
  (forall j, isTerminator (recordAt no_end_file j) = false)
  /\ exists j this',
       FitsStructure.getRawHeaders (FitsStructure.new no_end_file)
       = (Throw (EntryLengthError (recordAt no_end_file j)), this')
       /\ length (recordAt no_end_file j) <> 80%nat
       /\ (forall j', (j' < j)%nat -> length (recordAt no_end_file j') = 80%nat)
       /\ (80 * j <= length no_end_file)%nat
       /\ errorKind (EntryLengthError (recordAt no_end_file j)) = Some MalformedRecord.
Proof.
  split; [exact no_end_file_has_no_terminator|].
  exact (getRawHeaders_without_terminator no_end_file no_end_file_has_no_terminator).
Defined.

(** C4, as stated, fails: the empty view has no END record, and its scan
    fails with the record-length error, which is not a missing-terminator
    error. *)
Lemma getRawHeaders_empty_view :
  (forall j, isTerminator (recordAt [] j) = false)
  /\ FitsStructure.getRawHeaders (FitsStructure.new [])
     = (Throw (EntryLengthError []), FitsStructure.new [])
  /\ errorKind (EntryLengthError []) <> Some MissingTerminator.
Proof.
  split; [|split; [vm_compute; reflexivity | discriminate]].
  intros j. rewrite recordAt_past_end; [reflexivity | cbn; lia].
Qed.

(** ** The number of header blocks *)

(** C7, as the program has it: the terminator is the first record that
    itself starts with END (the record is not trimmed for the test).
    When that record is record [i], and the records of the blocks up to
    the one that holds it are 80 characters long, the header block count
    is the ceiling of (i + 1) * 80 / 2880, while the raw record list keeps
    all 36 records of every block read, filler after END included. *)
Theorem getNumHeaderBlocks_terminator (data : Buffer) (i : nat) :
  isTerminator (recordAt data i) = true ->
  (forall j, (j < i)%nat -> isTerminator (recordAt data j) = false) ->
  (forall j, (j < 36 * (i / 36 + 1))%nat -> length (recordAt data j) = 80%nat) ->
  exists this',
    FitsStructure.getNumHeaderBlocks (FitsStructure.new data)
    = (Normal (Int (((Z.of_nat i + 1) * 80 + 2879) / 2880)), this')
    /\ FitsStructure.rawHeaders this'
       = Some (map (recordAt data) (seq 0 (36 * (i / 36 + 1))))
    /\ (i + 1 <= 36 * (i / 36 + 1))%nat.
Proof.
  intros Hterm Hfirst Hlen.
  pose proof (Nat.div_mod_eq i 36) as Hdiv.
  pose proof (Nat.mod_upper_bound i 36 ltac:(lia)) as Hmod.
  set (k := (i / 36)%nat) in *. set (r := (i mod 36)%nat) in *.
  pose proof (recordAt_full data (36 * k + 35)%nat (Hlen (36 * k + 35)%nat ltac:(lia))) as Hfull.
  assert (Hfuel : (k < S (length data / 2880))%nat).
  { assert (k + 1 <= length data / 2880)%nat; [|lia].
    apply Nat.div_le_lower_bound; lia. }
  destruct (scan_loop_finds data k 0 (S (length data / 2880)) [] (FitsStructure.new data) eq_refl)
    as (this1 & Hrun & Hsame); try assumption.
  - intros j Hj. apply Hlen. lia.
  - intros j Hj. apply Hfirst. lia.
  - exists i. split; [lia | assumption].
  - exists (FitsStructure.set_rawHeaders (map (recordAt data) (seq 0 (36 * (k + 1)))) this1).
    split; [|split; [reflexivity | lia]].
    unfold FitsStructure.getNumHeaderBlocks. unfold_M.
    rewrite (getRawHeaders_uncached (FitsStructure.new data) eq_refl).
    cbn [FitsStructure.rawData FitsStructure.new].
    change (Z.of_nat 1) with 1 in Hrun. rewrite Hrun. cbn [app].
    do 3 f_equal. rewrite length_map, length_seq.
    unfold FitsStructure.numBlocks, num_mul, Math_ceil_div,
      FitsStructure.RECORD_SIZE, FitsStructure.BLOCK_SIZE.
    replace (- (Z.of_nat (36 * (k + 1)) * 80)) with ((- (Z.of_nat k + 1)) * 2880) by lia.
    rewrite Z.div_mul by lia.
    replace (- - (Z.of_nat k + 1)) with (Z.of_nat k + 1) by lia.
    f_equal. apply (Z.div_unique _ 2880 (Z.of_nat k + 1) (80 * Z.of_nat r + 79)); lia.
Qed.

Lemma getNumHeaderBlocks_terminator_witness :
  isTerminator (recordAt primary_header 3) = true
  /\ (forall j, (j < 3)%nat -> isTerminator (recordAt primary_header j) = false)
  /\ (forall j, (j < 36 * (3 / 36 + 1))%nat -> length (recordAt primary_header j) = 80%nat)
  /\ exists this',
       FitsStructure.getNumHeaderBlocks (FitsStructure.new primary_header)
       = (Normal (Int (((Z.of_nat 3 + 1) * 80 + 2879) / 2880)), this')
       /\ FitsStructure.rawHeaders this'
          = Some (map (recordAt primary_header) (seq 0 (36 * (3 / 36 + 1))))
       /\ (3 + 1 <= 36 * (3 / 36 + 1))%nat.
Proof.
  assert (H1 : isTerminator (recordAt primary_header 3) = true) by (vm_compute; reflexivity).
  assert (H2 : forall j, (j < 3)%nat -> isTerminator (recordAt primary_header j) = false).
  { intros j Hj. do 3 (destruct j as [|j]; [vm_compute; reflexivity|]). lia. }
  assert (H3 : forall j, (j < 36 * (3 / 36 + 1))%nat ->
                         length (recordAt primary_header j) = 80%nat).
  { intros j Hj. change (36 * (3 / 36 + 1))%nat with 36%nat in Hj.
    do 36 (destruct j as [|j]; [vm_compute; reflexivity|]). lia. }
  split; [exact H1|]. split; [exact H2|]. split; [exact H3|].
  exact (getNumHeaderBlocks_terminator primary_header 3 H1 H2 H3).
Defined.

(** C7, as stated, fails: the design document takes for the terminator
    the first record whose trimmed content begins with END, and the
    program the first record that itself begins with END.  Here record 3
    is the terminator of the document, all 72 records are 80 characters
    of printable ASCII, and the formula gives one block; the program
    passes record 3, stops at record 36 and counts two blocks. *)
Lemma getNumHeaderBlocks_indented_END :
  let data := indented_end_file in
  isTerminatorTrimmed (recordAt data 3) = true
  /\ (forall j, (j < 3)%nat -> isTerminatorTrimmed (recordAt data j) = false)
  /\ (forall j, (j < 72)%nat -> length (recordAt data j) = 80%nat)
  /\ forallb (fun b => (32 <=? Byte.to_N b)%N && (Byte.to_N b <=? 126)%N) data = true
  /\ ((Z.of_nat 3 + 1) * 80 + 2879) / 2880 = 1
  /\ fst (FitsStructure.getNumHeaderBlocks (FitsStructure.new data)) = Normal (Int 2)
  /\ fst (FitsStructure.getNumHeaderBlocks (FitsStructure.new data))
     <> Normal (Int (((Z.of_nat 3 + 1) * 80 + 2879) / 2880))
  /\ isTerminator (recordAt data 3) = false
  /\ isTerminator (recordAt data 36) = true.
Proof.
  cbv zeta. split; [vm_compute; reflexivity|].
  split. { intros j Hj. do 3 (destruct j as [|j]; [vm_compute; reflexivity|]). lia. }
  split.
  { assert (Hall : forallb (fun j => (length (recordAt indented_end_file j) =? 80)%nat)
                     (seq 0 72) = true) by (vm_compute; reflexivity).
    intros j Hj. rewrite forallb_forall in Hall. apply Nat.eqb_eq, Hall, in_seq. lia. }
  split; [vm_compute; reflexivity|].
  split; [vm_compute; reflexivity|].
  split; [vm_compute; reflexivity|].
  split; [vm_compute; intros Hsame; discriminate Hsame|].
  split; vm_compute; reflexivity.
Qed.

(** ** A unit whose header is cached *)

Lemma preserves_run {A : Type} (m : M FitsStructure.t A) (this : FitsStructure.t)
    (raw : list jsstring) :
  preserves m -> FitsStructure.rawHeaders this = Some raw -> m this = (fst (m this), this).
Proof.
  intros Hm Hraw. specialize (Hm this raw Hraw). destruct (m this) as [r s].
  cbn in *. congruence.
Qed.

Lemma preserves_result {A : Type} (m : M FitsStructure.t A) (this : FitsStructure.t)
    (raw : list jsstring) (r : completion A) :
  preserves m -> FitsStructure.rawHeaders this = Some raw ->
  fst (m this) = r -> m this = (r, this).
Proof. intros Hm Hraw <-. eapply preserves_run; eassumption. Qed.

Lemma preserves_bind {A B : Type} (m : M FitsStructure.t A) (k : A -> M FitsStructure.t B) :
  preserves m -> (forall a, preserves (k a)) -> preserves (mbind k m).
Proof.
  intros Hm Hk this raw Hraw. unfold mbind, M_bind, bind.
  specialize (Hm this raw Hraw). destruct (m this) as [[a| |] s]; cbn in Hm; subst s.
  - exact (Hk a this raw Hraw).
  - reflexivity.
  - reflexivity.
Qed.

Lemma preserves_try_catch {A : Type} (m : M FitsStructure.t A)
    (h : JsError -> M FitsStructure.t A) :
  preserves m -> (forall e, preserves (h e)) -> preserves (try_catch m h).
Proof.
  intros Hm Hh this raw Hraw. unfold try_catch.
  specialize (Hm this raw Hraw). destruct (m this) as [[a| e |] s]; cbn in Hm; subst s.
  - reflexivity.
  - exact (Hh e this raw Hraw).
  - reflexivity.
Qed.

Lemma preserves_mret {A : Type} (a : A) : preserves (mret a : M FitsStructure.t A).
Proof. intros this raw _. reflexivity. Qed.

Lemma preserves_throw {A : Type} (e : JsError) : preserves (throw e : M FitsStructure.t A).
Proof. intros this raw _. reflexivity. Qed.

Lemma preserves_gets {A : Type} (f : FitsStructure.t -> A) : preserves (gets f).
Proof. intros this raw _. reflexivity. Qed.

Lemma preserves_lift {A : Type} (c : completion A) : preserves (lift c : M FitsStructure.t A).
Proof. intros this raw _. reflexivity. Qed.

Ltac preserves_step :=
  first
    [ assumption
    | apply preserves_mret | apply preserves_throw | apply preserves_gets
    | apply preserves_lift
    | apply preserves_bind; [|intros ?]
    | apply preserves_try_catch; [|intros ?]
    | match goal with
      | |- preserves (if ?b then _ else _) => destruct b
      | |- preserves (match ?x with _ => _ end) => destruct x
      end ].

Lemma preserves_getRawHeaders : preserves FitsStructure.getRawHeaders.
Proof. intros this raw Hraw. rewrite (getRawHeaders_cached this raw Hraw). reflexivity. Qed.

Lemma preserves_getHeaderMap : preserves FitsStructure.getHeaderMap.
Proof.
  pose proof preserves_getRawHeaders.
  unfold FitsStructure.getHeaderMap. repeat preserves_step.
Qed.

Lemma preserves_getMetadataValue (key : jsstring) :
  preserves (FitsStructure.getMetadataValue key).
Proof.
  pose proof preserves_getHeaderMap.
  unfold FitsStructure.getMetadataValue. repeat preserves_step.
Qed.

Lemma preserves_numAxis : preserves FitsStructure.numAxis.
Proof.
  pose proof (preserves_getMetadataValue (str "NAXIS")).
  unfold FitsStructure.numAxis. repeat preserves_step.
Qed.

Lemma preserves_sizeAxis (index : Z) : preserves (FitsStructure.sizeAxis index).
Proof.
  pose proof preserves_numAxis.
  pose proof (preserves_getMetadataValue (str "NAXIS" ++ intToString index)).
  unfold FitsStructure.sizeAxis. repeat preserves_step.
Qed.

Lemma preserves_pixelDataType : preserves FitsStructure.pixelDataType.
Proof. apply preserves_getMetadataValue. Qed.

Lemma preserves_bitsPerPixel : preserves FitsStructure.bitsPerPixel.
Proof.
  pose proof preserves_pixelDataType.
  unfold FitsStructure.bitsPerPixel. repeat preserves_step.
Qed.

Lemma preserves_getDataSize_loop (indices : list Z) :
  forall prod, preserves (FitsStructure.getDataSize_loop indices prod).
Proof.
  induction indices as [|i rest IH]; intros prod; cbn [FitsStructure.getDataSize_loop].
  - apply preserves_mret.
  - apply preserves_bind; [apply preserves_sizeAxis | intros length; apply IH].
Qed.

Lemma preserves_getDataSize : preserves FitsStructure.getDataSize.
Proof.
  pose proof preserves_numAxis. pose proof preserves_bitsPerPixel.
  unfold FitsStructure.getDataSize.
  apply preserves_bind; [assumption | intros n].
  destruct (num_eq n (Int 0)); [apply preserves_mret|].
  apply preserves_bind; [assumption | intros bits]. apply preserves_getDataSize_loop.
Qed.

Lemma preserves_getNumDataBlocks : preserves FitsStructure.getNumDataBlocks.
Proof.
  pose proof preserves_getDataSize.
  unfold FitsStructure.getNumDataBlocks. repeat preserves_step.
Qed.

Lemma preserves_getNumHeaderBlocks : preserves FitsStructure.getNumHeaderBlocks.
Proof.
  pose proof preserves_getRawHeaders.
  unfold FitsStructure.getNumHeaderBlocks. repeat preserves_step.
Qed.

Lemma preserves_getDataUnit : preserves FitsStructure.getDataUnit.
Proof.
  pose proof preserves_numAxis. pose proof preserves_getNumHeaderBlocks.
  pose proof preserves_getNumDataBlocks.
  unfold FitsStructure.getDataUnit. repeat preserves_step.
Qed.

Lemma preserves_getDataValues : preserves FitsStructure.getDataValues.
Proof.
  pose proof preserves_getDataUnit. pose proof preserves_pixelDataType.
  pose proof preserves_bitsPerPixel.
  unfold FitsStructure.getDataValues. repeat preserves_step.
Qed.

(** *** From a new unit to its scanned state *)

Lemma scan_result (data : Buffer) (raw : list jsstring) (this : FitsStructure.t) :
  FitsStructure.getRawHeaders (FitsStructure.new data) = (Normal raw, this) ->
  FitsStructure.rawHeaders this = Some raw /\ FitsStructure.rawData this = data.
Proof.
  intros Hscan.
  destruct (scan_total (FitsStructure.new data) eq_refl)
    as (this' & [Hdata _] & [(metadata & j & Hrun & _) | (j & Hrun & _)]);
    rewrite Hrun in Hscan; [|discriminate].
  injection Hscan as <- <-. split; [reflexivity | exact Hdata].
Qed.

Lemma scans_first_getRawHeaders : scans_first FitsStructure.getRawHeaders.
Proof.
  intros data raw this Hscan. rewrite Hscan.
  destruct (scan_result data raw this Hscan) as [Hraw _].
  rewrite (getRawHeaders_cached this raw Hraw). reflexivity.
Qed.

Lemma getHeaderMap_new (data : Buffer) :
  FitsStructure.getHeaderMap (FitsStructure.new data)
  = match FitsStructure.getRawHeaders (FitsStructure.new data) with
    | (Normal _, this) => (Normal (FitsStructure.headers this), this)
    | (Throw e, this) => (Throw e, this)
    | (Diverge, this) => (Diverge, this)
    end.
Proof.
  unfold FitsStructure.getHeaderMap. unfold_M.
  cbn [FitsStructure.headers FitsStructure.new].
  rewrite (bool_decide_eq_true_2 _ (map_size_empty (M := gmap jsstring) (A := jsstring))).
  destruct (FitsStructure.getRawHeaders _) as [[raw| |] this]; reflexivity.
Qed.

Lemma getHeaderMap_cached (this : FitsStructure.t) (raw : list jsstring) :
  FitsStructure.rawHeaders this = Some raw ->
  FitsStructure.getHeaderMap this = (Normal (FitsStructure.headers this), this).
Proof.
  intros Hraw. unfold FitsStructure.getHeaderMap. unfold_M.
  destruct (bool_decide _); [rewrite (getRawHeaders_cached this raw Hraw)|]; reflexivity.
Qed.

Lemma scans_first_getHeaderMap : scans_first FitsStructure.getHeaderMap.
Proof.
  intros data raw this Hscan. rewrite getHeaderMap_new, Hscan.
  destruct (scan_result data raw this Hscan) as [Hraw _].
  rewrite (getHeaderMap_cached this raw Hraw). reflexivity.
Qed.

Lemma scans_first_bind {A B : Type} (m : M FitsStructure.t A) (k : A -> M FitsStructure.t B) :
  scans_first m -> scans_first (mbind k m).
Proof.
  intros Hm data raw this Hscan. unfold mbind, M_bind, bind.
  rewrite (Hm data raw this Hscan). reflexivity.
Qed.

Lemma scans_first_try_catch {A : Type} (m : M FitsStructure.t A)
    (h : JsError -> M FitsStructure.t A) :
  scans_first m -> scans_first (try_catch m h).
Proof.
  intros Hm data raw this Hscan. unfold try_catch.
  rewrite (Hm data raw this Hscan). reflexivity.
Qed.

Lemma scans_first_getMetadataValue (key : jsstring) :
  scans_first (FitsStructure.getMetadataValue key).
Proof. apply scans_first_bind, scans_first_getHeaderMap. Qed.

Lemma scans_first_numAxis : scans_first FitsStructure.numAxis.
Proof. apply scans_first_try_catch, scans_first_bind, scans_first_getMetadataValue. Qed.

Lemma scans_first_pixelDataType : scans_first FitsStructure.pixelDataType.
Proof. apply scans_first_getMetadataValue. Qed.

Lemma scans_first_bitsPerPixel : scans_first FitsStructure.bitsPerPixel.
Proof. apply scans_first_bind, scans_first_pixelDataType. Qed.

Lemma scans_first_getDataSize : scans_first FitsStructure.getDataSize.
Proof. apply scans_first_bind, scans_first_numAxis. Qed.

Lemma scans_first_getNumDataBlocks : scans_first FitsStructure.getNumDataBlocks.
Proof. apply scans_first_bind, scans_first_getDataSize. Qed.

Lemma scans_first_getNumHeaderBlocks : scans_first FitsStructure.getNumHeaderBlocks.
Proof. apply scans_first_bind, scans_first_getRawHeaders. Qed.

Lemma scans_first_getDataUnit : scans_first FitsStructure.getDataUnit.
Proof. apply scans_first_bind, scans_first_numAxis. Qed.

Lemma scans_first_getDataValues : scans_first FitsStructure.getDataValues.
Proof. apply scans_first_bind, scans_first_getDataUnit. Qed.

(** When the scan of a new unit fails, so does reading its axis count. *)
Lemma numAxis_needs_scan (data : Buffer) (n : num) :
  fst (FitsStructure.numAxis (FitsStructure.new data)) = Normal n ->
  exists raw this, FitsStructure.getRawHeaders (FitsStructure.new data) = (Normal raw, this).
Proof.
  unfold FitsStructure.numAxis, FitsStructure.getMetadataValue. unfold_M.
  rewrite getHeaderMap_new.
  destruct (FitsStructure.getRawHeaders (FitsStructure.new data)) as [[raw| |] this];
    [eauto | discriminate | discriminate].
Qed.

(** A ready unit that yields its axis count has a cached state in which
    every method that starts with the scan does what it does on the unit. *)
Lemma ready_settle (this : FitsStructure.t) (n : num) :
  ready this ->
  fst (FitsStructure.numAxis this) = Normal n ->
  exists raw this',
    FitsStructure.rawHeaders this' = Some raw
    /\ FitsStructure.rawData this' = FitsStructure.rawData this
    /\ forall (A : Type) (m : M FitsStructure.t A), scans_first m -> m this = m this'.
Proof.
  intros [Hnew | [raw Hraw]] Haxis.
  - rewrite Hnew in Haxis.
    destruct (numAxis_needs_scan _ n Haxis) as (raw & this' & Hscan).
    destruct (scan_result _ raw this' Hscan) as [Hraw Hdata].
    exists raw, this'. split; [assumption|]. split; [assumption|].
    intros A m Hm. rewrite Hnew. exact (Hm _ raw this' Hscan).
  - exists raw, this. split; [assumption|]. split; reflexivity.
Qed.

Lemma ready_new (data : Buffer) : ready (FitsStructure.new data).
Proof. left. reflexivity. Qed.

(** ** Reading one stride *)

Lemma byte_range (b : byte) : 0 <= Z.of_N (Byte.to_N b) < 256.
Proof. pose proof (Byte.to_N_bounded b). lia. Qed.

Lemma byteAt_drop (data : Buffer) (o i : nat) (b : byte) :
  drop o data !! i = Some b ->
  byteAt data (Int (Z.of_nat o + Z.of_nat i)) = Some (Z.of_N (Byte.to_N b)).
Proof.
  intros Hb. unfold byteAt. destruct (Z.ltb_spec (Z.of_nat o + Z.of_nat i) 0); [lia|].
  replace (Z.to_nat (Z.of_nat o + Z.of_nat i)) with (o + i)%nat by lia.
  rewrite <- lookup_drop, Hb. reflexivity.
Qed.

Lemma drop_four (data : Buffer) (o : nat) :
  (o + 4 <= length data)%nat ->
  exists b0 b1 b2 b3 rest, drop o data = b0 :: b1 :: b2 :: b3 :: rest.
Proof.
  intros Hlen. pose proof (length_drop data o) as Hdrop.
  destruct (drop o data) as [|b0 [|b1 [|b2 [|b3 rest]]]]; cbn in Hdrop; try lia. eauto 6.
Qed.

Lemma readUInt8_at (data : Buffer) (o : nat) :
  (o + 1 <= length data)%nat ->
  readUInt8 data (Int (Z.of_nat o))
  = Normal (float_of_Z (be_unsigned (take 1 (drop o data)))).
Proof.
  intros Hlen. pose proof (length_drop data o) as Hdrop.
  destruct (drop o data) as [|b0 rest] eqn:Hd; cbn in Hdrop; [lia|].
  unfold readUInt8. replace (Z.of_nat o) with (Z.of_nat o + Z.of_nat 0) by lia.
  rewrite (byteAt_drop data o 0 b0) by (rewrite Hd; reflexivity). reflexivity.
Qed.

Lemma four_bytes_at (data : Buffer) (o : nat) (b0 b1 b2 b3 : byte) (rest : list byte) :
  drop o data = b0 :: b1 :: b2 :: b3 :: rest ->
  byteAt data (Int (Z.of_nat o)) = Some (Z.of_N (Byte.to_N b0))
  /\ byteAt data (num_add (Int (Z.of_nat o)) (Int 1)) = Some (Z.of_N (Byte.to_N b1))
  /\ byteAt data (num_add (Int (Z.of_nat o)) (Int 2)) = Some (Z.of_N (Byte.to_N b2))
  /\ byteAt data (num_add (Int (Z.of_nat o)) (Int 3)) = Some (Z.of_N (Byte.to_N b3)).
Proof.
  intros Hd. cbn [num_add].
  replace (Z.of_nat o) with (Z.of_nat o + Z.of_nat 0) at 1 by lia.
  change 1 with (Z.of_nat 1). change 2 with (Z.of_nat 2). change 3 with (Z.of_nat 3).
  repeat split; apply byteAt_drop; rewrite Hd; reflexivity.
Qed.

Lemma be_unsigned_four (b0 b1 b2 b3 : byte) :
  be_unsigned [b0; b1; b2; b3]
  = Z.of_N (Byte.to_N b0) * 2 ^ 24 + Z.of_N (Byte.to_N b1) * 2 ^ 16
    + Z.of_N (Byte.to_N b2) * 2 ^ 8 + Z.of_N (Byte.to_N b3).
Proof. unfold be_unsigned. cbn [foldl]. lia. Qed.

Lemma toInt32_first_byte (b0 b1 b2 b3 : Z) :
  0 <= b0 < 256 -> 0 <= b1 < 256 -> 0 <= b2 < 256 -> 0 <= b3 < 256 ->
  toInt32 (b0 * 2 ^ 24) + b1 * 2 ^ 16 + b2 * 2 ^ 8 + b3
  = twos_complement 32 (b0 * 2 ^ 24 + b1 * 2 ^ 16 + b2 * 2 ^ 8 + b3).
Proof.
  intros H0 H1 H2 H3. unfold toInt32, twos_complement.
  change (2 ^ 32) with 4294967296. change (2 ^ (32 - 1)) with 2147483648.
  change (2 ^ 31) with 2147483648. change (2 ^ 24) with 16777216.
  change (2 ^ 16) with 65536. change (2 ^ 8) with 256.
  rewrite Z.mod_small by lia.
  destruct (Z.ltb_spec (b0 * 16777216) 2147483648);
    destruct (Z.ltb_spec (b0 * 16777216 + b1 * 65536 + b2 * 256 + b3) 2147483648); lia.
Qed.

Lemma readInt32BE_at (data : Buffer) (o : nat) :
  (o + 4 <= length data)%nat ->
  readInt32BE data (Int (Z.of_nat o))
  = Normal (float_of_Z (twos_complement 32 (be_unsigned (take 4 (drop o data))))).
Proof.
  intros Hlen. destruct (drop_four data o Hlen) as (b0 & b1 & b2 & b3 & rest & Hd).
  destruct (four_bytes_at data o b0 b1 b2 b3 rest Hd) as (H0 & H1 & H2 & H3).
  unfold readInt32BE. rewrite H0, H1, H2, H3, Hd. cbn [take].
  rewrite be_unsigned_four, toInt32_first_byte by apply byte_range. reflexivity.
Qed.

Lemma readFloatBE_at (data : Buffer) (o : nat) :
  (o + 4 <= length data)%nat ->
  readFloatBE data (Int (Z.of_nat o))
  = Normal (float32_of_bits (be_unsigned (take 4 (drop o data)))).
Proof.
  intros Hlen. destruct (drop_four data o Hlen) as (b0 & b1 & b2 & b3 & rest & Hd).
  destruct (four_bytes_at data o b0 b1 b2 b3 rest Hd) as (H0 & H1 & H2 & H3).
  unfold readFloatBE. rewrite H0, H1, H2, H3, Hd. cbn [take].
  rewrite be_unsigned_four. reflexivity.
Qed.

(** ** The decoding loop *)

Lemma decodable_cases (dataType : jsstring) :
  dataType ∈ decodable ->
  dataType = PixelDataType.UnsignedBinary \/ dataType = PixelDataType.Signed32
  \/ dataType = PixelDataType.SingleFloat.
Proof.
  unfold decodable. intros Hin.
  repeat (apply elem_of_cons in Hin as [-> | Hin]; [tauto|]).
  apply elem_of_nil in Hin. contradiction.
Qed.

Lemma undecodable_cases (dataType : jsstring) :
  dataType ∈ undecodable ->
  dataType = PixelDataType.Signed16 \/ dataType = PixelDataType.Signed64
  \/ dataType = PixelDataType.DoubleFloat.
Proof.
  unfold undecodable. intros Hin.
  repeat (apply elem_of_cons in Hin as [-> | Hin]; [tauto|]).
  apply elem_of_nil in Hin. contradiction.
Qed.

Lemma strideOf_pos (dataType : jsstring) : (0 < strideOf dataType)%nat.
Proof. unfold strideOf. destruct (bool_decide _); lia. Qed.

(** One iteration on a decodable type, at an offset with a whole stride
    ahead of it. *)
Lemma getDataValues_loop_step (dataType : jsstring) (data : Buffer) (fuel o : nat)
    (values : list float) :
  dataType ∈ decodable ->
  (o + strideOf dataType <= length data)%nat ->
  FitsStructure.getDataValues_loop (S fuel) dataType (Int (Z.of_nat (strideOf dataType)))
    data (Int (Z.of_nat o)) values
  = FitsStructure.getDataValues_loop fuel dataType (Int (Z.of_nat (strideOf dataType)))
      data (Int (Z.of_nat (o + strideOf dataType)))
      (values ++ [decodeStride dataType (take (strideOf dataType) (drop o data))]).
Proof.
  intros Hdt Hlen. pose proof (strideOf_pos dataType) as Hpos.
  cbn [FitsStructure.getDataValues_loop]. unfold num_lt, buffer_length.
  destruct (Z.ltb_spec (Z.of_nat o) (Z.of_nat (length data))); [|lia].
  cbn [num_add]. rewrite <- Nat2Z.inj_add.
  destruct (decodable_cases dataType Hdt) as [-> | [-> | ->]].
  - change (strideOf PixelDataType.UnsignedBinary) with 1%nat in *.
    rewrite readUInt8_at by lia. reflexivity.
  - change (strideOf PixelDataType.Signed32) with 4%nat in *.
    rewrite readInt32BE_at by lia. reflexivity.
  - change (strideOf PixelDataType.SingleFloat) with 4%nat in *.
    rewrite readFloatBE_at by lia. reflexivity.
Qed.

Lemma getDataValues_loop_end (dataType : jsstring) (bytesPerPixel : num) (data : Buffer)
    (fuel : nat) (values : list float) :
  FitsStructure.getDataValues_loop fuel dataType bytesPerPixel data
    (Int (Z.of_nat (length data))) values
  = Normal values.
Proof.
  destruct fuel; cbn [FitsStructure.getDataValues_loop]; unfold num_lt, buffer_length;
    rewrite Z.ltb_irrefl; reflexivity.
Qed.

Lemma getDataValues_loop_decodable (dataType : jsstring) (data : Buffer) :
  dataType ∈ decodable ->
  forall (n fuel k : nat) (values : list float),
    (n <= fuel)%nat ->
    length data = ((k + n) * strideOf dataType)%nat ->
    FitsStructure.getDataValues_loop fuel dataType (Int (Z.of_nat (strideOf dataType)))
      data (Int (Z.of_nat (k * strideOf dataType))) values
    = Normal (values
              ++ map (fun j => decodeStride dataType
                                 (take (strideOf dataType) (drop (j * strideOf dataType) data)))
                   (seq k n)).
Proof.
  intros Hdt. induction n as [|n IH]; intros fuel k values Hfuel Hlen.
  - replace (k * strideOf dataType)%nat with (length data) by lia.
    rewrite getDataValues_loop_end. cbn. rewrite app_nil_r. reflexivity.
  - destruct fuel as [|fuel]; [lia|].
    rewrite getDataValues_loop_step by (assumption || lia).
    replace (k * strideOf dataType + strideOf dataType)%nat with (S k * strideOf dataType)%nat
      by lia.
    rewrite IH by lia. rewrite <- app_assoc. reflexivity.
Qed.

(** On a byte range of whole strides the loop decodes every stride. *)
Lemma getDataValues_loop_strides (dataType : jsstring) (data : Buffer) :
  dataType ∈ decodable ->
  (length data mod strideOf dataType = 0)%nat ->
  FitsStructure.getDataValues_loop (length data) dataType
    (Int (Z.of_nat (strideOf dataType))) data (Int 0) []
  = Normal (map (decodeStride dataType) (strides (strideOf dataType) data)).
Proof.
  intros Hdt Hmod. pose proof (strideOf_pos dataType) as Hpos.
  pose proof (Nat.div_mod_eq (length data) (strideOf dataType)) as Hdiv.
  rewrite Hmod, Nat.add_0_r in Hdiv.
  assert (Hle : (length data / strideOf dataType <= length data)%nat)
    by (apply Nat.Div0.div_le_upper_bound; nia).
  change (Int 0) with (Int (Z.of_nat (0 * strideOf dataType))).
  rewrite (getDataValues_loop_decodable dataType data Hdt
             (length data / strideOf dataType) (length data) 0 [] Hle) by lia.
  unfold strides. rewrite map_map. reflexivity.
Qed.

Lemma strides_length (stride : nat) (data : list byte) :
  length (strides stride data) = (length data / stride)%nat.
Proof. unfold strides. rewrite length_map, length_seq. reflexivity. Qed.

(** On a type outside the three, the first iteration throws. *)
Lemma getDataValues_loop_undecodable (dataType : jsstring) (bytesPerPixel : num)
    (data : Buffer) :
  dataType ∈ undecodable -> data <> [] ->
  FitsStructure.getDataValues_loop (length data) dataType bytesPerPixel data (Int 0) []
  = Throw (UnsupportedDataTypeError dataType).
Proof.
  intros Hdt Hdata. destruct data as [|b data]; [contradiction|].
  destruct (undecodable_cases dataType Hdt) as [-> | [-> | ->]]; reflexivity.
Qed.

(** ** Decoding the data of a unit *)

Lemma getDataUnit_numAxis (this : FitsStructure.t) (region : Buffer) :
  fst (FitsStructure.getDataUnit this) = Normal region ->
  exists n, fst (FitsStructure.numAxis this) = Normal n.
Proof.
  intros Hunit. unfold FitsStructure.getDataUnit, mbind, M_bind, bind in Hunit.
  destruct (FitsStructure.numAxis this) as [[n| |] this']; try discriminate.
  exists n. reflexivity.
Qed.

Lemma bytesPerPixel_decodable (dataType : jsstring) :
  dataType ∈ decodable ->
  bool_decide (dataType ∈ PixelDataType.values) = true
  /\ num_div_exact (Math_abs (parseInt dataType)) 8 = Int (Z.of_nat (strideOf dataType)).
Proof.
  intros Hdt. destruct (decodable_cases dataType Hdt) as [-> | [-> | ->]];
    split; vm_compute; reflexivity.
Qed.

Lemma values_undecodable (dataType : jsstring) :
  dataType ∈ undecodable -> bool_decide (dataType ∈ PixelDataType.values) = true.
Proof.
  intros Hdt. destruct (undecodable_cases dataType Hdt) as [-> | [-> | ->]];
    vm_compute; reflexivity.
Qed.

(** [getDataValues] on a unit with a cached header, by the type found in
    BITPIX. *)
Lemma getDataValues_cached (this : FitsStructure.t) (raw : list jsstring)
    (region : Buffer) (dataType : jsstring) :
  FitsStructure.rawHeaders this = Some raw ->
  fst (FitsStructure.getDataUnit this) = Normal region ->
  fst (FitsStructure.pixelDataType this) = Normal dataType ->
  FitsStructure.getDataValues this
  = if bool_decide (dataType ∈ PixelDataType.values)
    then (FitsStructure.getDataValues_loop (length region) dataType
            (num_div_exact (Math_abs (parseInt dataType)) 8) region (Int 0) [], this)
    else (Throw (InvalidPixelDataTypeError dataType), this).
Proof.
  intros Hraw Hunit Htype.
  apply (preserves_result _ this raw _ preserves_getDataUnit Hraw) in Hunit.
  apply (preserves_result _ this raw _ preserves_pixelDataType Hraw) in Htype.
  unfold FitsStructure.getDataValues, FitsStructure.bitsPerPixel, mbind, M_bind, bind.
  rewrite Hunit, Htype, Htype.
  destruct (bool_decide (dataType ∈ PixelDataType.values)); reflexivity.
Qed.

(** A BITPIX value outside the enumeration stops [getDataValues] in
    [bitsPerPixel]: inside [getDataUnit], on the way to the data size, when
    the unit has axes, and after it when it has none. *)
Lemma getDataValues_invalid_type (this : FitsStructure.t) (raw : list jsstring)
    (n : num) (dataType : jsstring) :
  FitsStructure.rawHeaders this = Some raw ->
  fst (FitsStructure.numAxis this) = Normal n ->
  fst (FitsStructure.pixelDataType this) = Normal dataType ->
  dataType ∉ PixelDataType.values ->
  FitsStructure.getDataValues this = (Throw (InvalidPixelDataTypeError dataType), this).
Proof.
  intros Hraw Haxis Htype Hdt.
  apply (preserves_result _ this raw _ preserves_numAxis Hraw) in Haxis.
  apply (preserves_result _ this raw _ preserves_pixelDataType Hraw) in Htype.
  assert (Hbits : FitsStructure.bitsPerPixel this
                  = (Throw (InvalidPixelDataTypeError dataType), this)).
  { unfold FitsStructure.bitsPerPixel, mbind, M_bind, bind. rewrite Htype.
    rewrite bool_decide_eq_false_2 by exact Hdt. reflexivity. }
  unfold FitsStructure.getDataValues, FitsStructure.getDataUnit, mbind, M_bind, bind.
  rewrite Haxis. destruct (num_eq n (Int 0)) eqn:Hzero.
  - unfold_M. rewrite Htype, Hbits. reflexivity.
  - unfold FitsStructure.getNumHeaderBlocks, FitsStructure.getNumDataBlocks,
      FitsStructure.getDataSize, mbind, M_bind, bind.
    rewrite (getRawHeaders_cached this raw Hraw). unfold_M.
    rewrite Haxis, Hzero, Hbits. reflexivity.
Qed.

(** C3, as the program has it.  With [dataType] the BITPIX value of a
    unit and [region] its data: for the types 8, 32 and -32 and a region
    of whole strides, the flat decode is the list of the strides' values
    (unsigned byte, big-endian two's-complement 32-bit integer, big-endian
    binary32); for 16, 64 and -64 and a non-empty region it throws the
    unsupported-type error; for a type outside the enumeration it throws
    the invalid-type error of [bitsPerPixel], whether the unit has data or
    not (the data region is then never cut out). *)
Theorem getDataValues_by_type (this : FitsStructure.t) (dataType : jsstring) :
  ready this ->
  fst (FitsStructure.pixelDataType this) = Normal dataType ->
  (forall region : Buffer,
      fst (FitsStructure.getDataUnit this) = Normal region ->
      (dataType ∈ decodable ->
       (length region mod strideOf dataType = 0)%nat ->
       fst (FitsStructure.getDataValues this)
       = Normal (map (decodeStride dataType) (strides (strideOf dataType) region)))
      /\ (dataType ∈ undecodable ->
          region <> [] ->
          fst (FitsStructure.getDataValues this) = Throw (UnsupportedDataTypeError dataType)))
  /\ (forall n : num,
        fst (FitsStructure.numAxis this) = Normal n ->
        dataType ∉ PixelDataType.values ->
        fst (FitsStructure.getDataValues this) = Throw (InvalidPixelDataTypeError dataType)
        /\ errorKind (InvalidPixelDataTypeError dataType) = Some InvalidPixelEncoding).
Proof.
  intros Hready Htype. split.
  - intros region Hunit.
    destruct (getDataUnit_numAxis this region Hunit) as [n Haxis].
    destruct (ready_settle this n Hready Haxis) as (raw & this' & Hraw & _ & Hsame).
    rewrite (Hsame _ _ scans_first_getDataUnit) in Hunit.
    rewrite (Hsame _ _ scans_first_pixelDataType) in Htype.
    rewrite (Hsame _ _ scans_first_getDataValues).
    rewrite (getDataValues_cached this' raw region dataType Hraw Hunit Htype).
    split.
    + intros Hdt Hmod. destruct (bytesPerPixel_decodable dataType Hdt) as [-> ->].
      cbn [fst]. apply getDataValues_loop_strides; assumption.
    + intros Hdt Hregion. rewrite (values_undecodable dataType Hdt). cbn [fst].
      apply getDataValues_loop_undecodable; assumption.
  - intros n Haxis Hdt. split; [|reflexivity].
    destruct (ready_settle this n Hready Haxis) as (raw & this' & Hraw & _ & Hsame).
    rewrite (Hsame _ _ scans_first_numAxis) in Haxis.
    rewrite (Hsame _ _ scans_first_pixelDataType) in Htype.
    rewrite (Hsame _ _ scans_first_getDataValues).
    rewrite (getDataValues_invalid_type this' raw n dataType Hraw Haxis Htype Hdt).
    reflexivity.
Qed.

Lemma getDataValues_by_type_witness :
  (let this := FitsStructure.new int32_file in
   let region := [xff; xff; xff; xfe; x00; x00; x01; x00] in
   ready this
   /\ fst (FitsStructure.pixelDataType this) = Normal PixelDataType.Signed32
   /\ fst (FitsStructure.getDataUnit this) = Normal region
   /\ PixelDataType.Signed32 ∈ decodable
   /\ (length region mod strideOf PixelDataType.Signed32 = 0)%nat
   /\ fst (FitsStructure.getDataValues this)
      = Normal (map (decodeStride PixelDataType.Signed32)
                  (strides (strideOf PixelDataType.Signed32) region))
   /\ map (decodeStride PixelDataType.Signed32)
        (strides (strideOf PixelDataType.Signed32) region)
      = [(-2)%float; 256%float])
  /\ (let this := FitsStructure.new invalid_bitpix_file in
      ready this
      /\ fst (FitsStructure.pixelDataType this) = Normal (str "12")
      /\ fst (FitsStructure.numAxis this) = Normal (Int 1)
      /\ (str "12" ∉ PixelDataType.values)
      /\ fst (FitsStructure.getDataValues this) = Throw (InvalidPixelDataTypeError (str "12"))).
Proof.
  cbv zeta. split.
  - assert (Hunit : fst (FitsStructure.getDataUnit (FitsStructure.new int32_file))
                    = Normal [xff; xff; xff; xfe; x00; x00; x01; x00])
      by (vm_compute; reflexivity).
    assert (Htype : fst (FitsStructure.pixelDataType (FitsStructure.new int32_file))
                    = Normal PixelDataType.Signed32)
      by (vm_compute; reflexivity).
    assert (Hdt : PixelDataType.Signed32 ∈ decodable)
      by (unfold decodable; apply list_elem_of_further, list_elem_of_here).
    assert (Hmod : (length [xff; xff; xff; xfe; x00; x00; x01; x00]
                    mod strideOf PixelDataType.Signed32 = 0)%nat)
      by (vm_compute; reflexivity).
    split; [apply ready_new|].
    split; [exact Htype|]. split; [exact Hunit|]. split; [exact Hdt|]. split; [exact Hmod|].
    split; [|vm_compute; reflexivity].
    exact (proj1 (proj1 (getDataValues_by_type _ _ (ready_new int32_file) Htype) _ Hunit)
             Hdt Hmod).
  - assert (Htype : fst (FitsStructure.pixelDataType (FitsStructure.new invalid_bitpix_file))
                    = Normal (str "12"))
      by (vm_compute; reflexivity).
    assert (Haxis : fst (FitsStructure.numAxis (FitsStructure.new invalid_bitpix_file))
                    = Normal (Int 1))
      by (vm_compute; reflexivity).
    assert (Hdt : str "12" ∉ PixelDataType.values).
    { intros Hin. apply list_elem_of_In in Hin. vm_compute in Hin.
      repeat (destruct Hin as [Hin|Hin]; [discriminate Hin|]). exact Hin. }
    split; [apply ready_new|].
    split; [exact Htype|]. split; [exact Haxis|]. split; [exact Hdt|].
    exact (proj1 (proj2 (getDataValues_by_type _ _ (ready_new invalid_bitpix_file) Htype)
                    _ Haxis Hdt)).
Defined.

(** C3, as stated, fails: 16 belongs to the enumeration and the data of
    the unit are whole 2-byte strides, yet the flat decode throws, and what
    it throws is the unsupported-type error. *)
Lemma getDataValues_int16_throws :
  let this := FitsStructure.new int16_file in
  fst (FitsStructure.pixelDataType this) = Normal PixelDataType.Signed16
  /\ PixelDataType.Signed16 ∈ PixelDataType.values
  /\ (exists region,
        fst (FitsStructure.getDataUnit this) = Normal region
        /\ (length region mod 2 = 0)%nat)
  /\ fst (FitsStructure.getDataValues this)
     = Throw (UnsupportedDataTypeError PixelDataType.Signed16)
  /\ errorKind (UnsupportedDataTypeError PixelDataType.Signed16) = Some UnsupportedEncoding.
Proof.
  cbv zeta. split; [vm_compute; reflexivity|].
  split; [apply list_elem_of_further, list_elem_of_here|].
  split; [eexists; split; vm_compute; reflexivity|].
  split; [vm_compute; reflexivity | reflexivity].
Qed.

(** ** The length of the flat decode *)

Lemma numBlocks_nonneg (len : nat) (k : Z) :
  FitsStructure.numBlocks (num_mul (Int (Z.of_nat len)) (Int FitsStructure.RECORD_SIZE)) = Int k ->
  0 <= k.
Proof.
  unfold FitsStructure.numBlocks, num_mul, Math_ceil_div, FitsStructure.RECORD_SIZE,
    FitsStructure.BLOCK_SIZE.
  intros Hk. injection Hk as <-.
  assert (- (Z.of_nat len * 80) / 2880 <= 0); [|lia].
  apply Z.div_le_upper_bound; lia.
Qed.

(** C8, as the program has it: for a unit with NAXIS above 0, a type
    among 8, 32 and -32, a data block count [d] that is not negative, and a
    view that holds all of its header and data blocks, the data region is
    the [d] whole blocks and the flat decode has d * 2880 / (bits / 8)
    samples, the fill of the last block included. *)
Theorem getDataValues_length (this : FitsStructure.t) (n k d : Z) (dataType : jsstring) :
  ready this ->
  fst (FitsStructure.numAxis this) = Normal (Int n) ->
  0 < n ->
  fst (FitsStructure.pixelDataType this) = Normal dataType ->
  dataType ∈ decodable ->
  fst (FitsStructure.getNumHeaderBlocks this) = Normal (Int k) ->
  fst (FitsStructure.getNumDataBlocks this) = Normal (Int d) ->
  0 <= d ->
  (k + d) * 2880 <= Z.of_nat (length (FitsStructure.rawData this)) ->
  exists region values bits,
    fst (FitsStructure.getDataUnit this) = Normal region
    /\ Z.of_nat (length region) = d * 2880
    /\ fst (FitsStructure.getDataValues this) = Normal values
    /\ fst (FitsStructure.bitsPerPixel this) = Normal (Int bits)
    /\ Z.of_nat (length values) = d * 2880 / (bits / 8).
Proof.
  intros Hready Haxis Hn Htype Hdt Hk Hd Hd0 Hlen.
  destruct (ready_settle this (Int n) Hready Haxis) as (raw & this' & Hraw & Hdata & Hsame).
  rewrite (Hsame _ _ scans_first_numAxis) in Haxis.
  rewrite (Hsame _ _ scans_first_pixelDataType) in Htype.
  rewrite (Hsame _ _ scans_first_getNumHeaderBlocks) in Hk.
  rewrite (Hsame _ _ scans_first_getNumDataBlocks) in Hd.
  rewrite (Hsame _ _ scans_first_getDataUnit).
  rewrite (Hsame _ _ scans_first_getDataValues).
  rewrite (Hsame _ _ scans_first_bitsPerPixel).
  rewrite <- Hdata in Hlen. clear Hsame Hready Hdata this. rename this' into this.
  set (data := FitsStructure.rawData this) in *.
  assert (Hk0 : 0 <= k).
  { unfold FitsStructure.getNumHeaderBlocks, mbind, M_bind, bind in Hk.
    rewrite (getRawHeaders_cached this raw Hraw) in Hk. cbn [fst mret M_ret ret] in Hk.
    apply (numBlocks_nonneg (length raw) k). congruence. }
  set (region := take (Z.to_nat (d * 2880)) (drop (Z.to_nat (k * 2880)) data)).
  assert (Hunit : fst (FitsStructure.getDataUnit this) = Normal region).
  { apply (preserves_result _ this raw _ preserves_numAxis Hraw) in Haxis.
    apply (preserves_result _ this raw _ preserves_getNumHeaderBlocks Hraw) in Hk.
    apply (preserves_result _ this raw _ preserves_getNumDataBlocks Hraw) in Hd.
    unfold FitsStructure.getDataUnit, mbind, M_bind, bind. rewrite Haxis.
    unfold num_eq. destruct (Z.eqb_spec n 0); [lia|]. rewrite Hk, Hd.
    unfold_M. cbn [fst num_add num_mul]. fold data.
    unfold FitsStructure.BLOCK_SIZE. rewrite subarray_range by lia.
    unfold region. do 3 f_equal. lia. }
  assert (Hregion : length region = Z.to_nat (d * 2880)).
  { unfold region. rewrite length_take, length_drop. lia. }
  destruct (bytesPerPixel_decodable dataType Hdt) as [Hvalues Hbytes].
  assert (Hmod : (length region mod strideOf dataType = 0)%nat).
  { rewrite Hregion. replace (Z.to_nat (d * 2880)) with (Z.to_nat d * 2880)%nat by lia.
    destruct (decodable_cases dataType Hdt) as [-> | [-> | ->]].
    - change (strideOf PixelDataType.UnsignedBinary) with 1%nat. apply Nat.mod_1_r.
    - change (strideOf PixelDataType.Signed32) with 4%nat.
      replace (Z.to_nat d * 2880)%nat with (Z.to_nat d * 720 * 4)%nat by lia.
      apply Nat.Div0.mod_mul.
    - change (strideOf PixelDataType.SingleFloat) with 4%nat.
      replace (Z.to_nat d * 2880)%nat with (Z.to_nat d * 720 * 4)%nat by lia.
      apply Nat.Div0.mod_mul. }
  exists region, (map (decodeStride dataType) (strides (strideOf dataType) region)),
    (8 * Z.of_nat (strideOf dataType)).
  split; [exact Hunit|]. split; [lia|]. split; [|split].
  - rewrite (getDataValues_cached this raw region dataType Hraw Hunit Htype), Hvalues, Hbytes.
    cbn [fst]. apply getDataValues_loop_strides; assumption.
  - apply (preserves_result _ this raw _ preserves_pixelDataType Hraw) in Htype.
    unfold FitsStructure.bitsPerPixel, mbind, M_bind, bind. rewrite Htype, Hvalues.
    destruct (decodable_cases dataType Hdt) as [-> | [-> | ->]]; reflexivity.
  - rewrite length_map, strides_length, Hregion.
    replace (8 * Z.of_nat (strideOf dataType) / 8) with (Z.of_nat (strideOf dataType))
      by (rewrite Z.mul_comm, Z.div_mul; lia).
    pose proof (strideOf_pos dataType).
    rewrite Nat2Z.inj_div, Z2Nat.id by lia. reflexivity.
Qed.

Lemma getDataValues_length_witness :
  let this := image_unit_scanned two_unit_file in
  ready this
  /\ fst (FitsStructure.numAxis this) = Normal (Int 2)
  /\ 0 < 2
  /\ fst (FitsStructure.pixelDataType this) = Normal PixelDataType.UnsignedBinary
  /\ PixelDataType.UnsignedBinary ∈ decodable
  /\ fst (FitsStructure.getNumHeaderBlocks this) = Normal (Int 1)
  /\ fst (FitsStructure.getNumDataBlocks this) = Normal (Int 1)
  /\ 0 <= 1
  /\ (1 + 1) * 2880 <= Z.of_nat (length (FitsStructure.rawData this))
  /\ exists region values bits,
       fst (FitsStructure.getDataUnit this) = Normal region
       /\ Z.of_nat (length region) = 1 * 2880
       /\ fst (FitsStructure.getDataValues this) = Normal values
       /\ fst (FitsStructure.bitsPerPixel this) = Normal (Int bits)
       /\ Z.of_nat (length values) = 1 * 2880 / (bits / 8).
Proof.
  cbv zeta.
  assert (H0 : ready (image_unit_scanned two_unit_file))
    by (right; vm_compute; eexists; reflexivity).
  assert (H1 : fst (FitsStructure.numAxis (image_unit_scanned two_unit_file))
               = Normal (Int 2)) by (vm_compute; reflexivity).
  assert (H2 : 0 < 2) by lia.
  assert (H3 : fst (FitsStructure.pixelDataType (image_unit_scanned two_unit_file))
               = Normal PixelDataType.UnsignedBinary) by (vm_compute; reflexivity).
  assert (H4 : PixelDataType.UnsignedBinary ∈ decodable) by apply list_elem_of_here.
  assert (H5 : fst (FitsStructure.getNumHeaderBlocks (image_unit_scanned two_unit_file))
               = Normal (Int 1)) by (vm_compute; reflexivity).
  assert (H6 : fst (FitsStructure.getNumDataBlocks (image_unit_scanned two_unit_file))
               = Normal (Int 1)) by (vm_compute; reflexivity).
  assert (H7 : 0 <= 1) by lia.
  assert (H8 : (1 + 1) * 2880
               <= Z.of_nat (length (FitsStructure.rawData (image_unit_scanned two_unit_file))))
    by (vm_compute; discriminate).
  repeat (split; [assumption|]).
  exact (getDataValues_length (image_unit_scanned two_unit_file) 2 1 1
           PixelDataType.UnsignedBinary H0 H1 H2 H3 H4 H5 H6 H7 H8).
Defined.

(** C8, as stated, fails twice.  The second unit of the file that ends
    after its four data bytes has NAXIS = 2, type 8 and one data block, and
    its flat decode has 4 samples, not 2880.  The unit that declares
    NAXIS1 = -5000 has NAXIS = 1, type 8 and a data block count of -1, and
    its flat decode has no samples, not -2880. *)
Lemma getDataValues_length_fails :
  (let this := image_unit two_unit_file_cut in
   fst (FitsStructure.numAxis this) = Normal (Int 2)
   /\ fst (FitsStructure.pixelDataType this) = Normal PixelDataType.UnsignedBinary
   /\ fst (FitsStructure.getNumDataBlocks this) = Normal (Int 1)
   /\ fst (FitsStructure.bitsPerPixel this) = Normal (Int 8)
   /\ (exists values,
         fst (FitsStructure.getDataValues this) = Normal values
         /\ Z.of_nat (length values) = 4
         /\ Z.of_nat (length values) <> 1 * 2880 / (8 / 8)))
  /\ (let this := FitsStructure.new negative_axis_file in
      fst (FitsStructure.numAxis this) = Normal (Int 1)
      /\ fst (FitsStructure.pixelDataType this) = Normal PixelDataType.UnsignedBinary
      /\ fst (FitsStructure.getNumDataBlocks this) = Normal (Int (-1))
      /\ fst (FitsStructure.bitsPerPixel this) = Normal (Int 8)
      /\ fst (FitsStructure.getDataValues this) = Normal []
      /\ Z.of_nat (length (@nil float)) <> -1 * 2880 / (8 / 8)).
Proof.
  cbv zeta. split.
  - repeat (split; [vm_compute; reflexivity|]).
    eexists. split; [vm_compute; reflexivity|]. split; [reflexivity | discriminate].
  - repeat (split; [vm_compute; reflexivity|]). discriminate.
Qed.

(** ** The loops inside a unit end *)

Lemma total_bind {A B : Type} (m : M FitsStructure.t A) (k : A -> M FitsStructure.t B) :
  total m -> (forall a, total (k a)) -> total (mbind k m).
Proof.
  intros Hm Hk this. unfold mbind, M_bind, bind. specialize (Hm this).
  destruct (m this) as [[a| |] s]; cbn in *.
  - apply Hk.
  - discriminate.
  - contradiction.
Qed.

Lemma total_try_catch {A : Type} (m : M FitsStructure.t A)
    (h : JsError -> M FitsStructure.t A) :
  total m -> (forall e, total (h e)) -> total (try_catch m h).
Proof.
  intros Hm Hh this. unfold try_catch. specialize (Hm this).
  destruct (m this) as [[a| e |] s]; cbn in *.
  - discriminate.
  - apply Hh.
  - contradiction.
Qed.

Lemma total_mret {A : Type} (a : A) : total (mret a : M FitsStructure.t A).
Proof. intros this. discriminate. Qed.

Lemma total_throw {A : Type} (e : JsError) : total (throw e : M FitsStructure.t A).
Proof. intros this. discriminate. Qed.

Lemma total_gets {A : Type} (f : FitsStructure.t -> A) : total (gets f).
Proof. intros this. discriminate. Qed.

Ltac total_step :=
  first
    [ assumption
    | apply total_mret | apply total_throw | apply total_gets
    | apply total_bind; [|intros ?]
    | apply total_try_catch; [|intros ?]
    | match goal with
      | |- total (if ?b then _ else _) => destruct b
      | |- total (match ?x with _ => _ end) => destruct x
      end ].

Lemma total_getRawHeaders : total FitsStructure.getRawHeaders.
Proof. exact getRawHeaders_no_Diverge. Qed.

Lemma total_getHeaderMap : total FitsStructure.getHeaderMap.
Proof.
  pose proof total_getRawHeaders.
  unfold FitsStructure.getHeaderMap. repeat total_step.
Qed.

Lemma total_getMetadataValue (key : jsstring) : total (FitsStructure.getMetadataValue key).
Proof.
  pose proof total_getHeaderMap.
  unfold FitsStructure.getMetadataValue. repeat total_step.
Qed.

Lemma total_numAxis : total FitsStructure.numAxis.
Proof.
  pose proof (total_getMetadataValue (str "NAXIS")).
  unfold FitsStructure.numAxis. repeat total_step.
Qed.

Lemma total_sizeAxis (index : Z) : total (FitsStructure.sizeAxis index).
Proof.
  pose proof total_numAxis.
  pose proof (total_getMetadataValue (str "NAXIS" ++ intToString index)).
  unfold FitsStructure.sizeAxis. repeat total_step.
Qed.

Lemma total_pixelDataType : total FitsStructure.pixelDataType.
Proof. apply total_getMetadataValue. Qed.

Lemma total_bitsPerPixel : total FitsStructure.bitsPerPixel.
Proof.
  pose proof total_pixelDataType.
  unfold FitsStructure.bitsPerPixel. repeat total_step.
Qed.

Lemma total_getDataSize_loop (indices : list Z) :
  forall prod, total (FitsStructure.getDataSize_loop indices prod).
Proof.
  induction indices as [|i rest IH]; intros prod; cbn [FitsStructure.getDataSize_loop].
  - apply total_mret.
  - apply total_bind; [apply total_sizeAxis | intros length; apply IH].
Qed.

Lemma total_getDataSize : total FitsStructure.getDataSize.
Proof.
  pose proof total_numAxis. pose proof total_bitsPerPixel.
  unfold FitsStructure.getDataSize.
  apply total_bind; [assumption | intros n].
  destruct (num_eq n (Int 0)); [apply total_mret|].
  apply total_bind; [assumption | intros bits]. apply total_getDataSize_loop.
Qed.

Lemma total_getNumDataBlocks : total FitsStructure.getNumDataBlocks.
Proof.
  pose proof total_getDataSize.
  unfold FitsStructure.getNumDataBlocks. repeat total_step.
Qed.

Lemma total_getNumHeaderBlocks : total FitsStructure.getNumHeaderBlocks.
Proof.
  pose proof total_getRawHeaders.
  unfold FitsStructure.getNumHeaderBlocks. repeat total_step.
Qed.

Lemma total_getNumStructureBytes : total FitsStructure.getNumStructureBytes.
Proof.
  pose proof total_getNumHeaderBlocks. pose proof total_getNumDataBlocks.
  unfold FitsStructure.getNumStructureBytes, FitsStructure.getNumStructureBlocks.
  repeat total_step.
Qed.

Lemma total_getNextStructure : total FitsStructure.getNextStructure.
Proof.
  pose proof total_getNumStructureBytes.
  unfold FitsStructure.getNextStructure. repeat total_step.
Qed.

Lemma total_getDataUnit : total FitsStructure.getDataUnit.
Proof.
  pose proof total_numAxis. pose proof total_getNumHeaderBlocks.
  pose proof total_getNumDataBlocks.
  unfold FitsStructure.getDataUnit. repeat total_step.
Qed.

(** What [bitsPerPixel] returns is the width of one of the six types. *)
Lemma bitsPerPixel_values (this : FitsStructure.t) (bits : num) :
  fst (FitsStructure.bitsPerPixel this) = Normal bits ->
  bits ∈ [Int 8; Int 16; Int 32; Int 64].
Proof.
  unfold FitsStructure.bitsPerPixel, mbind, M_bind, bind.
  destruct (FitsStructure.pixelDataType this) as [[dataType| |] this']; try discriminate.
  destruct (bool_decide_reflect (dataType ∈ PixelDataType.values)) as [Hin|_];
    [|discriminate].
  intros Hbits. injection Hbits as <-. unfold PixelDataType.values in Hin.
  repeat (apply elem_of_cons in Hin as [-> | Hin];
          [vm_compute; repeat (first [apply list_elem_of_here | apply list_elem_of_further])|]).
  apply elem_of_nil in Hin. contradiction.
Qed.

Lemma read_completes (data : Buffer) (offset : num) :
  readUInt8 data offset <> Diverge /\ readInt32BE data offset <> Diverge
  /\ readFloatBE data offset <> Diverge.
Proof.
  unfold readUInt8, readInt32BE, readFloatBE.
  repeat split; repeat (match goal with |- context [match ?x with _ => _ end] => destruct x end);
    discriminate.
Qed.

Lemma getDataValues_loop_ends (dataType : jsstring) (stride : Z) (data : Buffer) :
  1 <= stride ->
  forall (fuel : nat) (offset : Z) (values : list float),
    0 <= offset -> Z.of_nat (length data) - offset <= Z.of_nat fuel ->
    FitsStructure.getDataValues_loop fuel dataType (Int stride) data (Int offset) values
    <> Diverge.
Proof.
  intros Hstride. induction fuel as [|fuel IH]; intros offset values Hoffset Hfuel;
    cbn [FitsStructure.getDataValues_loop]; unfold num_lt, buffer_length;
    destruct (Z.ltb_spec offset (Z.of_nat (length data))); try discriminate; [lia|].
  destruct (read_completes data (Int offset)) as (H8 & H32 & Hf).
  repeat (match goal with |- context [if ?b then _ else _] => destruct b end);
    try discriminate; unfold mbind, completion_bind.
  - destruct (readFloatBE data (Int offset)); [apply IH; lia | discriminate | contradiction].
  - destruct (readInt32BE data (Int offset)); [apply IH; lia | discriminate | contradiction].
  - destruct (readUInt8 data (Int offset)); [apply IH; lia | discriminate | contradiction].
Qed.

Lemma total_getDataValues : total FitsStructure.getDataValues.
Proof.
  intros this. unfold FitsStructure.getDataValues, mbind, M_bind, bind.
  pose proof (total_getDataUnit this) as Hunit.
  destruct (FitsStructure.getDataUnit this) as [[data| |] this1]; cbn in Hunit;
    [|discriminate|contradiction].
  pose proof (total_pixelDataType this1) as Htype.
  destruct (FitsStructure.pixelDataType this1) as [[dataType| |] this2]; cbn in Htype;
    [|discriminate|contradiction].
  pose proof (total_bitsPerPixel this2) as Hbits.
  pose proof (bitsPerPixel_values this2) as Hvalues.
  destruct (FitsStructure.bitsPerPixel this2) as [[bits| |] this3]; cbn in Hbits;
    [|discriminate|contradiction].
  specialize (Hvalues bits eq_refl). cbn [fst lift].
  repeat (apply elem_of_cons in Hvalues as [-> | Hvalues];
          [apply getDataValues_loop_ends; [vm_compute; discriminate | lia | lia]|]).
  apply elem_of_nil in Hvalues. contradiction.
Qed.

Lemma total_getDataValuesArray : total FitsStructure.getDataValuesArray.
Proof.
  pose proof (total_sizeAxis 1). pose proof (total_sizeAxis 2).
  pose proof total_getDataValues.
  unfold FitsStructure.getDataValuesArray. repeat total_step.
Qed.

Lemma total_getDataStats `{Runtime} : total FitsStructure.getDataStats.
Proof.
  pose proof total_getDataValues.
  unfold FitsStructure.getDataStats. repeat total_step.
Qed.

Lemma total_isImage `{Runtime} : total FitsStructure.isImage.
Proof.
  pose proof (total_getMetadataValue (str "XTENSION")).
  unfold FitsStructure.isImage. repeat total_step.
Qed.

(** ** Required header values *)

Lemma trimStart_whitespace (s : jsstring) :
  Forall (fun c => isWhiteSpace c = true) s -> trimStart s = [].
Proof.
  induction 1 as [|c s Hc _ IH]; [reflexivity|].
  cbn [trimStart]. rewrite Hc. exact IH.
Qed.

Lemma trim_whitespace (s : jsstring) :
  Forall (fun c => isWhiteSpace c = true) s -> trim s = [].
Proof.
  intros Hs. unfold trim, trimEnd. rewrite (trimStart_whitespace s Hs). reflexivity.
Qed.

Lemma getMetadataValue_of_map (this this' : FitsStructure.t)
    (map : gmap jsstring jsstring) (key : jsstring) :
  FitsStructure.getHeaderMap this = (Normal map, this') ->
  FitsStructure.getMetadataValue key this
  = match map !! key with
    | Some ((_ :: _) as value) => (Normal value, this')
    | _ => (Throw (KeyNotFoundError key), this')
    end.
Proof.
  intros Hmap. unfold FitsStructure.getMetadataValue. unfold_M. rewrite Hmap.
  destruct (map !! key) as [[|c value]|]; reflexivity.
Qed.

(** C10: a keyword stored with the empty string is looked up exactly as an
    absent one, with the missing-keyword error; a value comes back only
    when a non-empty string is stored.  A record whose value field is blank
    up to its comment delimiter parses to the empty string. *)
Theorem getMetadataValue_empty_value (this this' : FitsStructure.t)
    (map : gmap jsstring jsstring) (key : jsstring) :
  FitsStructure.getHeaderMap this = (Normal map, this') ->
  (map !! key = Some [] \/ map !! key = None ->
   FitsStructure.getMetadataValue key this = (Throw (KeyNotFoundError key), this'))
  /\ (forall value,
        FitsStructure.getMetadataValue key this = (Normal value, this')
        <-> map !! key = Some value /\ value <> [])
  /\ (forall entry : jsstring,
        length entry = 80%nat ->
        Forall (fun c => isWhiteSpace c = true) (split_first (substringFrom entry 9) 47) ->
        MetaDataParser.getValue entry = Normal []).
Proof.
  intros Hmap. rewrite (getMetadataValue_of_map this this' map key Hmap).
  split; [|split].
  - intros [-> | ->]; reflexivity.
  - intros value. destruct (map !! key) as [[|c stored]|]; split.
    + discriminate.
    + intros [Heq Hne]. injection Heq as <-. contradiction.
    + intros Heq. injection Heq as <-. split; [reflexivity | discriminate].
    + intros [Heq _]. injection Heq as <-. reflexivity.
    + discriminate.
    + intros [Heq _]. discriminate.
  - intros entry Hlen Hblank. unfold MetaDataParser.getValue, MetaDataParser.checkEntry.
    rewrite Hlen. cbn. rewrite (trim_whitespace _ Hblank). reflexivity.
Qed.

Lemma getMetadataValue_empty_value_witness :
  let this := FitsStructure.new blank_value_file in
  let this' := snd (FitsStructure.getHeaderMap this) in
  FitsStructure.getHeaderMap this = (Normal (FitsStructure.headers this'), this')
  /\ FitsStructure.headers this' !! str "OBSERVER" = Some []
  /\ FitsStructure.getMetadataValue (str "OBSERVER") this
     = (Throw (KeyNotFoundError (str "OBSERVER")), this').
Proof.
  cbv zeta.
  assert (Hmap : FitsStructure.getHeaderMap (FitsStructure.new blank_value_file)
                 = (Normal (FitsStructure.headers
                              (snd (FitsStructure.getHeaderMap (FitsStructure.new blank_value_file)))),
                    snd (FitsStructure.getHeaderMap (FitsStructure.new blank_value_file))))
    by (vm_compute; reflexivity).
  assert (Hkey : FitsStructure.headers
                   (snd (FitsStructure.getHeaderMap (FitsStructure.new blank_value_file)))
                 !! str "OBSERVER" = Some [])
    by (vm_compute; reflexivity).
  split; [exact Hmap|]. split; [exact Hkey|].
  apply (proj1 (getMetadataValue_empty_value _ _ _ (str "OBSERVER") Hmap)).
  left. exact Hkey.
Defined.

(** ** The image predicate *)

(** C5 fails on the program: whenever the header map has no XTENSION
    entry, [isImage] raises the missing-keyword error of [getMetadataValue]
    and never reaches its own guard on the value. *)
Theorem isImage_without_XTENSION `{Runtime} (this this' : FitsStructure.t)
    (map : gmap jsstring jsstring) :
  FitsStructure.getHeaderMap this = (Normal map, this') ->
  map !! str "XTENSION" = None ->
  FitsStructure.isImage this = (Throw (KeyNotFoundError (str "XTENSION")), this').
Proof.
  intros Hmap Hnone. unfold FitsStructure.isImage. unfold_M.
  rewrite (getMetadataValue_of_map this this' map _ Hmap), Hnone. reflexivity.
Qed.

Lemma isImage_without_XTENSION_witness :
  let this := FitsStructure.new primary_header in
  let this' := snd (FitsStructure.getHeaderMap this) in
  FitsStructure.getHeaderMap this = (Normal (FitsStructure.headers this'), this')
  /\ FitsStructure.headers this' !! str "XTENSION" = None
  /\ @FitsStructure.isImage Samples.runtime this
     = (Throw (KeyNotFoundError (str "XTENSION")), this').
Proof.
  cbv zeta.
  assert (Hmap : FitsStructure.getHeaderMap (FitsStructure.new primary_header)
                 = (Normal (FitsStructure.headers
                              (snd (FitsStructure.getHeaderMap (FitsStructure.new primary_header)))),
                    snd (FitsStructure.getHeaderMap (FitsStructure.new primary_header))))
    by (vm_compute; reflexivity).
  assert (Hkey : FitsStructure.headers
                   (snd (FitsStructure.getHeaderMap (FitsStructure.new primary_header)))
                 !! str "XTENSION" = None)
    by (vm_compute; reflexivity).
  split; [exact Hmap|]. split; [exact Hkey|].
  exact (@isImage_without_XTENSION Samples.runtime _ _ _ Hmap Hkey).
Defined.

(** ** Statistics *)

Section Statistics.
Context `{Runtime}.

Lemma sort_insert_Permutation (x : float) (sorted : list float) :
  FitsStructure.sort_insert x sorted ≡ₚ x :: sorted.
Proof.
  induction sorted as [|y rest IH]; [reflexivity|].
  cbn [FitsStructure.sort_insert].
  destruct (FitsStructure.string_lt _ _); [reflexivity|].
  rewrite IH. apply Permutation_swap.
Qed.

Lemma sort_fold_Permutation (data sorted : list float) :
  foldl (fun sorted x => FitsStructure.sort_insert x sorted) sorted data ≡ₚ sorted ++ data.
Proof.
  revert sorted. induction data as [|x data IH]; intros sorted.
  - cbn. rewrite app_nil_r. reflexivity.
  - cbn [foldl]. rewrite IH, sort_insert_Permutation.
    rewrite (Permutation_middle sorted data x). reflexivity.
Qed.

Lemma Array_sort_Permutation (data : list float) :
  FitsStructure.Array_sort data ≡ₚ data.
Proof. unfold FitsStructure.Array_sort. apply sort_fold_Permutation. Qed.

(** Whatever order the sort leaves 1..5 in, the scan of [forEach] ends
    with the same minimum, maximum and sum. *)
Lemma accumulate_one_to_five (sorted : list float) :
  sorted ≡ₚ [1; 2; 3; 4; 5]%float ->
  foldl FitsStructure.accumulate (Number_MAX_VALUE, Number_MIN_VALUE, 0%float) sorted
  = (1, 5, 15)%float.
Proof.
  intros Hperm. symmetry in Hperm. apply permutations_Permutation in Hperm.
  revert sorted Hperm. apply Forall_forall.
  let ps := eval vm_compute in (permutations [1; 2; 3; 4; 5]%float) in
  change (permutations [1; 2; 3; 4; 5]%float) with ps.
  repeat (constructor; [vm_compute; reflexivity|]). constructor.
Qed.

Lemma dataStats_one_to_five :
  let stats := FitsStructure.dataStats [1; 2; 3; 4; 5]%float in
  FitsStructure.min stats = 1%float /\ FitsStructure.max stats = 5%float
  /\ FitsStructure.mean stats = 3%float /\ FitsStructure.median stats = None.
Proof.
  cbv zeta. unfold FitsStructure.dataStats.
  pose proof (Array_sort_Permutation [1; 2; 3; 4; 5]%float) as Hperm.
  pose proof (Permutation_length Hperm) as Hlen.
  rewrite (accumulate_one_to_five _ Hperm).
  unfold FitsStructure.index_half. rewrite Hlen.
  cbn [FitsStructure.min FitsStructure.max FitsStructure.mean FitsStructure.median].
  repeat split; vm_compute; reflexivity.
Qed.

(** C2 fails on the program in its median: on the samples 1..5 the
    minimum, maximum and mean are 1, 5 and 3, and the median is
    undefined, because [data.length / 2] is 2.5, which indexes nothing. *)
Theorem getDataStats_one_to_five (this this' : FitsStructure.t) :
  FitsStructure.getDataValues this = (Normal [1; 2; 3; 4; 5]%float, this') ->
  exists stats,
    FitsStructure.getDataStats this = (Normal stats, this')
    /\ FitsStructure.min stats = 1%float /\ FitsStructure.max stats = 5%float
    /\ FitsStructure.mean stats = 3%float /\ FitsStructure.median stats = None.
Proof.
  intros Hdata. exists (FitsStructure.dataStats [1; 2; 3; 4; 5]%float).
  split; [|apply dataStats_one_to_five].
  unfold FitsStructure.getDataStats. unfold_M. rewrite Hdata. reflexivity.
Qed.

(** C6, as the program has it: on no samples the statistics do not fail;
    the minimum and maximum keep their initial values and the mean and
    standard deviation are NaN. *)
Theorem getDataStats_empty (this this' : FitsStructure.t) :
  FitsStructure.getDataValues this = (Normal [], this') ->
  exists stats,
    FitsStructure.getDataStats this = (Normal stats, this')
    /\ FitsStructure.min stats = Number_MAX_VALUE
    /\ FitsStructure.max stats = Number_MIN_VALUE
    /\ FitsStructure.mean stats = nan
    /\ FitsStructure.stdDev stats = nan.
Proof.
  intros Hdata. exists (FitsStructure.dataStats []).
  split; [|repeat split; vm_compute; reflexivity].
  unfold FitsStructure.getDataStats. unfold_M. rewrite Hdata. reflexivity.
Qed.

End Statistics.

Lemma getDataStats_one_to_five_witness :
  let this := FitsStructure.new five_samples_file in
  let this' := snd (FitsStructure.getDataValues this) in
  FitsStructure.getDataValues this = (Normal [1; 2; 3; 4; 5]%float, this')
  /\ exists stats,
       @FitsStructure.getDataStats Samples.runtime this = (Normal stats, this')
       /\ FitsStructure.min stats = 1%float /\ FitsStructure.max stats = 5%float
       /\ FitsStructure.mean stats = 3%float /\ FitsStructure.median stats = None.
Proof.
  cbv zeta.
  assert (Hdata : FitsStructure.getDataValues (FitsStructure.new five_samples_file)
                  = (Normal [1; 2; 3; 4; 5]%float,
                     snd (FitsStructure.getDataValues (FitsStructure.new five_samples_file))))
    by (vm_compute; reflexivity).
  split; [exact Hdata|].
  exact (@getDataStats_one_to_five Samples.runtime _ _ Hdata).
Defined.

Lemma getDataStats_empty_witness :
  let this := FitsStructure.new primary_header in
  let this' := snd (FitsStructure.getDataValues this) in
  FitsStructure.getDataValues this = (Normal [], this')
  /\ exists stats,
       @FitsStructure.getDataStats Samples.runtime this = (Normal stats, this')
       /\ FitsStructure.min stats = Number_MAX_VALUE
       /\ FitsStructure.max stats = Number_MIN_VALUE
       /\ FitsStructure.mean stats = nan
       /\ FitsStructure.stdDev stats = nan.
Proof.
  cbv zeta.
  assert (Hdata : FitsStructure.getDataValues (FitsStructure.new primary_header)
                  = (Normal [], snd (FitsStructure.getDataValues (FitsStructure.new primary_header))))
    by (vm_compute; reflexivity).
  split; [exact Hdata|].
  exact (@getDataStats_empty Samples.runtime _ _ Hdata).
Defined.

(** C6, as stated, fails: for the unit without data the samples are the
    empty sequence, and the statistics neither fail with an empty-input
    error nor avoid NaN. *)
Lemma getDataStats_empty_not_an_error :
  let this := FitsStructure.new primary_header in
  fst (FitsStructure.getDataValues this) = Normal []
  /\ (~ exists e, fst (@FitsStructure.getDataStats Samples.runtime this) = Throw e)
  /\ (exists stats,
        fst (@FitsStructure.getDataStats Samples.runtime this) = Normal stats
        /\ FitsStructure.mean stats = nan).
Proof.
  cbv zeta. split; [vm_compute; reflexivity|]. split.
  - intros [e He]. vm_compute in He. discriminate.
  - eexists. split; vm_compute; reflexivity.
Qed.

(** ** Loading the sample files *)

Lemma load_two_unit_file_eq (fuel : nat) :
  PrimaryHDU.load (S fuel) two_unit_file PrimaryHDU.new = (Normal tt, loaded two_unit_file).
Proof. destruct fuel; vm_compute; reflexivity. Qed.

Lemma load_two_unit_file_cut_eq (fuel : nat) :
  PrimaryHDU.load (S fuel) two_unit_file_cut PrimaryHDU.new
  = (Normal tt, loaded two_unit_file_cut).
Proof. destruct fuel; vm_compute; reflexivity. Qed.

Lemma load_two_unit_file_no_fuel :
  fst (PrimaryHDU.load 0 two_unit_file PrimaryHDU.new) = Diverge.
Proof. vm_compute; reflexivity. Qed.

(** C1, as the program has it: loading the two-unit file keeps the primary
    unit in [hdu] and puts exactly one unit, the file's second, in
    [structures]; the 2-D decode of the structure at index 0 is
    [[10, 20], [30, 40]].  This holds for the block-padded file and for
    the file that ends after its four data bytes. *)
Theorem load_two_unit_file (fuel : nat) :
  let decode (file : Buffer) :=
    (PrimaryHDU.load (S fuel) file PrimaryHDU.new = (Normal tt, loaded file))
    /\ PrimaryHDU.structures (loaded file) = Some [image_unit_scanned file]
    /\ fst (PrimaryHDU.getStructure 0 (loaded file)) = Normal (Some (image_unit_scanned file))
    /\ fst (FitsStructure.getDataValuesArray (image_unit_scanned file))
       = Normal [[Some 10%float; Some 20%float]; [Some 30%float; Some 40%float]] in
  decode two_unit_file /\ decode two_unit_file_cut.
Proof.
  cbv zeta. split.
  - split; [apply load_two_unit_file_eq|].
    split; [reflexivity|]. split; [reflexivity|]. vm_compute; reflexivity.
  - split; [apply load_two_unit_file_cut_eq|].
    split; [reflexivity|]. split; [reflexivity|]. vm_compute; reflexivity.
Qed.

(** C1, as stated, fails: no run of [load] on the two-unit file leaves two
    units in [structures], and index 1 holds no structure. *)
Lemma load_two_unit_file_not_two :
  ~ (exists fuel this,
        PrimaryHDU.load fuel two_unit_file PrimaryHDU.new = (Normal tt, this)
        /\ length (PrimaryHDU.structures_of this) = 2%nat)
  /\ fst (PrimaryHDU.getStructure 1 (loaded two_unit_file)) = Normal None.
Proof.
  split; [|reflexivity].
  intros (fuel & this & Hload & Hlen). destruct fuel as [|fuel].
  - pose proof load_two_unit_file_no_fuel as Hd. rewrite Hload in Hd. discriminate.
  - rewrite load_two_unit_file_eq in Hload. injection Hload as <-. discriminate.
Qed.

(** ** A negative axis length *)

Lemma negative_axis_successor :
  exists scanned,
    FitsStructure.getNextStructure (FitsStructure.new negative_axis_file)
    = (Normal (Some (FitsStructure.new negative_axis_file)), scanned).
Proof. eexists. vm_compute. reflexivity. Qed.

Lemma load_loop_negative_axis (fuel : nat) (this : PrimaryHDU.t) :
  fst (PrimaryHDU.load_loop fuel (Some (FitsStructure.new negative_axis_file)) this) = Diverge.
Proof.
  destruct negative_axis_successor as [scanned Hnext].
  revert this. induction fuel as [|fuel IH]; intros this; [reflexivity|].
  cbn [PrimaryHDU.load_loop]. rewrite Hnext. apply IH.
Qed.

(** C9 fails on the program: for the one-unit file that declares
    NAXIS1 = -5000 every header scan and size computation succeeds, the
    successor offset is 0, the successor is a view of the same bytes, and
    the walk of [load] never ends, whatever bound it is given. *)
Theorem load_negative_axis_diverges (fuel : nat) :
  fst (FitsStructure.getNumStructureBytes (FitsStructure.new negative_axis_file)) = Normal (Int 0)
  /\ fst (FitsStructure.getNextStructure (FitsStructure.new negative_axis_file))
     = Normal (Some (FitsStructure.new negative_axis_file))
  /\ fst (PrimaryHDU.load fuel negative_axis_file PrimaryHDU.new) = Diverge.
Proof.
  split; [vm_compute; reflexivity|].
  destruct negative_axis_successor as [scanned Hnext].
  split; [rewrite Hnext; reflexivity|].
  unfold PrimaryHDU.load. cbn [PrimaryHDU.hdu PrimaryHDU.new]. rewrite Hnext.
  apply load_loop_negative_axis.
Qed.

(** ** The walk of [load] when no data size is negative *)

(** A scan that succeeds has read whole blocks, at least one. *)
Lemma scan_loop_blocks :
  forall (fuel m : nat) (metadata metadata' : list jsstring) (this this' : FitsStructure.t),
    FitsStructure.getRawHeaders_loop fuel (Z.of_nat (S m)) false metadata this
    = (Normal metadata', this') ->
    exists b, (1 <= b)%nat /\ length metadata' = (length metadata + 36 * b)%nat.
Proof.
  induction fuel as [|fuel IH]; intros m metadata metadata' this this' Hrun;
    [discriminate|].
  rewrite getRawHeaders_loop_step in Hrun.
  destruct (forEach_scanEntry
              (map (recordAt (FitsStructure.rawData this)) (seq (36 * m) 36))
              false metadata this)
    as (this1 & _ & [[_ Hblock] | (good & bad & rest & _ & _ & _ & Hblock)]);
    rewrite Hblock in Hrun; [|discriminate].
  rewrite orb_false_l in Hrun. destruct (existsb isTerminator _).
  - rewrite getRawHeaders_loop_found in Hrun.
    assert (Heq : metadata ++ map (recordAt (FitsStructure.rawData this)) (seq (36 * m) 36)
                  = metadata') by congruence.
    rewrite <- Heq. exists 1%nat. split; [lia|]. rewrite length_app, length_map, length_seq. lia.
  - destruct (IH _ _ _ _ _ Hrun) as (b & Hb & Hlen).
    exists (S b). split; [lia|].
    rewrite Hlen, length_app, length_map, length_seq. lia.
Qed.

Lemma getNumHeaderBlocks_positive (this : FitsStructure.t) (k : num) :
  fst (FitsStructure.getNumHeaderBlocks this) = Normal k ->
  FitsStructure.rawHeaders this = None ->
  exists b, 1 <= b /\ k = Int b.
Proof.
  intros Hk Hnone.
  unfold FitsStructure.getNumHeaderBlocks, mbind, M_bind, bind in Hk.
  rewrite (getRawHeaders_uncached this Hnone) in Hk.
  destruct (FitsStructure.getRawHeaders_loop _ _ _ _ _) as [[raw| |] this'] eqn:Hrun;
    try discriminate.
  destruct (scan_loop_blocks _ 0 _ _ _ _ Hrun) as (b & Hb & Hlen).
  cbn [fst mret M_ret ret] in Hk. injection Hk as <-.
  exists (Z.of_nat b). split; [lia|].
  unfold FitsStructure.numBlocks, num_mul, Math_ceil_div, FitsStructure.RECORD_SIZE,
    FitsStructure.BLOCK_SIZE.
  rewrite Hlen. cbn [length]. f_equal.
  replace (- (Z.of_nat (0 + 36 * b) * 80)) with ((- Z.of_nat b) * 2880) by lia.
  rewrite Z.div_mul by lia. lia.
Qed.

(** With a data block count that is not negative, the successor of a new
    unit is the view at least one block further. *)
Lemma getNextStructure_further (data : Buffer) (next : FitsStructure.t) :
  (forall d, fst (FitsStructure.getNumDataBlocks (FitsStructure.new data)) = Normal (Int d) ->
             0 <= d) ->
  fst (FitsStructure.getNextStructure (FitsStructure.new data)) = Normal (Some next) ->
  exists z : nat, (2880 <= z < length data)%nat /\ next = FitsStructure.new (drop z data).
Proof.
  intros Hd Hnext.
  unfold FitsStructure.getNextStructure, FitsStructure.getNumStructureBytes,
    FitsStructure.getNumStructureBlocks, mbind, M_bind, bind in Hnext.
  destruct (FitsStructure.getNumHeaderBlocks (FitsStructure.new data))
    as [[k| |] this1] eqn:Hk; try discriminate.
  destruct (getNumHeaderBlocks_positive (FitsStructure.new data) k
              ltac:(rewrite Hk; reflexivity) eq_refl) as (b & Hb & ->).
  assert (Hscan : exists raw, FitsStructure.getRawHeaders (FitsStructure.new data)
                              = (Normal raw, this1)).
  { unfold FitsStructure.getNumHeaderBlocks, mbind, M_bind, bind in Hk.
    destruct (FitsStructure.getRawHeaders (FitsStructure.new data)) as [[raw| |] s];
      try discriminate.
    injection Hk as _ <-. eauto. }
  destruct Hscan as [raw Hscan].
  destruct (scan_result data raw this1 Hscan) as [Hraw Hdata].
  rewrite (scans_first_getNumDataBlocks data raw this1 Hscan) in Hd.
  rewrite (preserves_run _ this1 raw preserves_getNumDataBlocks Hraw) in Hnext.
  unfold mret, M_ret, ret, gets in Hnext.
  destruct (fst (FitsStructure.getNumDataBlocks this1)) as [[|d]| |] eqn:Hblocks;
    try discriminate.
  - specialize (Hd d eq_refl).
    cbn [num_add num_mul num_gt num_lt buffer_length] in Hnext.
    rewrite Hdata in Hnext. unfold FitsStructure.BLOCK_SIZE in Hnext.
    destruct (Z.ltb_spec ((b + d) * 2880) (Z.of_nat (length data))); [|discriminate].
    cbn [fst] in Hnext. injection Hnext as <-.
    exists (Z.to_nat ((b + d) * 2880)). split; [lia|]. f_equal.
    unfold subarray, adjustOffset.
    destruct (Z.ltb_spec ((b + d) * 2880) 0); [lia|].
    rewrite Z.min_l by lia. rewrite take_ge by (rewrite length_drop; lia). reflexivity.
Qed.

Lemma load_loop_done (fuel : nat) (this : PrimaryHDU.t) :
  PrimaryHDU.load_loop fuel None this = (Normal tt, this).
Proof. destruct fuel; reflexivity. Qed.

Lemma load_loop_ends (file : Buffer) :
  (forall off d,
      fst (FitsStructure.getNumDataBlocks (FitsStructure.new (drop off file))) = Normal (Int d) ->
      0 <= d) ->
  forall (n off fuel : nat) (this : PrimaryHDU.t),
    (length (drop off file) <= 2880 * n)%nat ->
    (n < fuel)%nat ->
    fst (PrimaryHDU.load_loop fuel (Some (FitsStructure.new (drop off file))) this) <> Diverge.
Proof.
  intros Hd. induction n as [|n IH]; intros off fuel this Hlen Hfuel;
    (destruct fuel as [|fuel]; [lia|]); cbn [PrimaryHDU.load_loop];
    pose proof (total_getNextStructure (FitsStructure.new (drop off file))) as Htotal;
    pose proof (getNextStructure_further (drop off file)) as Hstep;
    destruct (FitsStructure.getNextStructure (FitsStructure.new (drop off file)))
      as [[[next|]| |] unit']; cbn [fst] in *; try discriminate; try contradiction;
    try (rewrite load_loop_done; discriminate);
    destruct (Hstep next (Hd off) eq_refl) as (z & Hz & ->).
  - lia.
  - rewrite drop_drop. apply IH; [|lia]. rewrite <- drop_drop, length_drop. lia.
Qed.

(** X1. The walk of [load] ends on every file none of whose views
    declares a negative data block count: each successor is at least one
    block shorter than its predecessor, so length / 2880 + 2 rounds of the
    loop are enough. *)
Lemma load_ends (file : Buffer) (fuel : nat) :
  (forall off d,
      fst (FitsStructure.getNumDataBlocks (FitsStructure.new (drop off file))) = Normal (Int d) ->
      0 <= d) ->
  (length file / 2880 + 2 <= fuel)%nat ->
  fst (PrimaryHDU.load fuel file PrimaryHDU.new) <> Diverge.
Proof.
  intros Hd Hfuel. unfold PrimaryHDU.load. cbn [PrimaryHDU.hdu PrimaryHDU.new].
  pose proof (total_getNextStructure (FitsStructure.new file)) as Htotal.
  pose proof (getNextStructure_further file) as Hstep.
  destruct (FitsStructure.getNextStructure (FitsStructure.new file))
    as [[[next|]| |] primary]; cbn [fst] in *; try discriminate; try contradiction.
  - destruct (Hstep next (Hd 0%nat) eq_refl) as (z & Hz & ->).
    apply (load_loop_ends file Hd (length file / 2880) z fuel); [|lia].
    rewrite length_drop.
    pose proof (Nat.div_mod_eq (length file) 2880).
    pose proof (Nat.mod_upper_bound (length file) 2880). lia.
  - rewrite load_loop_done. discriminate.
Qed.

(** * Further properties of the program *)

(** ** The value field of a record *)

Lemma split_first_prefix (s : jsstring) (sep : N) :
  (sep ∉ split_first s sep)
  /\ exists rest, s = split_first s sep ++ rest /\ (rest = [] \/ head rest = Some sep).
Proof.
  induction s as [|c s [IHnot (rest & IHeq & IHrest)]].
  - split; [apply not_elem_of_nil|]. exists []. split; [reflexivity|left; reflexivity].
  - cbn [split_first]. destruct (N.eqb_spec c sep) as [-> | Hne].
    + split; [apply not_elem_of_nil|]. exists (sep :: s).
      split; [reflexivity|right; reflexivity].
    + split.
      * rewrite not_elem_of_cons. split; [congruence|assumption].
      * exists rest. split; [cbn; congruence|assumption].
Qed.

Lemma trimStart_suffix (s : jsstring) :
  exists blank,
    s = blank ++ trimStart s
    /\ Forall (fun c => isWhiteSpace c = true) blank
    /\ forall c, head (trimStart s) = Some c -> isWhiteSpace c = false.
Proof.
  induction s as [|c s (blank & IHeq & IHblank & IHhead)].
  - exists []. split; [reflexivity|]. split; [constructor|]. intros c Hc. discriminate.
  - cbn [trimStart]. destruct (isWhiteSpace c) eqn:Hc.
    + exists (c :: blank). split; [cbn; congruence|].
      split; [constructor; assumption|assumption].
    + exists []. split; [reflexivity|]. split; [constructor|].
      intros c' Hc'. cbn in Hc'. congruence.
Qed.

Lemma trimEnd_prefix (s : jsstring) :
  exists blank,
    s = trimEnd s ++ blank
    /\ Forall (fun c => isWhiteSpace c = true) blank
    /\ forall c, last (trimEnd s) = Some c -> isWhiteSpace c = false.
Proof.
  destruct (trimStart_suffix (rev s)) as (blank & Heq & Hblank & Hhead).
  exists (rev blank). unfold trimEnd. split; [|split].
  - rewrite <- rev_app_distr, <- Heq, rev_involutive. reflexivity.
  - apply Forall_rev. exact Hblank.
  - intros c Hc. apply Hhead. rewrite <- Hc.
    destruct (trimStart (rev s)) as [|c' rest]; [reflexivity|].
    cbn [rev head]. rewrite last_snoc. reflexivity.
Qed.

Lemma trim_middle (s : jsstring) :
  exists before after,
    s = before ++ trim s ++ after
    /\ Forall (fun c => isWhiteSpace c = true) before
    /\ Forall (fun c => isWhiteSpace c = true) after
    /\ (forall c, head (trim s) = Some c -> isWhiteSpace c = false)
    /\ (forall c, last (trim s) = Some c -> isWhiteSpace c = false).
Proof.
  destruct (trimStart_suffix s) as (before & Heq1 & Hbefore & Hhead).
  destruct (trimEnd_prefix (trimStart s)) as (after & Heq2 & Hafter & Hlast).
  exists before, after. unfold trim.
  split; [rewrite <- Heq2; exact Heq1|]. split; [assumption|]. split; [assumption|].
  split; [|assumption].
  intros c Hc. apply Hhead.
  destruct (trimEnd (trimStart s)) as [|c' rest]; [discriminate|].
  rewrite Heq2. exact Hc.
Qed.

(** X2. The value field of a record.  [getValue] throws the length error
    exactly on the entries that are not 80 characters long.  On the others
    the value it returns holds no slash, neither starts nor ends with
    white space, and stands in the entry from column 10 on, after white
    space only and before white space that runs to the first slash of the
    field or to the end of the entry: a slash inside a quoted string cuts
    the value as well. *)
Theorem getValue_field (entry : jsstring) :
  match MetaDataParser.getValue entry with
  | Normal value =>
      length entry = 80%nat
      /\ (47%N ∉ value)
      /\ (forall c, head value = Some c -> isWhiteSpace c = false)
      /\ (forall c, last value = Some c -> isWhiteSpace c = false)
      /\ exists before after rest,
           substringFrom entry 9 = before ++ value ++ after ++ rest
           /\ Forall (fun c => isWhiteSpace c = true) before
           /\ Forall (fun c => isWhiteSpace c = true) after
           /\ (rest = [] \/ head rest = Some 47%N)
  | Throw e => length entry <> 80%nat /\ e = EntryLengthError entry
  | Diverge => False
  end.
Proof.
  unfold MetaDataParser.getValue, MetaDataParser.checkEntry.
  destruct (Nat.eqb_spec (length entry) 80) as [Hlen | Hlen]; cbn; [|split; [assumption|reflexivity]].
  destruct (split_first_prefix (substringFrom entry 9) 47) as (Hnot & rest & Heq & Hrest).
  destruct (trim_middle (split_first (substringFrom entry 9) 47))
    as (before & after & Hmid & Hbefore & Hafter & Hhead & Hlast).
  split; [assumption|]. split.
  - intros Hin. apply Hnot. rewrite Hmid.
    apply elem_of_app. right. apply elem_of_app. left. exact Hin.
  - split; [assumption|]. split; [assumption|].
    exists before, after, rest. split; [|auto].
    rewrite Heq at 1. rewrite Hmid at 1. rewrite <- !app_assoc. reflexivity.
Qed.

(** ** The keyword of a record *)

(** X3. The keyword field of a record.  [getKey] throws the length error
    exactly on the entries that are not 80 characters long.  On the others
    it returns undefined exactly when the entry starts with a space, and
    otherwise the first eight characters without the white space around
    them: at most eight characters, which may be none when the field is
    white space that does not start with a space. *)
Theorem getKey_field (entry : jsstring) :
  match MetaDataParser.getKey entry with
  | Normal None => length entry = 80%nat /\ head entry = Some 32%N
  | Normal (Some key) =>
      length entry = 80%nat
      /\ head entry <> Some 32%N
      /\ (length key <= 8)%nat
      /\ (forall c, head key = Some c -> isWhiteSpace c = false)
      /\ (forall c, last key = Some c -> isWhiteSpace c = false)
      /\ exists before after,
           take 8 entry = before ++ key ++ after
           /\ Forall (fun c => isWhiteSpace c = true) before
           /\ Forall (fun c => isWhiteSpace c = true) after
  | Throw e => length entry <> 80%nat /\ e = EntryLengthError entry
  | Diverge => False
  end.
Proof.
  destruct (Nat.eq_dec (length entry) 80%nat) as [Hlen | Hlen].
  - rewrite (getKey_good_length entry Hlen).
    unfold MetaDataParser.isValidKeyword, substring, charAt0_is_space.
    rewrite Nat.sub_0_r, drop_0.
    assert (Height : length (take 8 entry) = 8%nat) by (rewrite length_take; lia).
    rewrite Height, Nat.eqb_refl, andb_true_r.
    destruct entry as [|c entry]; [discriminate Hlen|].
    cbn [take head]. destruct (N.eqb_spec c 32) as [-> | Hc]; cbn [negb].
    + split; [exact Hlen|reflexivity].
    + destruct (trim_middle (c :: take 7 entry))
        as (before & after & Hmid & Hbefore & Hafter & Hhead & Hlast).
      split; [exact Hlen|]. split; [congruence|]. split.
      * apply (f_equal length) in Hmid. rewrite !length_app in Hmid.
        cbn [take length] in Height. cbn [length] in Hmid. lia.
      * split; [exact Hhead|]. split; [exact Hlast|].
        exists before, after. split; [exact Hmid|]. split; assumption.
  - rewrite (getKey_bad_length entry Hlen). split; [exact Hlen|reflexivity].
Qed.

(** ** What the scan stores *)

Lemma scanEntry_store (entry : jsstring) (found : bool) (metadata : list jsstring)
    (this : FitsStructure.t) :
  length entry = 80%nat ->
  FitsStructure.scanEntry entry (found, metadata) this
  = (Normal (found || isTerminator entry, metadata ++ [entry]), store this entry).
Proof.
  intros Hlen. unfold FitsStructure.scanEntry, store, keyOf. unfold_M.
  rewrite (getKey_good_length entry Hlen).
  replace (if negb found then startsWith entry (str "END") else found)
    with (found || isTerminator entry) by (destruct found; reflexivity).
  destruct (MetaDataParser.isValidKeyword (substring entry 0 8)); [|reflexivity].
  destruct (trim (substring entry 0 8)) as [|c key]; [reflexivity|].
  destruct (MetaDataParser.isCommentaryKeyword (c :: key)).
  - destruct (FitsStructure.commentaryHeaders this !! (c :: key)) as [fragments|] eqn:Hget.
    + rewrite Hget. reflexivity.
    + cbn [FitsStructure.set_commentary FitsStructure.commentaryHeaders].
      rewrite lookup_insert_eq. unfold FitsStructure.set_commentary. cbn.
      rewrite insert_insert_eq. reflexivity.
  - rewrite (getValue_good_length entry Hlen). reflexivity.
Qed.

Lemma store_view (this : FitsStructure.t) (entry : jsstring) :
  FitsStructure.rawData (store this entry) = FitsStructure.rawData this
  /\ FitsStructure.rawHeaders (store this entry) = FitsStructure.rawHeaders this.
Proof.
  unfold store. destruct (keyOf entry) as [key|]; [|split; reflexivity].
  destruct (MetaDataParser.isCommentaryKeyword key); split; reflexivity.
Qed.

Lemma foldl_store_view (entries : list jsstring) :
  forall this,
    FitsStructure.rawData (foldl store this entries) = FitsStructure.rawData this
    /\ FitsStructure.rawHeaders (foldl store this entries) = FitsStructure.rawHeaders this.
Proof.
  induction entries as [|entry entries IH]; intros this; [split; reflexivity|].
  cbn [foldl]. destruct (IH (store this entry)) as [-> ->]. apply store_view.
Qed.

Lemma forEach_store (entries : list jsstring) :
  forall (found : bool) (metadata : list jsstring) (this : FitsStructure.t),
    Forall (fun entry => length entry = 80%nat) entries ->
    forEach FitsStructure.scanEntry entries (found, metadata) this
    = (Normal (found || existsb isTerminator entries, metadata ++ entries),
       foldl store this entries).
Proof.
  induction entries as [|entry entries IH]; intros found metadata this Hall.
  - cbn. rewrite orb_false_r, app_nil_r. reflexivity.
  - apply Forall_cons in Hall. destruct Hall as [Hlen Hall].
    cbn [forEach foldl]. unfold mbind, M_bind, bind.
    rewrite (scanEntry_store entry found metadata this Hlen).
    rewrite (IH _ _ _ Hall). cbn [existsb].
    rewrite orb_assoc, <- app_assoc. reflexivity.
Qed.

(** A block whose scan completes normally held 36 full records. *)
Lemma forEach_Normal (entries : list jsstring) (found found' : bool)
    (metadata metadata' : list jsstring) (this this' : FitsStructure.t) :
  forEach FitsStructure.scanEntry entries (found, metadata) this
  = (Normal (found', metadata'), this') ->
  Forall (fun entry => length entry = 80%nat) entries.
Proof.
  intros Hrun.
  destruct (forEach_scanEntry entries found metadata this)
    as (this1 & _ & [[Hall _] | (good & bad & rest & _ & _ & _ & Hthrow)]);
    [assumption | congruence].
Qed.

Lemma scan_loop_content (data : Buffer) :
  forall (fuel m : nat) (metadata metadata' : list jsstring) (this this' : FitsStructure.t),
    FitsStructure.rawData this = data ->
    FitsStructure.getRawHeaders_loop fuel (Z.of_nat (S m)) false metadata this
    = (Normal metadata', this') ->
    exists b : nat,
      metadata' = metadata ++ map (recordAt data) (seq (36 * m) (36 * S b))
      /\ Forall (fun entry => length entry = 80%nat)
           (map (recordAt data) (seq (36 * m) (36 * S b)))
      /\ this' = foldl store this (map (recordAt data) (seq (36 * m) (36 * S b)))
      /\ existsb isTerminator (map (recordAt data) (seq (36 * m) (36 * b))) = false
      /\ existsb isTerminator (map (recordAt data) (seq (36 * (m + b)) 36)) = true.
Proof.
  induction fuel as [|fuel IH]; intros m metadata metadata' this this' Hdata Hrun.
  - cbn in Hrun. unfold diverge in Hrun. congruence.
  - rewrite getRawHeaders_loop_step, Hdata in Hrun.
    remember (map (recordAt data) (seq (36 * m) 36)) as entries eqn:Hentries.
    destruct (forEach FitsStructure.scanEntry entries (false, metadata) this)
      as [[[found1 metadata1]|e|] this1] eqn:Hblock; [|congruence|congruence].
    pose proof (forEach_Normal _ _ _ _ _ _ _ Hblock) as Hall.
    rewrite (forEach_store _ false metadata this Hall) in Hblock.
    injection Hblock as Hfound Hmd Hthis.
    destruct found1.
    + rewrite getRawHeaders_loop_found in Hrun. injection Hrun as <- <-.
      exists 0%nat. rewrite Nat.mul_1_r, Nat.mul_0_r, Nat.add_0_r, <- Hentries.
      repeat split; [congruence|assumption|congruence|assumption].
    + assert (Hdata1 : FitsStructure.rawData this1 = data).
      { rewrite <- Hthis. rewrite (proj1 (foldl_store_view _ _)). exact Hdata. }
      destruct (IH (S m) metadata1 metadata' this1 this' Hdata1 Hrun)
        as (b & Hmd' & Hall' & Hthis' & Hnone & Hsome).
      exists (S b).
      replace (36 * S (S b))%nat with (36 + 36 * S b)%nat by lia.
      replace (36 * S b)%nat with (36 + 36 * b)%nat at 4 by lia.
      rewrite !seq_app, !map_app, <- Hentries.
      replace (36 * m + 36)%nat with (36 * S m)%nat by lia.
      split; [|split; [|split; [|split]]].
      * rewrite Hmd', <- Hmd, <- app_assoc. reflexivity.
      * apply Forall_app. split; assumption.
      * rewrite foldl_app, Hthis. exact Hthis'.
      * rewrite existsb_app, Hfound, Hnone. reflexivity.
      * replace (m + S b)%nat with (S m + b)%nat by lia. exact Hsome.
Qed.

(** The scan of a new unit, when it completes: the records read are those
    of a whole number of blocks, all of 80 characters, and the maps hold
    what [store] makes of them, one after the other. *)
Lemma scan_content (data : Buffer) (raw : list jsstring) (this : FitsStructure.t) :
  FitsStructure.getRawHeaders (FitsStructure.new data) = (Normal raw, this) ->
  exists b : nat,
    raw = map (recordAt data) (seq 0 (36 * S b))
    /\ Forall (fun entry => length entry = 80%nat) raw
    /\ this = FitsStructure.set_rawHeaders raw (foldl store (FitsStructure.new data) raw)
    /\ existsb isTerminator (map (recordAt data) (seq 0 (36 * b))) = false
    /\ existsb isTerminator (map (recordAt data) (seq (36 * b) 36)) = true.
Proof.
  intros Hrun. rewrite getRawHeaders_uncached in Hrun by reflexivity.
  cbn [FitsStructure.rawData FitsStructure.new] in Hrun.
  destruct (FitsStructure.getRawHeaders_loop _ 1 false [] (FitsStructure.new data))
    as [[metadata| |] this1] eqn:Hloop; [|congruence|congruence].
  injection Hrun as <- <-.
  destruct (scan_loop_content data _ 0 [] metadata (FitsStructure.new data) this1
              eq_refl Hloop) as (b & Hmd & Hall & Hthis & Hnone & Hsome).
  cbn [app] in Hmd. replace (36 * 0)%nat with 0%nat in * by lia.
  exists b. rewrite Hmd. repeat split; [assumption| |assumption..].
  rewrite Hthis. reflexivity.
Qed.

(** ** The records a scan returns *)

Lemma existsb_records (data : Buffer) (start len : nat) :
  existsb isTerminator (map (recordAt data) (seq start len)) = true ->
  exists j, (start <= j < start + len)%nat /\ isTerminator (recordAt data j) = true.
Proof.
  intros Hsome. apply existsb_exists in Hsome. destruct Hsome as (entry & Hin & Hend).
  apply in_map_iff in Hin. destruct Hin as (j & <- & Hj). apply in_seq in Hj.
  exists j. split; assumption.
Qed.

Lemma existsb_no_records (data : Buffer) (start len j : nat) :
  existsb isTerminator (map (recordAt data) (seq start len)) = false ->
  (start <= j < start + len)%nat -> isTerminator (recordAt data j) = false.
Proof.
  intros Hnone Hj. destruct (isTerminator (recordAt data j)) eqn:Hend; [|reflexivity].
  rewrite (existsb_records_true data start len j Hj Hend) in Hnone. discriminate.
Qed.

(** X4. A scan that succeeds has read whole blocks, and these are all
    there: the records returned are the 36 (b + 1) records of the first
    b + 1 blocks, each of 80 characters, the view holds at least
    2880 (b + 1) bytes, the first record that starts with END lies in the
    last block read, and [getNumHeaderBlocks] is b + 1. *)
Theorem getRawHeaders_whole_blocks (data : Buffer) (raw : list jsstring)
    (this : FitsStructure.t) :
  FitsStructure.getRawHeaders (FitsStructure.new data) = (Normal raw, this) ->
  exists b : nat,
    raw = map (recordAt data) (seq 0 (36 * S b))
    /\ Forall (fun entry => length entry = 80%nat) raw
    /\ (2880 * S b <= length data)%nat
    /\ (exists j, (36 * b <= j < 36 * S b)%nat /\ isTerminator (recordAt data j) = true)
    /\ (forall j, (j < 36 * b)%nat -> isTerminator (recordAt data j) = false)
    /\ fst (FitsStructure.getNumHeaderBlocks (FitsStructure.new data))
       = Normal (Int (Z.of_nat (S b))).
Proof.
  intros Hscan.
  destruct (scan_content data raw this Hscan) as (b & Hraw & Hall & _ & Hnone & Hsome).
  exists b. split; [exact Hraw|]. split; [exact Hall|]. split; [|split; [|split]].
  - assert (Hlast : length (recordAt data (36 * b + 35)) = 80%nat).
    { rewrite Hraw in Hall. rewrite Forall_forall in Hall. apply Hall.
      apply list_elem_of_In, in_map, in_seq. lia. }
    apply recordAt_full in Hlast. lia.
  - destruct (existsb_records data _ _ Hsome) as (j & Hj & Hend).
    exists j. split; [lia|exact Hend].
  - intros j Hj. apply (existsb_no_records data 0 (36 * b) j Hnone). lia.
  - unfold FitsStructure.getNumHeaderBlocks, mbind, M_bind, bind. rewrite Hscan.
    unfold_M. cbn [fst]. rewrite Hraw, length_map, length_seq.
    unfold FitsStructure.numBlocks, num_mul, Math_ceil_div, FitsStructure.RECORD_SIZE,
      FitsStructure.BLOCK_SIZE.
    do 2 f_equal.
    replace (- (Z.of_nat (36 * S b) * 80)) with ((- Z.of_nat (S b)) * 2880) by lia.
    rewrite Z.div_mul by lia. lia.
Qed.

Lemma getRawHeaders_whole_blocks_witness :
  let data := primary_header in
  let raw := map (recordAt data) (seq 0 36) in
  let this := snd (FitsStructure.getRawHeaders (FitsStructure.new data)) in
  FitsStructure.getRawHeaders (FitsStructure.new data) = (Normal raw, this)
  /\ exists b : nat,
       raw = map (recordAt data) (seq 0 (36 * S b))
       /\ (2880 * S b <= length data)%nat
       /\ fst (FitsStructure.getNumHeaderBlocks (FitsStructure.new data))
          = Normal (Int (Z.of_nat (S b))).
Proof.
  cbv zeta.
  assert (Hscan : FitsStructure.getRawHeaders (FitsStructure.new primary_header)
                  = (Normal (map (recordAt primary_header) (seq 0 36)),
                     snd (FitsStructure.getRawHeaders (FitsStructure.new primary_header))))
    by (vm_compute; reflexivity).
  split; [exact Hscan|].
  destruct (getRawHeaders_whole_blocks _ _ _ Hscan) as (b & Hraw & _ & Hlen & _ & _ & Hblocks).
  exists b. split; [exact Hraw|]. split; [exact Hlen|exact Hblocks].
Defined.


(** ** Headers of ASCII bytes *)

Lemma utf8_run_ascii (bytes : list byte) :
  Forall (fun b => isAscii b = true) bytes ->
  utf8_run Idle bytes = map Byte.to_N bytes.
Proof.
  induction 1 as [|b bytes Hb _ IH]; [reflexivity|].
  cbn [utf8_run utf8_step map]. unfold utf8_lead.
  unfold isAscii in Hb. apply N.ltb_lt in Hb.
  destruct (N.leb_spec (Byte.to_N b) 127) as [_ | Hgt]; [|lia].
  cbn [app]. rewrite IH. reflexivity.
Qed.

Lemma recordAt_ascii (data : Buffer) (j : nat) :
  (80 * j + 80 <= length data)%nat ->
  Forall (fun b => isAscii b = true) (recordBytes data j) ->
  recordAt data j = map Byte.to_N (recordBytes data j)
  /\ length (recordAt data j) = 80%nat.
Proof.
  intros Hlen Hascii.
  assert (Heq : recordAt data j = map Byte.to_N (recordBytes data j)).
  { rewrite recordAt_bytes. unfold toString. apply utf8_run_ascii. exact Hascii. }
  split; [exact Heq|].
  rewrite Heq, length_map. unfold recordBytes. rewrite length_take, length_drop. lia.
Qed.

Lemma recordBytes_ascii (data : Buffer) (count j : nat) :
  Forall (fun b => isAscii b = true) (take (80 * count) data) ->
  (j < count)%nat ->
  Forall (fun b => isAscii b = true) (recordBytes data j).
Proof.
  intros Hall Hj. unfold recordBytes.
  replace (take 80 (drop (80 * j) data))
    with (take 80 (drop (80 * j) (take (80 * count) data))).
  - apply Forall_take, Forall_drop. exact Hall.
  - rewrite skipn_firstn_comm, take_take. f_equal. lia.
Qed.

(** X5. A header of ASCII bytes with END in it is read.  When the first
    b + 1 blocks of a view are all there and hold ASCII bytes only, a
    record of block b + 1 starts with the bytes of END and no record
    before that block does, the scan of a new unit on the view succeeds:
    it returns the 36 (b + 1) records, each the 80 characters of its 80
    bytes, and the header has b + 1 blocks. *)
Theorem getRawHeaders_ascii (data : Buffer) (b : nat) :
  (2880 * S b <= length data)%nat ->
  Forall (fun x => isAscii x = true) (take (2880 * S b) data) ->
  (exists j, (36 * b <= j < 36 * S b)%nat /\ startsWithEND (recordBytes data j) = true) ->
  (forall j, (j < 36 * b)%nat -> startsWithEND (recordBytes data j) = false) ->
  exists this,
    FitsStructure.getRawHeaders (FitsStructure.new data)
    = (Normal (map (fun j => map Byte.to_N (recordBytes data j)) (seq 0 (36 * S b))), this)
    /\ fst (FitsStructure.getNumHeaderBlocks (FitsStructure.new data))
       = Normal (Int (Z.of_nat (S b))).
Proof.
  intros Hlen Hascii (jend & Hjend & Hend) Hnone.
  assert (Hrecord : forall j, (j < 36 * S b)%nat ->
                      recordAt data j = map Byte.to_N (recordBytes data j)
                      /\ length (recordAt data j) = 80%nat).
  { intros j Hj. apply recordAt_ascii; [lia|].
    apply (recordBytes_ascii data (36 * S b) j); [|exact Hj].
    replace (80 * (36 * S b))%nat with (2880 * S b)%nat by lia. exact Hascii. }
  assert (Hfuel : (b < S (length data / 2880))%nat).
  { assert (S b <= length data / 2880)%nat; [|lia].
    apply Nat.div_le_lower_bound; lia. }
  destruct (scan_loop_finds data b 0 (S (length data / 2880)) [] (FitsStructure.new data)
              eq_refl) as (this & Hloop & _).
  - intros j Hj. apply Hrecord. lia.
  - intros j Hj. unfold isTerminator. rewrite (proj1 (Hrecord j ltac:(lia))).
    apply Hnone. lia.
  - exists jend. split; [lia|]. unfold isTerminator.
    rewrite (proj1 (Hrecord jend ltac:(lia))). exact Hend.
  - exact Hfuel.
  - assert (Hraw : map (recordAt data) (seq 0 (36 * S b))
                   = map (fun j => map Byte.to_N (recordBytes data j)) (seq 0 (36 * S b))).
    { apply map_ext_in. intros j Hj. apply in_seq in Hj. apply Hrecord. lia. }
    assert (Hscan : FitsStructure.getRawHeaders (FitsStructure.new data)
                    = (Normal (map (recordAt data) (seq 0 (36 * S b))),
                       FitsStructure.set_rawHeaders (map (recordAt data) (seq 0 (36 * S b)))
                         this)).
    { rewrite getRawHeaders_uncached by reflexivity.
      cbn [FitsStructure.rawData FitsStructure.new].
      change (Z.of_nat 1) with 1 in Hloop. rewrite Hloop.
      replace (36 * 0)%nat with 0%nat by lia. replace (b + 1)%nat with (S b) by lia.
      reflexivity. }
    eexists. split; [rewrite Hscan, Hraw; reflexivity|].
    unfold FitsStructure.getNumHeaderBlocks, mbind, M_bind, bind. rewrite Hscan.
    unfold_M. cbn [fst]. rewrite length_map, length_seq.
    unfold FitsStructure.numBlocks, num_mul, Math_ceil_div, FitsStructure.RECORD_SIZE,
      FitsStructure.BLOCK_SIZE.
    do 2 f_equal.
    replace (- (Z.of_nat (36 * S b) * 80)) with ((- Z.of_nat (S b)) * 2880) by lia.
    rewrite Z.div_mul by lia. lia.
Qed.

Lemma getRawHeaders_ascii_witness :
  (2880 * 1 <= length primary_header)%nat
  /\ Forall (fun x => isAscii x = true) (take (2880 * 1) primary_header)
  /\ (exists j, (36 * 0 <= j < 36 * 1)%nat
                /\ startsWithEND (recordBytes primary_header j) = true)
  /\ (forall j, (j < 36 * 0)%nat -> startsWithEND (recordBytes primary_header j) = false)
  /\ exists this,
       FitsStructure.getRawHeaders (FitsStructure.new primary_header)
       = (Normal (map (fun j => map Byte.to_N (recordBytes primary_header j))
                    (seq 0 (36 * 1))), this)
       /\ fst (FitsStructure.getNumHeaderBlocks (FitsStructure.new primary_header))
          = Normal (Int (Z.of_nat 1)).
Proof.
  assert (Hlen : (2880 * 1 <= length primary_header)%nat) by (vm_compute; lia).
  assert (Hascii : Forall (fun x => isAscii x = true) (take (2880 * 1) primary_header)).
  { apply Forall_forall. intros x Hx. apply list_elem_of_In in Hx. revert x Hx.
    apply forallb_forall. vm_compute. reflexivity. }
  assert (Hend : exists j, (36 * 0 <= j < 36 * 1)%nat
                           /\ startsWithEND (recordBytes primary_header j) = true).
  { exists 3%nat. split; [lia|]. vm_compute. reflexivity. }
  assert (Hnone : forall j, (j < 36 * 0)%nat ->
                            startsWithEND (recordBytes primary_header j) = false)
    by (intros j Hj; lia).
  split; [exact Hlen|]. split; [exact Hascii|]. split; [exact Hend|]. split; [exact Hnone|].
  exact (getRawHeaders_ascii primary_header 0 Hlen Hascii Hend Hnone).
Defined.


Lemma headers_store (this : FitsStructure.t) (entry key : jsstring) :
  FitsStructure.headers (store this entry) !! key
  = if bool_decide (keyOf entry = Some key) && negb (MetaDataParser.isCommentaryKeyword key)
    then Some (valueOf entry)
    else FitsStructure.headers this !! key.
Proof.
  unfold store. destruct (keyOf entry) as [k|]; [|reflexivity].
  destruct (decide (k = key)) as [->|Hne].
  - rewrite bool_decide_eq_true_2 by reflexivity.
    destruct (MetaDataParser.isCommentaryKeyword key); [reflexivity|].
    cbn. apply lookup_insert_eq.
  - rewrite bool_decide_eq_false_2 by congruence.
    destruct (MetaDataParser.isCommentaryKeyword k); [reflexivity|].
    cbn. apply lookup_insert_ne. exact Hne.
Qed.

Lemma commentary_store (this : FitsStructure.t) (entry key : jsstring) :
  FitsStructure.commentaryHeaders (store this entry) !! key
  = if bool_decide (keyOf entry = Some key) && MetaDataParser.isCommentaryKeyword key
    then Some (default [] (FitsStructure.commentaryHeaders this !! key)
               ++ [substringFrom entry 8])
    else FitsStructure.commentaryHeaders this !! key.
Proof.
  unfold store. destruct (keyOf entry) as [k|]; [|reflexivity].
  destruct (decide (k = key)) as [->|Hne].
  - rewrite bool_decide_eq_true_2 by reflexivity.
    destruct (MetaDataParser.isCommentaryKeyword key); [|reflexivity].
    cbn. apply lookup_insert_eq.
  - rewrite bool_decide_eq_false_2 by congruence.
    destruct (MetaDataParser.isCommentaryKeyword k); [|reflexivity].
    cbn. apply lookup_insert_ne. exact Hne.
Qed.

Lemma recordsOf_cons (key entry : jsstring) (raw : list jsstring) :
  recordsOf key (entry :: raw)
  = if bool_decide (keyOf entry = Some key)
    then entry :: recordsOf key raw else recordsOf key raw.
Proof.
  unfold recordsOf. rewrite filter_cons.
  destruct (decide (keyOf entry = Some key)) as [Heq|Hne].
  - rewrite bool_decide_eq_true_2 by assumption. reflexivity.
  - rewrite bool_decide_eq_false_2 by assumption. reflexivity.
Qed.

Lemma headers_foldl (key : jsstring) (raw : list jsstring) :
  forall this,
    FitsStructure.headers (foldl store this raw) !! key
    = if MetaDataParser.isCommentaryKeyword key
      then FitsStructure.headers this !! key
      else match last (recordsOf key raw) with
           | Some entry => Some (valueOf entry)
           | None => FitsStructure.headers this !! key
           end.
Proof.
  induction raw as [|entry raw IH]; intros this.
  - cbn. destruct (MetaDataParser.isCommentaryKeyword key); reflexivity.
  - cbn [foldl]. rewrite IH, headers_store, recordsOf_cons.
    destruct (MetaDataParser.isCommentaryKeyword key); [rewrite andb_false_r; reflexivity|].
    rewrite andb_true_r.
    destruct (bool_decide (keyOf entry = Some key)); [|reflexivity].
    destruct (recordsOf key raw) as [|e es] eqn:Hrest; [reflexivity|].
    change (last (entry :: e :: es)) with (last (e :: es)).
    destruct (last (e :: es)) eqn:Hlast; [reflexivity|].
    apply last_None in Hlast. discriminate.
Qed.

Lemma commentary_foldl (key : jsstring) (raw : list jsstring) :
  forall this,
    FitsStructure.commentaryHeaders (foldl store this raw) !! key
    = if MetaDataParser.isCommentaryKeyword key
      then match recordsOf key raw with
           | [] => FitsStructure.commentaryHeaders this !! key
           | entries =>
               Some (default [] (FitsStructure.commentaryHeaders this !! key)
                     ++ map (fun entry => substringFrom entry 8) entries)
           end
      else FitsStructure.commentaryHeaders this !! key.
Proof.
  induction raw as [|entry raw IH]; intros this.
  - cbn. destruct (MetaDataParser.isCommentaryKeyword key); reflexivity.
  - cbn [foldl]. rewrite IH, commentary_store, recordsOf_cons.
    destruct (MetaDataParser.isCommentaryKeyword key); [|rewrite andb_false_r; reflexivity].
    rewrite andb_true_r.
    destruct (bool_decide (keyOf entry = Some key)); [|reflexivity].
    destruct (recordsOf key raw) as [|e es]; [reflexivity|].
    cbn [default map]. unfold id. rewrite <- app_assoc. reflexivity.
Qed.

(** X6. After a successful scan of a new unit the keyword map holds, for
    a keyword that is not a commentary keyword, the value field of the
    last record that carries it (the records behind END in the last block
    count as well), and nothing for a keyword that no record carries or
    that is a commentary keyword; [getMetadataValue] returns that value
    when it is not empty and throws the missing-key error otherwise. *)
Theorem getMetadataValue_last_record (data : Buffer) (raw : list jsstring)
    (this : FitsStructure.t) (key : jsstring) :
  FitsStructure.getRawHeaders (FitsStructure.new data) = (Normal raw, this) ->
  FitsStructure.headers this !! key = declared key raw
  /\ FitsStructure.getMetadataValue key (FitsStructure.new data)
     = (match declared key raw with
        | Some ((_ :: _) as value) => Normal value
        | _ => Throw (KeyNotFoundError key)
        end, this).
Proof.
  intros Hscan.
  destruct (scan_content data raw this Hscan) as (b & _ & _ & Hthis & _).
  assert (Hmap : FitsStructure.headers this !! key = declared key raw).
  { rewrite Hthis. unfold FitsStructure.set_rawHeaders. cbn [FitsStructure.headers].
    rewrite headers_foldl. unfold declared. cbn [FitsStructure.headers FitsStructure.new].
    rewrite lookup_empty.
    destruct (MetaDataParser.isCommentaryKeyword key); [reflexivity|].
    destruct (last (recordsOf key raw)); reflexivity. }
  split; [exact Hmap|].
  rewrite (getMetadataValue_of_map (FitsStructure.new data) this (FitsStructure.headers this)).
  - rewrite Hmap. destruct (declared key raw) as [[|c v]|]; reflexivity.
  - rewrite getHeaderMap_new, Hscan. reflexivity.
Qed.

Lemma getMetadataValue_last_record_witness :
  let data := repeated_keyword_file in
  let raw := map (recordAt data) (seq 0 36) in
  let this := snd (FitsStructure.getRawHeaders (FitsStructure.new data)) in
  FitsStructure.getRawHeaders (FitsStructure.new data) = (Normal raw, this)
  /\ declared (str "OBSERVER") raw = Some (str "'second'")
  /\ FitsStructure.getMetadataValue (str "OBSERVER") (FitsStructure.new data)
     = (Normal (str "'second'"), this)
  /\ declared (str "ORIGIN") raw = Some (str "'after the end'")
  /\ FitsStructure.getMetadataValue (str "ORIGIN") (FitsStructure.new data)
     = (Normal (str "'after the end'"), this).
Proof.
  cbv zeta.
  assert (Hscan : FitsStructure.getRawHeaders (FitsStructure.new repeated_keyword_file)
                  = (Normal (map (recordAt repeated_keyword_file) (seq 0 36)),
                     snd (FitsStructure.getRawHeaders (FitsStructure.new repeated_keyword_file))))
    by (vm_compute; reflexivity).
  assert (Hobserver : declared (str "OBSERVER") (map (recordAt repeated_keyword_file) (seq 0 36))
                      = Some (str "'second'"))
    by (vm_compute; reflexivity).
  assert (Horigin : declared (str "ORIGIN") (map (recordAt repeated_keyword_file) (seq 0 36))
                    = Some (str "'after the end'"))
    by (vm_compute; reflexivity).
  split; [exact Hscan|]. split; [exact Hobserver|]. split; [|split; [exact Horigin|]].
  - pose proof (proj2 (getMetadataValue_last_record _ _ _ (str "OBSERVER") Hscan)) as Hget.
    rewrite Hobserver in Hget. exact Hget.
  - pose proof (proj2 (getMetadataValue_last_record _ _ _ (str "ORIGIN") Hscan)) as Hget.
    rewrite Horigin in Hget. exact Hget.
Defined.

(** X7. After a successful scan of a new unit the commentary map holds,
    for COMMENT, HISTORY and CONTINUE, the text from column 9 on of every
    record with that keyword, in the order of the file and repeats
    included, and no entry for a keyword without records or for any other
    keyword. *)
Theorem commentary_in_file_order (data : Buffer) (raw : list jsstring)
    (this : FitsStructure.t) (key : jsstring) :
  FitsStructure.getRawHeaders (FitsStructure.new data) = (Normal raw, this) ->
  FitsStructure.commentaryHeaders this !! key
  = if MetaDataParser.isCommentaryKeyword key
    then match recordsOf key raw with
         | [] => None
         | entries => Some (map (fun entry => substringFrom entry 8) entries)
         end
    else None.
Proof.
  intros Hscan.
  destruct (scan_content data raw this Hscan) as (b & _ & _ & Hthis & _).
  rewrite Hthis. unfold FitsStructure.set_rawHeaders. cbn [FitsStructure.commentaryHeaders].
  rewrite commentary_foldl. cbn [FitsStructure.commentaryHeaders FitsStructure.new].
  rewrite lookup_empty. reflexivity.
Qed.

Lemma commentary_in_file_order_witness :
  let data := repeated_keyword_file in
  let raw := map (recordAt data) (seq 0 36) in
  let this := snd (FitsStructure.getRawHeaders (FitsStructure.new data)) in
  FitsStructure.getRawHeaders (FitsStructure.new data) = (Normal raw, this)
  /\ FitsStructure.commentaryHeaders this !! str "COMMENT"
     = Some (map (fun entry => substringFrom entry 8) (recordsOf (str "COMMENT") raw))
  /\ map (take 5) (map (fun entry => substringFrom entry 8) (recordsOf (str "COMMENT") raw))
     = [str " one "; str " two "].
Proof.
  cbv zeta.
  assert (Hscan : FitsStructure.getRawHeaders (FitsStructure.new repeated_keyword_file)
                  = (Normal (map (recordAt repeated_keyword_file) (seq 0 36)),
                     snd (FitsStructure.getRawHeaders (FitsStructure.new repeated_keyword_file))))
    by (vm_compute; reflexivity).
  split; [exact Hscan|]. split; [|vm_compute; reflexivity].
  rewrite (commentary_in_file_order _ _ _ (str "COMMENT") Hscan).
  vm_compute. reflexivity.
Defined.

(** ** A value that is stored *)


Lemma getMetadataValue_stored (this : FitsStructure.t) (key : jsstring) (c : N)
    (value : jsstring) :
  FitsStructure.headers this !! key = Some (c :: value) ->
  FitsStructure.getMetadataValue key this = (Normal (c :: value), this).
Proof.
  intros Hkey.
  rewrite (getMetadataValue_of_map this this (FitsStructure.headers this)).
  - rewrite Hkey. reflexivity.
  - unfold FitsStructure.getHeaderMap. unfold_M.
    rewrite bool_decide_eq_false_2; [reflexivity|].
    intros Hsize. apply map_size_empty_inv in Hsize. rewrite Hsize in Hkey.
    rewrite lookup_empty in Hkey. discriminate.
Qed.

Lemma getMetadataValue_Normal (this this' : FitsStructure.t) (key value : jsstring) :
  FitsStructure.getMetadataValue key this = (Normal value, this') ->
  exists c rest, value = c :: rest /\ FitsStructure.headers this' !! key = Some (c :: rest).
Proof.
  intros Hget.
  assert (Hmap : exists map, FitsStructure.getHeaderMap this = (Normal map, this')
                             /\ FitsStructure.headers this' = map).
  { unfold FitsStructure.getMetadataValue, mbind, M_bind, bind in Hget.
    destruct (FitsStructure.getHeaderMap this) as [[map| |] s] eqn:Hmap; try discriminate.
    assert (s = this') as ->.
    { destruct (map !! key) as [[|c rest]|]; unfold throw, mret, M_ret, ret in Hget;
        congruence. }
    exists map. split; [reflexivity|].
    unfold FitsStructure.getHeaderMap, mbind, mret, M_bind, M_ret, bind, ret, gets in Hmap.
    destruct (bool_decide _) in Hmap.
    - destruct (FitsStructure.getRawHeaders this) as [[raw| |] s]; congruence.
    - congruence. }
  destruct Hmap as (map & Hmap & <-).
  rewrite (getMetadataValue_of_map this this' _ key Hmap) in Hget.
  destruct (FitsStructure.headers this' !! key) as [[|c rest]|]; try discriminate.
  exists c, rest. split; [congruence|reflexivity].
Qed.


(** ** A scan that fails *)

Lemma forEach_view (entries : list jsstring) (locals : bool * list jsstring)
    (this : FitsStructure.t) :
  same_view this (snd (forEach FitsStructure.scanEntry entries locals this)).
Proof.
  destruct locals as [found metadata].
  destruct (forEach_scanEntry entries found metadata this)
    as (this' & Hsame & [[_ ->] | (good & bad & rest & _ & _ & _ & ->)]); exact Hsame.
Qed.

(** Whether a block scans, and what the locals become, is decided by its
    records alone. *)
Lemma forEach_result_same (entries : list jsstring) :
  forall (found : bool) (metadata : list jsstring) (this1 this2 : FitsStructure.t),
    fst (forEach FitsStructure.scanEntry entries (found, metadata) this1)
    = fst (forEach FitsStructure.scanEntry entries (found, metadata) this2).
Proof.
  induction entries as [|entry entries IH]; intros found metadata this1 this2; [reflexivity|].
  cbn [forEach]. unfold mbind, M_bind, bind.
  destruct (Nat.eq_dec (length entry) 80%nat) as [Hlen | Hlen].
  - rewrite !(scanEntry_store entry found metadata _ Hlen). apply IH.
  - rewrite !(scanEntry_bad_length entry (found, metadata) _ Hlen). reflexivity.
Qed.

Lemma scan_loop_result_same :
  forall (fuel m : nat) (metadata : list jsstring) (this1 this2 : FitsStructure.t),
    FitsStructure.rawData this1 = FitsStructure.rawData this2 ->
    fst (FitsStructure.getRawHeaders_loop fuel (Z.of_nat (S m)) false metadata this1)
    = fst (FitsStructure.getRawHeaders_loop fuel (Z.of_nat (S m)) false metadata this2).
Proof.
  induction fuel as [|fuel IH]; intros m metadata this1 this2 Hdata; [reflexivity|].
  rewrite !getRawHeaders_loop_step, Hdata.
  remember (map (recordAt (FitsStructure.rawData this2)) (seq (36 * m) 36)) as entries.
  pose proof (forEach_result_same entries false metadata this1 this2) as Hfst.
  pose proof (forEach_view entries (false, metadata) this1) as [Hview1 _].
  pose proof (forEach_view entries (false, metadata) this2) as [Hview2 _].
  destruct (forEach FitsStructure.scanEntry entries (false, metadata) this1)
    as [r1 next1].
  destruct (forEach FitsStructure.scanEntry entries (false, metadata) this2)
    as [r2 next2].
  cbn [fst snd] in Hfst, Hview1, Hview2. subst r2.
  destruct r1 as [[found' metadata']| |]; [|reflexivity|reflexivity].
  destruct found'; [rewrite !getRawHeaders_loop_found; reflexivity|].
  apply IH. congruence.
Qed.

(** X8. A scan that fails is not remembered.  The unit keeps its data and
    stays without cached records, so the next [getRawHeaders] runs the scan
    again and fails with the same error; but the keywords stored before
    the failure stay in the map, and [getMetadataValue] then returns their
    values without any error. *)
Theorem getRawHeaders_failure_not_cached (data : Buffer) (e : JsError)
    (this : FitsStructure.t) :
  FitsStructure.getRawHeaders (FitsStructure.new data) = (Throw e, this) ->
  FitsStructure.rawHeaders this = None
  /\ FitsStructure.rawData this = data
  /\ fst (FitsStructure.getRawHeaders this) = Throw e
  /\ forall (key : jsstring) (c : N) (value : jsstring),
       FitsStructure.headers this !! key = Some (c :: value) ->
       FitsStructure.getMetadataValue key this = (Normal (c :: value), this).
Proof.
  intros Hscan.
  destruct (scan_total (FitsStructure.new data) eq_refl)
    as (this' & [Hdata Hraw] & [(metadata & j & Hrun & _) | (j & Hrun & _)]);
    [congruence|].
  assert (this' = this) as -> by congruence.
  cbn in Hdata, Hraw.
  split; [exact Hraw|]. split; [exact Hdata|]. split.
  - rewrite getRawHeaders_uncached by exact Hraw. rewrite Hdata.
    pose proof (scan_loop_result_same (S (length data / 2880)) 0 [] this
                  (FitsStructure.new data) Hdata) as Hsame.
    rewrite getRawHeaders_uncached in Hscan by reflexivity.
    cbn [FitsStructure.rawData FitsStructure.new] in Hscan.
    change (Z.of_nat 1) with 1 in Hsame.
    destruct (FitsStructure.getRawHeaders_loop _ 1 false [] (FitsStructure.new data))
      as [[metadata| |] s2]; [congruence| |congruence].
    destruct (FitsStructure.getRawHeaders_loop _ 1 false [] this) as [r1 s1].
    cbn [fst] in Hsame. subst r1. cbn. congruence.
  - intros key c value Hkey. exact (getMetadataValue_stored this key c value Hkey).
Qed.

Lemma getRawHeaders_failure_not_cached_witness :
  let data := unterminated_file in
  let this := snd (FitsStructure.getRawHeaders (FitsStructure.new data)) in
  FitsStructure.getRawHeaders (FitsStructure.new data) = (Throw (EntryLengthError []), this)
  /\ fst (FitsStructure.getRawHeaders this) = Throw (EntryLengthError [])
  /\ FitsStructure.headers this !! str "NAXIS" = Some (str "0")
  /\ FitsStructure.getMetadataValue (str "NAXIS") this = (Normal (str "0"), this)
  /\ fst (FitsStructure.numAxis (FitsStructure.new data)) = Throw NaxisMissingError
  /\ fst (FitsStructure.numAxis this) = Normal (Int 0).
Proof.
  cbv zeta.
  assert (Hscan : FitsStructure.getRawHeaders (FitsStructure.new unterminated_file)
                  = (Throw (EntryLengthError []),
                     snd (FitsStructure.getRawHeaders (FitsStructure.new unterminated_file))))
    by (vm_compute; reflexivity).
  assert (Hkey : FitsStructure.headers
                   (snd (FitsStructure.getRawHeaders (FitsStructure.new unterminated_file)))
                 !! str "NAXIS" = Some (str "0"))
    by (vm_compute; reflexivity).
  destruct (getRawHeaders_failure_not_cached _ _ _ Hscan) as (_ & _ & Hagain & Hstored).
  split; [exact Hscan|]. split; [exact Hagain|]. split; [exact Hkey|].
  split; [exact (Hstored (str "NAXIS") _ _ Hkey)|].
  split; vm_compute; reflexivity.
Defined.

(** ** The header is read once *)

(** X9. The header is read once.  After one successful [getRawHeaders],
    a second call returns the same records, and neither it nor any of the
    methods that read the header or the data changes the unit any more. *)
Theorem header_read_once (this this' : FitsStructure.t) (raw : list jsstring) :
  FitsStructure.getRawHeaders this = (Normal raw, this') ->
  FitsStructure.getRawHeaders this' = (Normal raw, this')
  /\ snd (FitsStructure.getHeaderMap this') = this'
  /\ (forall key, snd (FitsStructure.getMetadataValue key this') = this')
  /\ snd (FitsStructure.numAxis this') = this'
  /\ (forall index, snd (FitsStructure.sizeAxis index this') = this')
  /\ snd (FitsStructure.getDataSize this') = this'
  /\ snd (FitsStructure.getNumHeaderBlocks this') = this'
  /\ snd (FitsStructure.getNumDataBlocks this') = this'
  /\ snd (FitsStructure.getDataUnit this') = this'
  /\ snd (FitsStructure.getDataValues this') = this'.
Proof.
  intros Hscan.
  assert (Hraw : FitsStructure.rawHeaders this' = Some raw).
  { destruct (FitsStructure.rawHeaders this) as [cached|] eqn:Hcached.
    - rewrite (getRawHeaders_cached this cached Hcached) in Hscan. congruence.
    - rewrite getRawHeaders_uncached in Hscan by exact Hcached.
      destruct (FitsStructure.getRawHeaders_loop _ 1 false [] this) as [[metadata| |] s];
        [|congruence|congruence].
      injection Hscan as <- <-. reflexivity. }
  split; [apply getRawHeaders_cached; exact Hraw|].
  split; [exact (preserves_getHeaderMap this' raw Hraw)|].
  split; [intros key; exact (preserves_getMetadataValue key this' raw Hraw)|].
  split; [exact (preserves_numAxis this' raw Hraw)|].
  split; [intros index; exact (preserves_sizeAxis index this' raw Hraw)|].
  split; [exact (preserves_getDataSize this' raw Hraw)|].
  split; [exact (preserves_getNumHeaderBlocks this' raw Hraw)|].
  split; [exact (preserves_getNumDataBlocks this' raw Hraw)|].
  split; [exact (preserves_getDataUnit this' raw Hraw)|].
  exact (preserves_getDataValues this' raw Hraw).
Qed.

Lemma header_read_once_witness :
  let this := FitsStructure.new primary_header in
  let raw := map (recordAt primary_header) (seq 0 36) in
  let this' := snd (FitsStructure.getRawHeaders this) in
  FitsStructure.getRawHeaders this = (Normal raw, this')
  /\ FitsStructure.getRawHeaders this' = (Normal raw, this')
  /\ snd (FitsStructure.getDataValues this') = this'.
Proof.
  cbv zeta.
  assert (Hscan : FitsStructure.getRawHeaders (FitsStructure.new primary_header)
                  = (Normal (map (recordAt primary_header) (seq 0 36)),
                     snd (FitsStructure.getRawHeaders (FitsStructure.new primary_header))))
    by (vm_compute; reflexivity).
  pose proof (header_read_once _ _ _ Hscan) as Honce.
  split; [exact Hscan|]. split; [exact (proj1 Honce)|].
  exact (proj2 (proj2 (proj2 (proj2 (proj2 (proj2 (proj2 (proj2 (proj2 Honce))))))))).
Defined.

(** ** The number of axes *)

(** X10. [numAxis] returns an integer from 0 to 999, or throws the one
    error of its catch clause, whatever went wrong inside (a header that
    does not scan, a missing NAXIS, a value that is no number or out of
    range); it always completes. *)
Theorem numAxis_range (this : FitsStructure.t) :
  match fst (FitsStructure.numAxis this) with
  | Normal n => exists z, n = Int z /\ 0 <= z <= 999
  | Throw e => e = NaxisMissingError
  | Diverge => False
  end.
Proof.
  pose proof (total_getMetadataValue (str "NAXIS") this) as Htotal.
  unfold FitsStructure.numAxis. unfold_M.
  destruct (FitsStructure.getMetadataValue (str "NAXIS") this) as [[naxis|e|] this'];
    cbn [fst] in *; [|reflexivity|congruence].
  destruct (parseInt naxis) as [|z]; cbn [isNaN orb]; [reflexivity|].
  unfold num_gt, num_lt.
  destruct (Z.ltb_spec z 0); cbn [orb fst]; [reflexivity|].
  destruct (Z.ltb_spec 999 z); cbn [fst]; [reflexivity|].
  exists z. split; [reflexivity|lia].
Qed.

(** ** A unit without axes *)

Lemma numBlocks_Int (len : nat) :
  exists k, FitsStructure.numBlocks (num_mul (Int (Z.of_nat len)) (Int FitsStructure.RECORD_SIZE))
            = Int k.
Proof. eexists. reflexivity. Qed.

(** X11. A unit with NAXIS = 0 has no data, whatever else its header
    says: the data size and the number of data blocks are 0 and the data
    unit is empty without BITPIX being read, [sizeAxis] throws the
    axis-index error for every index, and the unit extends over its header
    blocks only. *)
Theorem no_axes_no_data (this : FitsStructure.t) :
  ready this ->
  fst (FitsStructure.numAxis this) = Normal (Int 0) ->
  fst (FitsStructure.getDataSize this) = Normal (Int 0)
  /\ fst (FitsStructure.getNumDataBlocks this) = Normal (Int 0)
  /\ fst (FitsStructure.getDataUnit this) = Normal []
  /\ (forall index,
        fst (FitsStructure.sizeAxis index this) = Throw (AxisIndexError index (Int 0)))
  /\ exists k,
       fst (FitsStructure.getNumHeaderBlocks this) = Normal (Int k)
       /\ fst (FitsStructure.getNumStructureBytes this) = Normal (Int (k * 2880)).
Proof.
  intros Hready Haxis.
  destruct (ready_settle this (Int 0) Hready Haxis) as (raw & this' & Hraw & _ & Hsame).
  rewrite (Hsame _ _ scans_first_numAxis) in Haxis.
  rewrite (Hsame _ _ scans_first_getDataSize), (Hsame _ _ scans_first_getNumDataBlocks),
    (Hsame _ _ scans_first_getDataUnit), (Hsame _ _ scans_first_getNumHeaderBlocks).
  apply (preserves_result _ this' raw _ preserves_numAxis Hraw) in Haxis.
  assert (HdataSize : FitsStructure.getDataSize this' = (Normal (Int 0), this')).
  { unfold FitsStructure.getDataSize, mbind, M_bind, bind. rewrite Haxis. reflexivity. }
  assert (Hblocks : FitsStructure.getNumDataBlocks this' = (Normal (Int 0), this')).
  { unfold FitsStructure.getNumDataBlocks, mbind, M_bind, bind. rewrite HdataSize.
    reflexivity. }
  split; [rewrite HdataSize; reflexivity|].
  split; [rewrite Hblocks; reflexivity|].
  split; [unfold FitsStructure.getDataUnit, mbind, M_bind, bind; rewrite Haxis; reflexivity|].
  split.
  - intros index.
    assert (Hfirst : scans_first (FitsStructure.sizeAxis index))
      by (apply scans_first_bind, scans_first_numAxis).
    rewrite (Hsame _ _ Hfirst).
    unfold FitsStructure.sizeAxis, mbind, M_bind, bind. rewrite Haxis. reflexivity.
  - destruct (numBlocks_Int (length raw)) as [k Hk]. exists k.
    assert (Hheader : FitsStructure.getNumHeaderBlocks this' = (Normal (Int k), this')).
    { unfold FitsStructure.getNumHeaderBlocks, mbind, M_bind, bind.
      rewrite (getRawHeaders_cached this' raw Hraw). unfold_M. rewrite Hk. reflexivity. }
    split; [rewrite Hheader; reflexivity|].
    assert (Hfirst : scans_first FitsStructure.getNumStructureBytes).
    { unfold FitsStructure.getNumStructureBytes, FitsStructure.getNumStructureBlocks.
      apply scans_first_bind, scans_first_bind, scans_first_getNumHeaderBlocks. }
    rewrite (Hsame _ _ Hfirst).
    unfold FitsStructure.getNumStructureBytes, FitsStructure.getNumStructureBlocks,
      mbind, M_bind, bind.
    rewrite Hheader, Hblocks. unfold_M. cbn. do 3 f_equal. lia.
Qed.

Lemma no_axes_no_data_witness :
  let this := FitsStructure.new primary_header in
  ready this
  /\ fst (FitsStructure.numAxis this) = Normal (Int 0)
  /\ fst (FitsStructure.getDataSize this) = Normal (Int 0)
  /\ fst (FitsStructure.getNumDataBlocks this) = Normal (Int 0)
  /\ fst (FitsStructure.getDataUnit this) = Normal []
  /\ (forall index,
        fst (FitsStructure.sizeAxis index this) = Throw (AxisIndexError index (Int 0))).
Proof.
  cbv zeta.
  assert (Haxis : fst (FitsStructure.numAxis (FitsStructure.new primary_header))
                  = Normal (Int 0))
    by (vm_compute; reflexivity).
  destruct (no_axes_no_data _ (ready_new primary_header) Haxis)
    as (Hsize & Hblocks & Hunit & Hindex & _).
  split; [apply ready_new|]. split; [exact Haxis|]. split; [exact Hsize|].
  split; [exact Hblocks|]. split; [exact Hunit|exact Hindex].
Defined.

(** ** The size of the data *)

Lemma getDataSize_loop_product (this : FitsStructure.t) (raw : list jsstring) :
  FitsStructure.rawHeaders this = Some raw ->
  forall (indices : list Z) (lengths : list Z) (prod : Z),
    Forall2 (fun index len => fst (FitsStructure.sizeAxis index this) = Normal (Int len))
      indices lengths ->
    FitsStructure.getDataSize_loop indices (Int prod) this
    = (Normal (Int (prod * foldr Z.mul 1 lengths)), this).
Proof.
  intros Hraw indices lengths prod Hall. revert prod.
  induction Hall as [|index len indices lengths Hlen _ IH]; intros prod.
  - cbn. unfold_M. do 3 f_equal. lia.
  - cbn [FitsStructure.getDataSize_loop foldr]. unfold mbind, M_bind, bind.
    rewrite (preserves_result _ this raw _ (preserves_sizeAxis index) Hraw Hlen).
    cbn [num_mul]. rewrite IH. do 3 f_equal. lia.
Qed.

(** X12. For a unit with n > 0 axes, [getDataSize] is the number of bytes
    of a sample (BITPIX / 8) times the product of the n axis lengths
    NAXIS1 .. NAXISn, and [getNumDataBlocks] is that size divided by 2880,
    rounded up, as long as every axis length and every product the loop
    passes through (the bytes of a sample times the first k lengths) is
    below 2^53 in magnitude: up to there the doubles the program
    multiplies hold these integers exactly. *)
Theorem getDataSize_product (this : FitsStructure.t) (n bits : Z) (lengths : list Z) :
  ready this ->
  fst (FitsStructure.numAxis this) = Normal (Int n) ->
  0 < n ->
  fst (FitsStructure.bitsPerPixel this) = Normal (Int bits) ->
  length lengths = Z.to_nat n ->
  (forall (i : nat) (len : Z),
      lengths !! i = Some len ->
      fst (FitsStructure.sizeAxis (Z.of_nat (S i)) this) = Normal (Int len)) ->
  Forall (fun len => Z.abs len < 2 ^ 53) lengths ->
  (forall k : nat, Z.abs (bits / 8 * foldr Z.mul 1 (take k lengths)) < 2 ^ 53) ->
  fst (FitsStructure.getDataSize this) = Normal (Int (bits / 8 * foldr Z.mul 1 lengths))
  /\ fst (FitsStructure.getNumDataBlocks this)
     = Normal (Int ((bits / 8 * foldr Z.mul 1 lengths + 2879) / 2880)).
Proof.
  intros Hready Haxis Hn Hbits Hlen Hlengths _ _.
  destruct (ready_settle this (Int n) Hready Haxis) as (raw & this' & Hraw & _ & Hsame).
  rewrite (Hsame _ _ scans_first_numAxis) in Haxis.
  rewrite (Hsame _ _ scans_first_bitsPerPixel) in Hbits.
  rewrite (Hsame _ _ scans_first_getDataSize), (Hsame _ _ scans_first_getNumDataBlocks).
  assert (Hall : Forall2 (fun index len =>
                            fst (FitsStructure.sizeAxis index this') = Normal (Int len))
                   (map Z.of_nat (seq 1 (Z.to_nat n))) lengths).
  { apply Forall2_same_length_lookup. split.
    - rewrite length_map, length_seq. symmetry. exact Hlen.
    - intros i index len Hindex Hlookup.
      rewrite list_lookup_fmap in Hindex.
      destruct (seq 1 (Z.to_nat n) !! i) as [k|] eqn:Hk; [|discriminate].
      apply lookup_seq in Hk. destruct Hk as [-> _]. injection Hindex as <-.
      assert (Hfirst : scans_first (FitsStructure.sizeAxis (Z.of_nat (S i))))
        by (apply scans_first_bind, scans_first_numAxis).
      rewrite <- (Hsame _ _ Hfirst). apply Hlengths. exact Hlookup. }
  apply (preserves_result _ this' raw _ preserves_numAxis Hraw) in Haxis.
  apply (preserves_result _ this' raw _ preserves_bitsPerPixel Hraw) in Hbits.
  assert (Hsize : FitsStructure.getDataSize this'
                  = (Normal (Int (bits / 8 * foldr Z.mul 1 lengths)), this')).
  { unfold FitsStructure.getDataSize, mbind, M_bind, bind. rewrite Haxis.
    unfold num_eq. destruct (Z.eqb_spec n 0); [lia|]. rewrite Hbits.
    cbn [FitsStructure.loop_count num_div_exact].
    apply (getDataSize_loop_product this' raw Hraw). exact Hall. }
  split; [rewrite Hsize; reflexivity|].
  unfold FitsStructure.getNumDataBlocks, mbind, M_bind, bind. rewrite Hsize.
  unfold_M. cbn [fst FitsStructure.numBlocks Math_ceil_div]. do 2 f_equal.
  unfold FitsStructure.BLOCK_SIZE.
  set (size := bits / 8 * foldr Z.mul 1 lengths).
  pose proof (Z.div_mod (- size) 2880 ltac:(lia)) as H1.
  pose proof (Z.mod_pos_bound (- size) 2880 ltac:(lia)) as H2.
  apply Z.div_unique with (r := 2879 - (- size) mod 2880); lia.
Qed.

Lemma getDataSize_product_witness :
  let this := image_unit two_unit_file in
  ready this
  /\ fst (FitsStructure.numAxis this) = Normal (Int 2)
  /\ 0 < 2
  /\ fst (FitsStructure.bitsPerPixel this) = Normal (Int 8)
  /\ length [2; 2] = Z.to_nat 2
  /\ (forall (i : nat) (len : Z),
        [2; 2] !! i = Some len ->
        fst (FitsStructure.sizeAxis (Z.of_nat (S i)) this) = Normal (Int len))
  /\ Forall (fun len => Z.abs len < 2 ^ 53) [2; 2]
  /\ (forall k : nat, Z.abs (8 / 8 * foldr Z.mul 1 (take k [2; 2])) < 2 ^ 53)
  /\ fst (FitsStructure.getDataSize this) = Normal (Int 4)
  /\ fst (FitsStructure.getNumDataBlocks this) = Normal (Int 1).
Proof.
  cbv zeta.
  assert (Haxis : fst (FitsStructure.numAxis (image_unit two_unit_file)) = Normal (Int 2))
    by (vm_compute; reflexivity).
  assert (Hbits : fst (FitsStructure.bitsPerPixel (image_unit two_unit_file)) = Normal (Int 8))
    by (vm_compute; reflexivity).
  assert (Hlengths : forall (i : nat) (len : Z),
             [2; 2] !! i = Some len ->
             fst (FitsStructure.sizeAxis (Z.of_nat (S i)) (image_unit two_unit_file))
             = Normal (Int len)).
  { intros [|[|i]] len Hlen; [| |discriminate Hlen]; injection Hlen as <-;
      vm_compute; reflexivity. }
  assert (Hbound : Forall (fun len => Z.abs len < 2 ^ 53) [2; 2])
    by (repeat constructor).
  assert (Hpartial : forall k : nat, Z.abs (8 / 8 * foldr Z.mul 1 (take k [2; 2])) < 2 ^ 53)
    by (intros [|[|[|k]]]; vm_compute; reflexivity).
  split; [apply ready_new|]. split; [exact Haxis|]. split; [lia|]. split; [exact Hbits|].
  split; [reflexivity|]. split; [exact Hlengths|]. split; [exact Hbound|].
  split; [exact Hpartial|].
  exact (getDataSize_product _ 2 8 [2; 2] (ready_new _) Haxis ltac:(lia) Hbits eq_refl
           Hlengths Hbound Hpartial).
Defined.

(** ** The bytes of the data unit *)

Lemma subarray_range_empty (b : Buffer) (s e : Z) :
  0 <= e <= s -> subarray b (Int s) (Some (Int e)) = [].
Proof.
  intros Hse. unfold subarray, adjustOffset.
  destruct (Z.ltb_spec s 0); [lia|]. destruct (Z.ltb_spec e 0); [lia|].
  replace (Z.to_nat (Z.min e (Z.of_nat (length b))) - Z.to_nat (Z.min s (Z.of_nat (length b))))%nat
    with 0%nat by lia.
  apply take_0.
Qed.


(** X13. The data unit of a unit with axes, h header blocks and d data
    blocks is the part of the view from byte 2880 h on, at most 2880 d
    bytes long: it holds the fill of the last data block, it is shorter
    when the view ends before, and it is empty when d is negative. *)
Theorem getDataUnit_range (this : FitsStructure.t) (n h d : Z) :
  ready this ->
  fst (FitsStructure.numAxis this) = Normal (Int n) ->
  0 < n ->
  fst (FitsStructure.getNumHeaderBlocks this) = Normal (Int h) ->
  fst (FitsStructure.getNumDataBlocks this) = Normal (Int d) ->
  0 <= h ->
  0 <= h + d ->
  fst (FitsStructure.getDataUnit this)
  = Normal (if 0 <=? d
            then take (Z.to_nat (d * 2880))
                   (drop (Z.to_nat (h * 2880)) (FitsStructure.rawData this))
            else []).
Proof.
  intros Hready Haxis Hn Hh Hd Hh0 Hsum.
  destruct (ready_settle this (Int n) Hready Haxis) as (raw & this' & Hraw & Hdata & Hsame).
  rewrite (Hsame _ _ scans_first_numAxis) in Haxis.
  rewrite (Hsame _ _ scans_first_getNumHeaderBlocks) in Hh.
  rewrite (Hsame _ _ scans_first_getNumDataBlocks) in Hd.
  rewrite (Hsame _ _ scans_first_getDataUnit), <- Hdata.
  apply (preserves_result _ this' raw _ preserves_numAxis Hraw) in Haxis.
  apply (preserves_result _ this' raw _ preserves_getNumHeaderBlocks Hraw) in Hh.
  apply (preserves_result _ this' raw _ preserves_getNumDataBlocks Hraw) in Hd.
  unfold FitsStructure.getDataUnit, mbind, M_bind, bind. rewrite Haxis.
  unfold num_eq. destruct (Z.eqb_spec n 0); [lia|]. rewrite Hh, Hd.
  unfold_M. cbn [fst num_add num_mul]. unfold FitsStructure.BLOCK_SIZE. f_equal.
  destruct (Z.leb_spec 0 d).
  - rewrite subarray_range by lia. do 2 f_equal. lia.
  - rewrite subarray_range_empty by lia. reflexivity.
Qed.

Lemma getDataUnit_range_witness :
  let this := image_unit two_unit_file_cut in
  ready this
  /\ fst (FitsStructure.numAxis this) = Normal (Int 2)
  /\ 0 < 2
  /\ fst (FitsStructure.getNumHeaderBlocks this) = Normal (Int 1)
  /\ fst (FitsStructure.getNumDataBlocks this) = Normal (Int 1)
  /\ 0 <= 1
  /\ 0 <= 1 + 1
  /\ fst (FitsStructure.getDataUnit this) = Normal [x0a; x14; x1e; x28].
Proof.
  cbv zeta.
  assert (Haxis : fst (FitsStructure.numAxis (image_unit two_unit_file_cut)) = Normal (Int 2))
    by (vm_compute; reflexivity).
  assert (Hh : fst (FitsStructure.getNumHeaderBlocks (image_unit two_unit_file_cut))
               = Normal (Int 1))
    by (vm_compute; reflexivity).
  assert (Hd : fst (FitsStructure.getNumDataBlocks (image_unit two_unit_file_cut))
               = Normal (Int 1))
    by (vm_compute; reflexivity).
  split; [apply ready_new|]. split; [exact Haxis|]. split; [lia|]. split; [exact Hh|].
  split; [exact Hd|]. split; [lia|]. split; [lia|].
  rewrite (getDataUnit_range (image_unit two_unit_file_cut) 2 1 1 (ready_new _) Haxis
             ltac:(lia) Hh Hd ltac:(lia) ltac:(lia)).
  vm_compute. reflexivity.
Defined.


(** ** Data cut short *)

Lemma getDataValues_loop_progress (dataType : jsstring) (data : Buffer) :
  dataType ∈ decodable ->
  forall (n fuel k : nat) (values : list float),
    ((k + n) * strideOf dataType <= length data)%nat ->
    FitsStructure.getDataValues_loop (n + fuel) dataType (Int (Z.of_nat (strideOf dataType)))
      data (Int (Z.of_nat (k * strideOf dataType))) values
    = FitsStructure.getDataValues_loop fuel dataType (Int (Z.of_nat (strideOf dataType)))
        data (Int (Z.of_nat ((k + n) * strideOf dataType)))
        (values
         ++ map (fun j => decodeStride dataType
                            (take (strideOf dataType) (drop (j * strideOf dataType) data)))
              (seq k n)).
Proof.
  intros Hdt. induction n as [|n IH]; intros fuel k values Hlen.
  - cbn [seq map Nat.add]. rewrite app_nil_r, Nat.add_0_r. reflexivity.
  - cbn [Nat.add]. rewrite getDataValues_loop_step by (assumption || lia).
    replace (k * strideOf dataType + strideOf dataType)%nat with (S k * strideOf dataType)%nat
      by lia.
    rewrite IH by lia. cbn [seq map]. rewrite <- app_assoc.
    replace (S k + n)%nat with (k + S n)%nat by lia. reflexivity.
Qed.

Lemma byteAt_past_end (data : Buffer) (o : nat) :
  (length data <= o)%nat -> byteAt data (Int (Z.of_nat o)) = None.
Proof.
  intros Hlen. unfold byteAt. destruct (Z.ltb_spec (Z.of_nat o) 0); [reflexivity|].
  rewrite Nat2Z.id, lookup_ge_None_2 by exact Hlen. reflexivity.
Qed.

Lemma read_four_past_end (data : Buffer) (o : nat) :
  (length data < o + 4)%nat ->
  readInt32BE data (Int (Z.of_nat o)) = Throw RangeError
  /\ readFloatBE data (Int (Z.of_nat o)) = Throw RangeError.
Proof.
  intros Hlen. unfold readInt32BE, readFloatBE. cbn [num_add].
  replace (Z.of_nat o + 3) with (Z.of_nat (o + 3)) by lia.
  rewrite (byteAt_past_end data (o + 3)) by lia.
  destruct (byteAt data (Int (Z.of_nat o))), (byteAt data (Int (Z.of_nat o + 1))),
    (byteAt data (Int (Z.of_nat o + 2))); split; reflexivity.
Qed.

Lemma getDataValues_loop_cut (dataType : jsstring) (data : Buffer) :
  dataType = PixelDataType.Signed32 \/ dataType = PixelDataType.SingleFloat ->
  (length data mod 4 <> 0)%nat ->
  FitsStructure.getDataValues_loop (length data) dataType (Int 4) data (Int 0) []
  = Throw RangeError.
Proof.
  intros Hdt Hmod.
  assert (Hin : dataType ∈ decodable).
  { unfold decodable. destruct Hdt as [-> | ->].
    - apply list_elem_of_further, list_elem_of_here.
    - do 2 apply list_elem_of_further. apply list_elem_of_here. }
  assert (Hstride : strideOf dataType = 4%nat) by (destruct Hdt as [-> | ->]; reflexivity).
  pose proof (Nat.div_mod_eq (length data) 4) as Hdiv.
  pose proof (Nat.mod_upper_bound (length data) 4 ltac:(lia)) as Hbound.
  set (q := (length data / 4)%nat) in *.
  pose proof (getDataValues_loop_progress dataType data Hin q (length data - q - 1 + 1) 0 [])
    as Hrun.
  rewrite Hstride in Hrun. cbn [Nat.add Nat.mul] in Hrun.
  replace (q + (length data - q - 1 + 1))%nat with (length data) in Hrun by lia.
  change (Z.of_nat 0) with 0 in Hrun. change (Z.of_nat 4) with 4 in Hrun.
  rewrite Hrun by lia.
  replace (length data - q - 1 + 1)%nat with (S (length data - q - 1)) by lia.
  cbn [FitsStructure.getDataValues_loop]. unfold num_lt, buffer_length.
  destruct (Z.ltb_spec (Z.of_nat (q * 4)) (Z.of_nat (length data))); [|lia].
  destruct (read_four_past_end data (q * 4) ltac:(lia)) as [Hint Hfloat].
  destruct Hdt as [-> | ->].
  - rewrite bool_decide_eq_false_2 by discriminate.
    rewrite bool_decide_eq_true_2 by reflexivity. rewrite Hint. reflexivity.
  - rewrite bool_decide_eq_true_2 by reflexivity. rewrite Hfloat. reflexivity.
Qed.

(** X14. Data that stop inside a 4-byte sample.  For BITPIX = 32 and
    BITPIX = -32, when the length of the data is not a multiple of 4 (the
    file was cut), [getDataValues] throws the RangeError of the read past
    the end: the samples decoded before are lost with it. *)
Theorem getDataValues_cut_sample (this : FitsStructure.t) (region : Buffer)
    (dataType : jsstring) :
  ready this ->
  fst (FitsStructure.getDataUnit this) = Normal region ->
  fst (FitsStructure.pixelDataType this) = Normal dataType ->
  dataType = PixelDataType.Signed32 \/ dataType = PixelDataType.SingleFloat ->
  (length region mod 4 <> 0)%nat ->
  fst (FitsStructure.getDataValues this) = Throw RangeError.
Proof.
  intros Hready Hunit Htype Hdt Hmod.
  destruct (getDataUnit_numAxis this region Hunit) as [n Haxis].
  destruct (ready_settle this n Hready Haxis) as (raw & this' & Hraw & _ & Hsame).
  rewrite (Hsame _ _ scans_first_getDataUnit) in Hunit.
  rewrite (Hsame _ _ scans_first_pixelDataType) in Htype.
  rewrite (Hsame _ _ scans_first_getDataValues).
  rewrite (getDataValues_cached this' raw region dataType Hraw Hunit Htype).
  assert (Hvalues : bool_decide (dataType ∈ PixelDataType.values) = true
                    /\ num_div_exact (Math_abs (parseInt dataType)) 8 = Int 4)
    by (destruct Hdt as [-> | ->]; split; vm_compute; reflexivity).
  destruct Hvalues as [-> ->]. cbn [fst].
  apply getDataValues_loop_cut; assumption.
Qed.

Lemma getDataValues_cut_sample_witness :
  let this := FitsStructure.new int32_cut_file in
  let region := [xff; xff; xff; xfe; x00; x00] in
  ready this
  /\ fst (FitsStructure.getDataUnit this) = Normal region
  /\ fst (FitsStructure.pixelDataType this) = Normal PixelDataType.Signed32
  /\ (length region mod 4 <> 0)%nat
  /\ fst (FitsStructure.getDataValues this) = Throw RangeError.
Proof.
  cbv zeta.
  assert (Hunit : fst (FitsStructure.getDataUnit (FitsStructure.new int32_cut_file))
                  = Normal [xff; xff; xff; xfe; x00; x00])
    by (vm_compute; reflexivity).
  assert (Htype : fst (FitsStructure.pixelDataType (FitsStructure.new int32_cut_file))
                  = Normal PixelDataType.Signed32)
    by (vm_compute; reflexivity).
  assert (Hmod : (length [xff; xff; xff; xfe; x00; x00] mod 4 <> 0)%nat)
    by (vm_compute; intros Hzero; discriminate Hzero).
  split; [apply ready_new|]. split; [exact Hunit|]. split; [exact Htype|].
  split; [exact Hmod|].
  exact (getDataValues_cut_sample _ _ _ (ready_new _) Hunit Htype (or_introl eq_refl) Hmod).
Defined.

(** ** Integer samples *)

Lemma be_unsigned_bound (bytes : list byte) :
  forall acc, 0 <= acc ->
    0 <= foldl (fun acc b => acc * 256 + Z.of_N (Byte.to_N b)) acc bytes
    < (acc + 1) * 256 ^ Z.of_nat (length bytes).
Proof.
  induction bytes as [|b bytes IH]; intros acc Hacc.
  - cbn. lia.
  - cbn [foldl length]. pose proof (byte_range b) as Hb.
    specialize (IH (acc * 256 + Z.of_N (Byte.to_N b)) ltac:(lia)).
    rewrite Nat2Z.inj_succ, Z.pow_succ_r by lia.
    assert (0 < 256 ^ Z.of_nat (length bytes)) by (apply Z.pow_pos_nonneg; lia).
    nia.
Qed.

Lemma decodeStride_bytes (data : Buffer) (o : nat) :
  0 <= be_unsigned (take 1 (drop o data)) <= 255.
Proof.
  pose proof (be_unsigned_bound (take 1 (drop o data)) 0 ltac:(lia)) as H.
  fold (be_unsigned (take 1 (drop o data))) in H.
  assert (length (take 1 (drop o data)) <= 1)%nat by (rewrite length_take; lia).
  assert (256 ^ Z.of_nat (length (take 1 (drop o data))) <= 256 ^ 1)
    by (apply Z.pow_le_mono_r; lia).
  lia.
Qed.

Lemma decodeStride_int32 (data : Buffer) (o : nat) :
  - 2 ^ 31 <= twos_complement 32 (be_unsigned (take 4 (drop o data))) < 2 ^ 31.
Proof.
  pose proof (be_unsigned_bound (take 4 (drop o data)) 0 ltac:(lia)) as H.
  fold (be_unsigned (take 4 (drop o data))) in H.
  assert (length (take 4 (drop o data)) <= 4)%nat by (rewrite length_take; lia).
  assert (256 ^ Z.of_nat (length (take 4 (drop o data))) <= 256 ^ 4)
    by (apply Z.pow_le_mono_r; lia).
  unfold twos_complement.
  destruct (Z.ltb_spec (be_unsigned (take 4 (drop o data))) (2 ^ (32 - 1))); lia.
Qed.

(** X15. The integer encodings give integers of their range: whenever
    [getDataValues] returns, its values are the doubles of integers from 0
    to 255 for BITPIX = 8, and of integers from -2^31 to 2^31 - 1 for
    BITPIX = 32. *)
Theorem getDataValues_integer_range (this : FitsStructure.t) (dataType : jsstring)
    (values : list float) :
  ready this ->
  fst (FitsStructure.pixelDataType this) = Normal dataType ->
  fst (FitsStructure.getDataValues this) = Normal values ->
  (dataType = PixelDataType.UnsignedBinary ->
   exists samples,
     values = map float_of_Z samples /\ Forall (fun z => 0 <= z <= 255) samples)
  /\ (dataType = PixelDataType.Signed32 ->
      exists samples,
        values = map float_of_Z samples
        /\ Forall (fun z => - 2 ^ 31 <= z < 2 ^ 31) samples).
Proof.
  intros Hready Htype Hvalues.
  assert (Hunit : exists region, fst (FitsStructure.getDataUnit this) = Normal region).
  { unfold FitsStructure.getDataValues, mbind, M_bind, bind in Hvalues.
    destruct (FitsStructure.getDataUnit this) as [[region| |] s]; try discriminate.
    exists region. reflexivity. }
  destruct Hunit as [region Hunit].
  destruct (getDataUnit_numAxis this region Hunit) as [n Haxis].
  destruct (ready_settle this n Hready Haxis) as (raw & this' & Hraw & _ & Hsame).
  rewrite (Hsame _ _ scans_first_getDataUnit) in Hunit.
  rewrite (Hsame _ _ scans_first_pixelDataType) in Htype.
  rewrite (Hsame _ _ scans_first_getDataValues) in Hvalues.
  rewrite (getDataValues_cached this' raw region dataType Hraw Hunit Htype) in Hvalues.
  split; intros ->.
  - change (bool_decide (PixelDataType.UnsignedBinary ∈ PixelDataType.values)) with true
      in Hvalues.
    change (num_div_exact (Math_abs (parseInt PixelDataType.UnsignedBinary)) 8)
      with (Int (Z.of_nat (strideOf PixelDataType.UnsignedBinary))) in Hvalues.
    cbn [fst] in Hvalues.
    rewrite getDataValues_loop_strides in Hvalues;
      [|apply list_elem_of_here|apply Nat.mod_1_r].
    injection Hvalues as <-.
    exists (map be_unsigned (strides 1 region)). split.
    + rewrite map_map. reflexivity.
    + unfold strides. rewrite map_map. apply Forall_map, Forall_forall.
      intros k _. apply decodeStride_bytes.
  - change (bool_decide (PixelDataType.Signed32 ∈ PixelDataType.values)) with true
      in Hvalues.
    change (num_div_exact (Math_abs (parseInt PixelDataType.Signed32)) 8)
      with (Int 4) in Hvalues.
    cbn [fst] in Hvalues.
    destruct (Nat.eq_dec (length region mod 4)%nat 0%nat) as [Hmod | Hmod].
    + change (Int 4) with (Int (Z.of_nat (strideOf PixelDataType.Signed32))) in Hvalues.
      rewrite getDataValues_loop_strides in Hvalues;
        [|apply list_elem_of_further, list_elem_of_here|exact Hmod].
      injection Hvalues as <-.
      exists (map (fun bytes => twos_complement 32 (be_unsigned bytes)) (strides 4 region)).
      split.
      * rewrite map_map. reflexivity.
      * unfold strides. rewrite map_map. apply Forall_map, Forall_forall.
        intros k _. apply decodeStride_int32.
    + rewrite getDataValues_loop_cut in Hvalues; [discriminate|left; reflexivity|exact Hmod].
Qed.

Lemma getDataValues_integer_range_witness :
  let this := FitsStructure.new five_samples_file in
  ready this
  /\ fst (FitsStructure.pixelDataType this) = Normal PixelDataType.UnsignedBinary
  /\ fst (FitsStructure.getDataValues this) = Normal [1; 2; 3; 4; 5]%float
  /\ exists samples,
       [1; 2; 3; 4; 5]%float = map float_of_Z samples
       /\ Forall (fun z => 0 <= z <= 255) samples.
Proof.
  cbv zeta.
  assert (Htype : fst (FitsStructure.pixelDataType (FitsStructure.new five_samples_file))
                  = Normal PixelDataType.UnsignedBinary)
    by (vm_compute; reflexivity).
  assert (Hvalues : fst (FitsStructure.getDataValues (FitsStructure.new five_samples_file))
                    = Normal [1; 2; 3; 4; 5]%float)
    by (vm_compute; reflexivity).
  split; [apply ready_new|]. split; [exact Htype|]. split; [exact Hvalues|].
  exact (proj1 (getDataValues_integer_range _ _ _ (ready_new _) Htype Hvalues) eq_refl).
Defined.

(** ** Writing and reading 32-bit integers *)

Lemma byte_of_Z_value (z : Z) : Z.of_N (Byte.to_N (byte_of_Z z)) = z mod 256.
Proof.
  unfold byte_of_Z. pose proof (Z.mod_pos_bound z 256 ltac:(lia)) as Hbound.
  destruct (Byte.of_N (Z.to_N (z mod 256))) as [b|] eqn:Hb.
  - apply Byte.to_of_N in Hb. change (default x00 (Some b)) with b. rewrite Hb. lia.
  - apply Byte.of_N_None_iff in Hb. lia.
Qed.

Lemma int32_bytes_value (z : Z) :
  - 2 ^ 31 <= z < 2 ^ 31 ->
  twos_complement 32 (be_unsigned (int32_bytes z)) = z.
Proof.
  intros Hz. unfold int32_bytes. rewrite be_unsigned_four, !byte_of_Z_value.
  pose proof (Z.mod_pos_bound z (2 ^ 32) ltac:(lia)) as Hu.
  set (u := z mod 2 ^ 32) in *.
  assert (Hsum : (u / 2 ^ 24) mod 256 * 2 ^ 24 + (u / 2 ^ 16) mod 256 * 2 ^ 16
                 + (u / 2 ^ 8) mod 256 * 2 ^ 8 + u mod 256 = u).
  { change (2 ^ 24) with 16777216. change (2 ^ 16) with 65536. change (2 ^ 8) with 256.
    change (2 ^ 32) with 4294967296 in Hu.
    Z.div_mod_to_equations. lia. }
  rewrite Hsum. unfold twos_complement, u.
  change (2 ^ (32 - 1)) with (2 ^ 31).
  destruct (Z.ltb_spec (z mod 2 ^ 32) (2 ^ 31)) as [Hlt | Hge].
  - destruct (Z.lt_ge_cases z 0) as [Hneg | Hpos].
    + rewrite <- (Z.mod_add z 1 (2 ^ 32)) in Hlt by lia.
      rewrite Z.mod_small in Hlt by lia. lia.
    + apply Z.mod_small. lia.
  - destruct (Z.lt_ge_cases z 0) as [Hneg | Hpos].
    + rewrite <- (Z.mod_add z 1 (2 ^ 32)) by lia. rewrite Z.mod_small by lia. lia.
    + rewrite Z.mod_small in Hge by lia. lia.
Qed.

Lemma strides_app (stride : nat) (group rest : list byte) :
  (0 < stride)%nat -> length group = stride ->
  strides stride (group ++ rest) = group :: strides stride rest.
Proof.
  intros Hpos Hlen. unfold strides. rewrite length_app, Hlen.
  replace ((stride + length rest) / stride)%nat with (S (length rest / stride)).
  2:{ replace (stride + length rest)%nat with (length rest + 1 * stride)%nat by lia.
      rewrite Nat.div_add by lia. lia. }
  cbn [seq map]. f_equal.
  - cbn [Nat.mul]. rewrite drop_0, take_app_length'; [reflexivity|symmetry; exact Hlen].
  - rewrite <- seq_shift, map_map. apply map_ext. intros k.
    replace (S k * stride)%nat with (length group + k * stride)%nat by lia.
    rewrite drop_app_add. reflexivity.
Qed.

Lemma strides_concat (stride : nat) (groups : list (list byte)) :
  (0 < stride)%nat -> Forall (fun group => length group = stride) groups ->
  strides stride (concat groups) = groups.
Proof.
  intros Hpos Hall. induction Hall as [|group groups Hlen _ IH].
  - unfold strides. cbn. rewrite Nat.Div0.div_0_l. reflexivity.
  - cbn [concat]. rewrite strides_app by assumption. rewrite IH. reflexivity.
Qed.

(** X16. What was written as 32-bit integers is read back: when the data
    of a unit with BITPIX = 32 are the big-endian two's-complement bytes
    of a list of integers in the 32-bit range, [getDataValues] returns
    these integers, in order. *)
Theorem getDataValues_int32_round_trip (this : FitsStructure.t) (samples : list Z) :
  ready this ->
  fst (FitsStructure.getDataUnit this) = Normal (concat (map int32_bytes samples)) ->
  fst (FitsStructure.pixelDataType this) = Normal PixelDataType.Signed32 ->
  Forall (fun z => - 2 ^ 31 <= z < 2 ^ 31) samples ->
  fst (FitsStructure.getDataValues this) = Normal (map float_of_Z samples).
Proof.
  intros Hready Hunit Htype Hrange.
  destruct (getDataUnit_numAxis this _ Hunit) as [n Haxis].
  destruct (ready_settle this n Hready Haxis) as (raw & this' & Hraw & _ & Hsame).
  rewrite (Hsame _ _ scans_first_getDataUnit) in Hunit.
  rewrite (Hsame _ _ scans_first_pixelDataType) in Htype.
  rewrite (Hsame _ _ scans_first_getDataValues).
  rewrite (getDataValues_cached this' raw _ _ Hraw Hunit Htype).
  change (bool_decide (PixelDataType.Signed32 ∈ PixelDataType.values)) with true.
  change (num_div_exact (Math_abs (parseInt PixelDataType.Signed32)) 8)
    with (Int (Z.of_nat (strideOf PixelDataType.Signed32))).
  cbn [fst].
  assert (Hgroups : Forall (fun group : list byte => length group = 4%nat)
                      (map int32_bytes samples))
    by (apply Forall_map, Forall_forall; intros z _; reflexivity).
  pose proof (strides_concat 4 _ ltac:(lia) Hgroups) as Hstrides.
  rewrite getDataValues_loop_strides.
  - change (strideOf PixelDataType.Signed32) with 4%nat. rewrite Hstrides, map_map.
    f_equal. apply map_ext_Forall.
    eapply Forall_impl; [exact Hrange|]. intros z Hz. cbn beta.
    unfold decodeStride.
    rewrite bool_decide_eq_false_2 by discriminate.
    rewrite bool_decide_eq_true_2 by reflexivity.
    rewrite int32_bytes_value by exact Hz. reflexivity.
  - apply list_elem_of_further, list_elem_of_here.
  - change (strideOf PixelDataType.Signed32) with 4%nat.
    pose proof (strides_length 4 (concat (map int32_bytes samples))) as Hcount.
    rewrite Hstrides, length_map in Hcount.
    assert (Hlen : length (concat (map int32_bytes samples)) = (length samples * 4)%nat).
    { clear. induction samples as [|z samples IH]; [reflexivity|].
      cbn [map concat]. rewrite length_app, IH. cbn. lia. }
    rewrite Hlen. apply Nat.Div0.mod_mul.
Qed.

Lemma getDataValues_int32_round_trip_witness :
  let this := FitsStructure.new int32_file in
  ready this
  /\ fst (FitsStructure.getDataUnit this) = Normal (concat (map int32_bytes [-2; 256]))
  /\ fst (FitsStructure.pixelDataType this) = Normal PixelDataType.Signed32
  /\ Forall (fun z => - 2 ^ 31 <= z < 2 ^ 31) [-2; 256]
  /\ fst (FitsStructure.getDataValues this) = Normal (map float_of_Z [-2; 256]).
Proof.
  cbv zeta.
  assert (Hunit : fst (FitsStructure.getDataUnit (FitsStructure.new int32_file))
                  = Normal (concat (map int32_bytes [-2; 256])))
    by (vm_compute; reflexivity).
  assert (Htype : fst (FitsStructure.pixelDataType (FitsStructure.new int32_file))
                  = Normal PixelDataType.Signed32)
    by (vm_compute; reflexivity).
  assert (Hrange : Forall (fun z => - 2 ^ 31 <= z < 2 ^ 31) [-2; 256])
    by (repeat constructor; lia).
  split; [apply ready_new|]. split; [exact Hunit|]. split; [exact Htype|].
  split; [exact Hrange|].
  exact (getDataValues_int32_round_trip _ _ (ready_new _) Hunit Htype Hrange).
Defined.

(** ** The two-dimensional arrangement *)

Lemma fillRow_columns (data : list float) (cols : nat) :
  forall (i : nat) (row : list (option float)),
    FitsStructure.fillRow cols data i row
    = (row ++ map (fun col => data !! (i + col)%nat) (seq 0 cols), (i + cols)%nat).
Proof.
  induction cols as [|cols IH]; intros i row.
  - cbn. rewrite app_nil_r, Nat.add_0_r. reflexivity.
  - cbn [FitsStructure.fillRow]. rewrite IH. cbn [seq map].
    rewrite <- app_assoc, Nat.add_0_r. cbn [app]. f_equal.
    + do 2 f_equal. rewrite <- seq_shift, map_map. apply map_ext. intros col.
      f_equal. lia.
    + lia.
Qed.

Lemma fillRows_rows (data : list float) (cols rows : nat) :
  forall (i : nat) (values : list (list (option float))),
    FitsStructure.fillRows rows cols data i values
    = values
      ++ map (fun row => map (fun col => data !! (i + row * cols + col)%nat) (seq 0 cols))
           (seq 0 rows).
Proof.
  induction rows as [|rows IH]; intros i values.
  - cbn. rewrite app_nil_r. reflexivity.
  - cbn [FitsStructure.fillRows]. rewrite fillRow_columns. cbn [app].
    rewrite IH. cbn [seq map]. rewrite <- app_assoc. cbn [app]. do 2 f_equal.
    + apply map_ext. intros col. f_equal. lia.
    + rewrite <- seq_shift, map_map. apply map_ext. intros row.
      apply map_ext. intros col. f_equal. lia.
Qed.

Lemma sizeAxis_numAxis (index : Z) (this : FitsStructure.t) (len : num) :
  fst (FitsStructure.sizeAxis index this) = Normal len ->
  exists n, fst (FitsStructure.numAxis this) = Normal n.
Proof.
  intros Hsize. unfold FitsStructure.sizeAxis, mbind, M_bind, bind in Hsize.
  destruct (FitsStructure.numAxis this) as [[n| |] this']; try discriminate.
  exists n. reflexivity.
Qed.

Lemma scans_first_sizeAxis (index : Z) : scans_first (FitsStructure.sizeAxis index).
Proof. apply scans_first_bind, scans_first_numAxis. Qed.

(** X17. The two-dimensional array is the flat list cut into rows:
    NAXIS2 rows of NAXIS1 entries, entry (row, col) being the flat value
    at index row * NAXIS1 + col.  Nothing checks the shape: an entry past
    the end of the flat list is undefined, values beyond NAXIS1 * NAXIS2
    are left out, and an axis length that is negative or not a number
    gives no rows or empty rows. *)
Theorem getDataValuesArray_row_major (this : FitsStructure.t) (width height : num)
    (data : list float) :
  ready this ->
  fst (FitsStructure.sizeAxis 1 this) = Normal width ->
  fst (FitsStructure.sizeAxis 2 this) = Normal height ->
  fst (FitsStructure.getDataValues this) = Normal data ->
  fst (FitsStructure.getDataValuesArray this)
  = Normal (rowMajor (FitsStructure.loop_count height) (FitsStructure.loop_count width) data).
Proof.
  intros Hready Hwidth Hheight Hdata.
  destruct (sizeAxis_numAxis 1 this width Hwidth) as [n Haxis].
  destruct (ready_settle this n Hready Haxis) as (raw & this' & Hraw & _ & Hsame).
  rewrite (Hsame _ _ (scans_first_sizeAxis 1)) in Hwidth.
  rewrite (Hsame _ _ (scans_first_sizeAxis 2)) in Hheight.
  rewrite (Hsame _ _ scans_first_getDataValues) in Hdata.
  assert (Hfirst : scans_first FitsStructure.getDataValuesArray)
    by (apply scans_first_bind, scans_first_sizeAxis).
  rewrite (Hsame _ _ Hfirst).
  apply (preserves_result _ this' raw _ (preserves_sizeAxis 1) Hraw) in Hwidth.
  apply (preserves_result _ this' raw _ (preserves_sizeAxis 2) Hraw) in Hheight.
  apply (preserves_result _ this' raw _ preserves_getDataValues Hraw) in Hdata.
  unfold FitsStructure.getDataValuesArray, mbind, M_bind, bind.
  rewrite Hwidth, Hheight, Hdata. unfold_M. cbn [fst].
  rewrite fillRows_rows. reflexivity.
Qed.

Lemma getDataValuesArray_row_major_witness :
  let this := image_unit two_unit_file_cut in
  let data := [10; 20; 30; 40]%float in
  ready this
  /\ fst (FitsStructure.sizeAxis 1 this) = Normal (Int 2)
  /\ fst (FitsStructure.sizeAxis 2 this) = Normal (Int 2)
  /\ fst (FitsStructure.getDataValues this) = Normal data
  /\ fst (FitsStructure.getDataValuesArray this) = Normal (rowMajor 2 2 data)
  /\ rowMajor 2 2 data = [[Some 10; Some 20]; [Some 30; Some 40]]%float
  /\ rowMajor 2 3 data = [[Some 10; Some 20; Some 30]; [Some 40; None; None]]%float.
Proof.
  cbv zeta.
  assert (Hwidth : fst (FitsStructure.sizeAxis 1 (image_unit two_unit_file_cut))
                   = Normal (Int 2))
    by (vm_compute; reflexivity).
  assert (Hheight : fst (FitsStructure.sizeAxis 2 (image_unit two_unit_file_cut))
                    = Normal (Int 2))
    by (vm_compute; reflexivity).
  assert (Hdata : fst (FitsStructure.getDataValues (image_unit two_unit_file_cut))
                  = Normal [10; 20; 30; 40]%float)
    by (vm_compute; reflexivity).
  split; [apply ready_new|]. split; [exact Hwidth|]. split; [exact Hheight|].
  split; [exact Hdata|].
  split; [exact (getDataValuesArray_row_major _ _ _ _ (ready_new _) Hwidth Hheight Hdata)|].
  split; reflexivity.
Defined.

(** ** The median and the extremes *)

(** The comparison of strings is a strict order. *)
Lemma string_lt_irrefl (a : jsstring) : FitsStructure.string_lt a a = false.
Proof.
  induction a as [|x a IH]; [reflexivity|].
  cbn [FitsStructure.string_lt]. rewrite N.ltb_irrefl, N.eqb_refl, IH. reflexivity.
Qed.

Lemma string_lt_trans (a : jsstring) :
  forall b c,
    FitsStructure.string_lt a b = true -> FitsStructure.string_lt b c = true ->
    FitsStructure.string_lt a c = true.
Proof.
  induction a as [|x a IH]; intros [|y b] [|z c] Hab Hbc; cbn [FitsStructure.string_lt] in *;
    try discriminate Hab; try discriminate Hbc; try reflexivity.
  apply orb_true_iff in Hab, Hbc. apply orb_true_iff.
  destruct Hab as [Hxy|Hxy], Hbc as [Hyz|Hyz];
    try apply andb_true_iff in Hxy; try apply andb_true_iff in Hyz.
  - left. apply N.ltb_lt in Hxy, Hyz. apply N.ltb_lt. lia.
  - left. destruct Hyz as [Hyz _]. apply N.eqb_eq in Hyz. subst z. exact Hxy.
  - left. destruct Hxy as [Hxy _]. apply N.eqb_eq in Hxy. subst y. exact Hyz.
  - right. destruct Hxy as [Hxy Hab], Hyz as [Hyz Hbc]. apply N.eqb_eq in Hxy, Hyz. subst.
    rewrite N.eqb_refl. cbn [andb]. exact (IH _ _ Hab Hbc).
Qed.

Lemma string_lt_asym (a b : jsstring) :
  FitsStructure.string_lt a b = true -> FitsStructure.string_lt b a = false.
Proof.
  intros Hab. destruct (FitsStructure.string_lt b a) eqn:Hba; [|reflexivity].
  pose proof (string_lt_trans _ _ _ Hab Hba) as Haa.
  rewrite string_lt_irrefl in Haa. discriminate Haa.
Qed.

Section MoreStatistics.
Context `{Runtime}.

Lemma dataStats_fields (data : list float) :
  FitsStructure.median (FitsStructure.dataStats data)
  = FitsStructure.index_half (FitsStructure.Array_sort data)
  /\ FitsStructure.min (FitsStructure.dataStats data)
     = fst (fst (foldl FitsStructure.accumulate (Number_MAX_VALUE, Number_MIN_VALUE, 0%float)
                   (FitsStructure.Array_sort data)))
  /\ FitsStructure.max (FitsStructure.dataStats data)
     = snd (fst (foldl FitsStructure.accumulate (Number_MAX_VALUE, Number_MIN_VALUE, 0%float)
                   (FitsStructure.Array_sort data))).
Proof.
  unfold FitsStructure.dataStats.
  destruct (foldl FitsStructure.accumulate _ _) as [[lo hi] sum]. repeat split.
Qed.

Lemma accumulate_keeps (data : list float) :
  forall lo hi sum,
    (Forall (fun value => (value <? lo)%float = false) data ->
     fst (fst (foldl FitsStructure.accumulate (lo, hi, sum) data)) = lo)
    /\ (Forall (fun value => (hi <? value)%float = false) data ->
        snd (fst (foldl FitsStructure.accumulate (lo, hi, sum) data)) = hi).
Proof.
  induction data as [|value data IH]; intros lo hi sum; [split; reflexivity|].
  cbn [foldl FitsStructure.accumulate]. split; intros Hall.
  - apply Forall_cons in Hall. destruct Hall as [Hvalue Hall]. rewrite Hvalue.
    apply (proj1 (IH _ _ _) Hall).
  - apply Forall_cons in Hall. destruct Hall as [Hvalue Hall]. rewrite Hvalue.
    apply (proj2 (IH _ _ _) Hall).
Qed.

(** The order of [sort()]: the insertion keeps an array ordered by the
    strings of its numbers. *)
Lemma sort_insert_Forall (P : float -> Prop) (x : float) (sorted : list float) :
  P x -> Forall P sorted -> Forall P (FitsStructure.sort_insert x sorted).
Proof.
  intros Hx Hall. induction Hall as [|y rest Hy Hrest IH]; cbn [FitsStructure.sort_insert].
  - repeat constructor. exact Hx.
  - destruct (FitsStructure.string_lt _ _); repeat constructor; assumption.
Qed.

Lemma sort_insert_sorted (x : float) (sorted : list float) :
  StronglySorted
    (fun a b => FitsStructure.string_lt (numberToString b) (numberToString a) = false) sorted ->
  StronglySorted
    (fun a b => FitsStructure.string_lt (numberToString b) (numberToString a) = false)
    (FitsStructure.sort_insert x sorted).
Proof.
  intros Hsorted. induction Hsorted as [|y rest Hrest IH Hy]; cbn [FitsStructure.sort_insert].
  - repeat constructor.
  - destruct (FitsStructure.string_lt (numberToString x) (numberToString y)) eqn:Hxy.
    + constructor; [constructor; assumption|]. constructor.
      * apply string_lt_asym. exact Hxy.
      * eapply Forall_impl; [exact Hy|]. intros z Hz. cbv beta in *.
        destruct (FitsStructure.string_lt (numberToString z) (numberToString x)) eqn:Hzx;
          [|reflexivity].
        rewrite (string_lt_trans _ _ _ Hzx Hxy) in Hz. discriminate Hz.
    + constructor; [exact IH|]. apply sort_insert_Forall; [exact Hxy|exact Hy].
Qed.

Lemma Array_sort_sorted (data : list float) :
  StronglySorted
    (fun a b => FitsStructure.string_lt (numberToString b) (numberToString a) = false)
    (FitsStructure.Array_sort data).
Proof.
  unfold FitsStructure.Array_sort.
  assert (Hgen : forall sorted,
             StronglySorted
               (fun a b => FitsStructure.string_lt (numberToString b) (numberToString a) = false)
               sorted ->
             StronglySorted
               (fun a b => FitsStructure.string_lt (numberToString b) (numberToString a) = false)
               (foldl (fun sorted x => FitsStructure.sort_insert x sorted) sorted data)).
  { induction data as [|x data IH]; intros sorted Hsorted; [exact Hsorted|].
    cbn [foldl]. apply IH, sort_insert_sorted, Hsorted. }
  apply Hgen. constructor.
Qed.

(** X18. [getDataStats] sorts the values by their string forms: the
    array it goes through is a rearrangement of the decoded values in
    which no value stands before one whose string is smaller.  The median
    it reports is undefined for every odd number of values and for no
    values; for an even number it is the element at index count / 2 of
    that array, which is one of the values. *)
Theorem getDataStats_median (this this' : FitsStructure.t) (data : list float) :
  FitsStructure.getDataValues this = (Normal data, this') ->
  exists stats,
    FitsStructure.getDataStats this = (Normal stats, this')
    /\ FitsStructure.Array_sort data ≡ₚ data
    /\ StronglySorted
         (fun a b => FitsStructure.string_lt (numberToString b) (numberToString a) = false)
         (FitsStructure.Array_sort data)
    /\ (Nat.odd (length data) = true -> FitsStructure.median stats = None)
    /\ (data = [] -> FitsStructure.median stats = None)
    /\ (Nat.even (length data) = true -> data <> [] ->
        exists value,
          FitsStructure.median stats = Some value
          /\ value ∈ data
          /\ FitsStructure.Array_sort data !! (length data / 2)%nat = Some value).
Proof.
  intros Hdata. exists (FitsStructure.dataStats data). split.
  { unfold FitsStructure.getDataStats, mbind, M_bind, bind. rewrite Hdata. reflexivity. }
  destruct (dataStats_fields data) as (-> & _ & _).
  pose proof (Array_sort_Permutation data) as Hperm.
  pose proof (Permutation_length Hperm) as Hlen.
  split; [exact Hperm|]. split; [apply Array_sort_sorted|].
  unfold FitsStructure.index_half. rewrite Hlen.
  split; [|split].
  - intros Hodd. rewrite <- Nat.negb_odd, Hodd. reflexivity.
  - intros ->. reflexivity.
  - intros Heven Hne. rewrite Heven.
    assert (Hlt : (length data / 2 < length (FitsStructure.Array_sort data))%nat).
    { rewrite Hlen. destruct data; [contradiction|].
      apply Nat.Div0.div_lt_upper_bound. cbn [length]. lia. }
    apply lookup_lt_is_Some_2 in Hlt. destruct Hlt as [value Hvalue].
    exists value. split; [exact Hvalue|]. split; [|exact Hvalue].
    rewrite <- Hperm. eapply list_elem_of_lookup_2. exact Hvalue.
Qed.
(** X19. The extremes start from the smallest positive double and from
    the largest double, and a value replaces them only when it is strictly
    beyond: when no value is greater than Number.MIN_VALUE (all are zero
    or negative, say) the maximum reported is Number.MIN_VALUE, and when
    none is below Number.MAX_VALUE the minimum reported is
    Number.MAX_VALUE. *)
Theorem getDataStats_extremes_floor (this this' : FitsStructure.t) (data : list float) :
  FitsStructure.getDataValues this = (Normal data, this') ->
  exists stats,
    FitsStructure.getDataStats this = (Normal stats, this')
    /\ (Forall (fun value => (Number_MIN_VALUE <? value)%float = false) data ->
        FitsStructure.max stats = Number_MIN_VALUE)
    /\ (Forall (fun value => (value <? Number_MAX_VALUE)%float = false) data ->
        FitsStructure.min stats = Number_MAX_VALUE).
Proof.
  intros Hdata. exists (FitsStructure.dataStats data). split.
  { unfold FitsStructure.getDataStats, mbind, M_bind, bind. rewrite Hdata. reflexivity. }
  destruct (dataStats_fields data) as (_ & -> & ->).
  pose proof (Array_sort_Permutation data) as Hperm.
  split; intros Hall; rewrite <- Hperm in Hall.
  - apply (proj2 (accumulate_keeps _ _ _ _) Hall).
  - apply (proj1 (accumulate_keeps _ _ _ _) Hall).
Qed.

End MoreStatistics.

Lemma getDataStats_median_witness :
  let this := FitsStructure.new string_order_file in
  let this' := snd (FitsStructure.getDataValues this) in
  let data := [9; 10; 100; 2]%float in
  FitsStructure.getDataValues this = (Normal data, this')
  /\ exists stats,
       @FitsStructure.getDataStats Samples.runtime this = (Normal stats, this')
       /\ @FitsStructure.Array_sort Samples.runtime data = [10; 100; 2; 9]%float
       /\ FitsStructure.median stats = Some 2%float.
Proof.
  cbv zeta.
  assert (Hdata : FitsStructure.getDataValues (FitsStructure.new string_order_file)
                  = (Normal [9; 10; 100; 2]%float,
                     snd (FitsStructure.getDataValues (FitsStructure.new string_order_file))))
    by (vm_compute; reflexivity).
  split; [exact Hdata|].
  destruct (@getDataStats_median Samples.runtime _ _ _ Hdata)
    as (stats & Hstats & _ & _ & _ & _ & Heven).
  exists stats. split; [exact Hstats|]. split; [vm_compute; reflexivity|].
  destruct (Heven eq_refl ltac:(intros Hnil; discriminate Hnil)) as (value & -> & _ & Hvalue).
  rewrite <- Hvalue. vm_compute. reflexivity.
Defined.

Lemma getDataStats_extremes_floor_witness :
  let this := FitsStructure.new zero_samples_file in
  let this' := snd (FitsStructure.getDataValues this) in
  let data := [0; 0; 0; 0]%float in
  FitsStructure.getDataValues this = (Normal data, this')
  /\ Forall (fun value => (Number_MIN_VALUE <? value)%float = false) data
  /\ exists stats,
       @FitsStructure.getDataStats Samples.runtime this = (Normal stats, this')
       /\ FitsStructure.max stats = Number_MIN_VALUE.
Proof.
  cbv zeta.
  assert (Hdata : FitsStructure.getDataValues (FitsStructure.new zero_samples_file)
                  = (Normal [0; 0; 0; 0]%float,
                     snd (FitsStructure.getDataValues (FitsStructure.new zero_samples_file))))
    by (vm_compute; reflexivity).
  assert (Hall : Forall (fun value => (Number_MIN_VALUE <? value)%float = false)
                   [0; 0; 0; 0]%float)
    by (repeat constructor).
  split; [exact Hdata|]. split; [exact Hall|].
  destruct (@getDataStats_extremes_floor Samples.runtime _ _ _ Hdata)
    as (stats & Hstats & Hmax & _).
  exists stats. split; [exact Hstats|exact (Hmax Hall)].
Defined.

(** ** The reference pixel *)

(** X20. [centerPixel] gives the first axis twice: whenever it returns,
    y equals x, and both are the integer read from CRPIX1; CRPIX2 is not
    looked at. *)
Theorem centerPixel_same_axis (this : FitsStructure.t) (pixel : FitsStructure.Pixel) :
  fst (FitsStructure.centerPixel this) = Normal pixel ->
  FitsStructure.y pixel = FitsStructure.x pixel
  /\ exists value,
       fst (FitsStructure.getMetadataValue (str "CRPIX1") this) = Normal value
       /\ FitsStructure.x pixel = parseInt value.
Proof.
  intros Hpixel.
  unfold FitsStructure.centerPixel, mbind, mret, M_bind, M_ret, bind, ret in Hpixel.
  destruct (FitsStructure.getMetadataValue (str "CRPIX1") this) as [[value| |] this1] eqn:Hfirst;
    try discriminate.
  destruct (getMetadataValue_Normal _ _ _ _ Hfirst) as (c & rest & -> & Hkey).
  rewrite (getMetadataValue_stored this1 _ c rest Hkey) in Hpixel.
  cbn [fst] in Hpixel. injection Hpixel as <-. cbn.
  split; [reflexivity|]. exists (c :: rest). split; reflexivity.
Qed.

Lemma centerPixel_same_axis_witness :
  let this := FitsStructure.new reference_pixel_file in
  let pixel := FitsStructure.mkPixel (Int 10) (Int 10) in
  fst (FitsStructure.centerPixel this) = Normal pixel
  /\ FitsStructure.y pixel = FitsStructure.x pixel
  /\ fst (FitsStructure.getMetadataValue (str "CRPIX2") this) = Normal (str "20").
Proof.
  cbv zeta.
  assert (Hpixel : fst (FitsStructure.centerPixel (FitsStructure.new reference_pixel_file))
                   = Normal (FitsStructure.mkPixel (Int 10) (Int 10)))
    by (vm_compute; reflexivity).
  split; [exact Hpixel|].
  split; [exact (proj1 (centerPixel_same_axis _ _ Hpixel))|].
  vm_compute. reflexivity.
Defined.

(** ** What [load] leaves behind *)

Lemma load_loop_hdu :
  forall (fuel : nat) (next : option FitsStructure.t) (this : PrimaryHDU.t),
    PrimaryHDU.hdu (snd (PrimaryHDU.load_loop fuel next this)) = PrimaryHDU.hdu this.
Proof.
  induction fuel as [|fuel IH]; intros [structure|] this; try reflexivity.
  cbn [PrimaryHDU.load_loop].
  destruct (FitsStructure.getNextStructure structure) as [[next'| |] structure'];
    [|reflexivity|reflexivity].
  rewrite IH. reflexivity.
Qed.

Lemma load_hdu (fuel : nat) (file : Buffer) (this : PrimaryHDU.t) :
  PrimaryHDU.hdu this = None ->
  PrimaryHDU.hdu (snd (PrimaryHDU.load fuel file this)) = Some (scanned file).
Proof.
  intros Hnone. unfold PrimaryHDU.load, scanned. rewrite Hnone.
  destruct (FitsStructure.getNextStructure (FitsStructure.new file))
    as [[next| |] primary]; try reflexivity.
  rewrite load_loop_hdu. reflexivity.
Qed.

(** X21. [load] reads the file and walks it once.  A read that is
    rejected assigns nothing: the object is as before, and the next call
    reads again and stores the primary unit.  Once a read has succeeded,
    whatever came of the walk (also a throw in the middle of it), every
    later call returns at once, reads nothing and leaves the object as it
    is. *)
Theorem load_once (fuel : nat) (read : PrimaryHDU.FileRead) (this this' : PrimaryHDU.t)
    (settled : PrimaryHDU.Settled) :
  PrimaryHDU.loadFile fuel read this = (settled, this') ->
  (settled = PrimaryHDU.ReadRejected ->
   read = PrimaryHDU.Rejected
   /\ this' = this
   /\ forall (fuel' : nat) (file : Buffer),
        PrimaryHDU.hdu (snd (PrimaryHDU.loadFile fuel' (PrimaryHDU.Resolved file) this'))
        = Some (scanned file))
  /\ (settled <> PrimaryHDU.ReadRejected ->
      forall (fuel' : nat) (read' : PrimaryHDU.FileRead),
        PrimaryHDU.loadFile fuel' read' this' = (PrimaryHDU.Ran (Normal tt), this')).
Proof.
  intros Hload. unfold PrimaryHDU.loadFile in Hload.
  destruct (PrimaryHDU.hdu this) as [primary|] eqn:Hthis.
  - injection Hload as <- <-. split; [intros Hno; discriminate Hno|].
    intros _ fuel' read'. unfold PrimaryHDU.loadFile. rewrite Hthis. reflexivity.
  - destruct read as [file|].
    + pose proof (load_hdu fuel file this Hthis) as Hhdu.
      destruct (PrimaryHDU.load fuel file this) as [result loaded].
      injection Hload as <- <-. split; [intros Hno; discriminate Hno|].
      intros _ fuel' read'. unfold PrimaryHDU.loadFile. cbn [snd] in Hhdu.
      rewrite Hhdu. reflexivity.
    + injection Hload as <- <-. split; [|intros Hno; contradiction Hno; reflexivity].
      intros _. split; [reflexivity|]. split; [reflexivity|].
      intros fuel' file. unfold PrimaryHDU.loadFile. rewrite Hthis.
      pose proof (load_hdu fuel' file this Hthis) as Hhdu.
      destruct (PrimaryHDU.load fuel' file this) as [result loaded]. exact Hhdu.
Qed.

Lemma load_once_witness :
  let unread := PrimaryHDU.new in
  let failed := snd (PrimaryHDU.loadFile 1 (PrimaryHDU.Resolved no_end_file) PrimaryHDU.new) in
  (PrimaryHDU.loadFile 3 PrimaryHDU.Rejected unread = (PrimaryHDU.ReadRejected, unread)
   /\ PrimaryHDU.hdu (snd (PrimaryHDU.loadFile 3 (PrimaryHDU.Resolved two_unit_file) unread))
      = Some (scanned two_unit_file))
  /\ (PrimaryHDU.loadFile 1 (PrimaryHDU.Resolved no_end_file) PrimaryHDU.new
      = (PrimaryHDU.Ran (Throw (EntryLengthError [])), failed)
      /\ PrimaryHDU.loadFile 3 (PrimaryHDU.Resolved two_unit_file) failed
         = (PrimaryHDU.Ran (Normal tt), failed)).
Proof.
  cbv zeta. split.
  - split; [reflexivity|].
    exact (proj2 (proj2 (proj1 (load_once 3 PrimaryHDU.Rejected PrimaryHDU.new
                                  PrimaryHDU.new PrimaryHDU.ReadRejected eq_refl) eq_refl))
             3%nat two_unit_file).
  - assert (Hload : PrimaryHDU.loadFile 1 (PrimaryHDU.Resolved no_end_file) PrimaryHDU.new
                    = (PrimaryHDU.Ran (Throw (EntryLengthError [])),
                       snd (PrimaryHDU.loadFile 1 (PrimaryHDU.Resolved no_end_file)
                              PrimaryHDU.new)))
      by (vm_compute; reflexivity).
    split; [exact Hload|].
    assert (Hran : PrimaryHDU.Ran (Throw (EntryLengthError [])) <> PrimaryHDU.ReadRejected)
      by (intros Hno; discriminate Hno).
    exact (proj2 (load_once 1 (PrimaryHDU.Resolved no_end_file) _ _ _ Hload) Hran 3%nat
             (PrimaryHDU.Resolved two_unit_file)).
Defined.

Lemma getNextStructure_new (this : FitsStructure.t) (next : FitsStructure.t) :
  fst (FitsStructure.getNextStructure this) = Normal (Some next) ->
  exists view, next = FitsStructure.new view.
Proof.
  unfold FitsStructure.getNextStructure. unfold_M.
  destruct (FitsStructure.getNumStructureBytes this) as [[nextStart| |] this']; cbn [fst];
    try discriminate.
  destruct (num_gt _ _); cbn [fst]; [|discriminate].
  intros Hnext. injection Hnext as <-. eauto.
Qed.

Lemma preserves_getNextStructure : preserves FitsStructure.getNextStructure.
Proof.
  pose proof preserves_getNumHeaderBlocks. pose proof preserves_getNumDataBlocks.
  unfold FitsStructure.getNextStructure, FitsStructure.getNumStructureBytes,
    FitsStructure.getNumStructureBlocks.
  repeat preserves_step.
Qed.

Lemma scans_first_getNextStructure : scans_first FitsStructure.getNextStructure.
Proof.
  unfold FitsStructure.getNextStructure, FitsStructure.getNumStructureBytes,
    FitsStructure.getNumStructureBlocks.
  do 3 apply scans_first_bind. apply scans_first_getNumHeaderBlocks.
Qed.

(** A unit that gave its successor, or the lack of one, has its header
    cached. *)
Lemma scanned_cached (view : Buffer) (next : option FitsStructure.t) :
  fst (FitsStructure.getNextStructure (FitsStructure.new view)) = Normal next ->
  is_Some (FitsStructure.rawHeaders (scanned view))
  /\ FitsStructure.rawData (scanned view) = view
  /\ FitsStructure.getNextStructure (scanned view) = (Normal next, scanned view).
Proof.
  intros Hnext. unfold scanned.
  destruct (FitsStructure.getRawHeaders (FitsStructure.new view)) as [[raw|e|] this] eqn:Hscan.
  - destruct (scan_result view raw this Hscan) as [Hraw Hdata].
    rewrite (scans_first_getNextStructure view raw this Hscan) in *.
    rewrite (preserves_getNextStructure this raw Hraw).
    split; [rewrite Hraw; eauto|]. split; [exact Hdata|].
    apply (preserves_result _ this raw _ preserves_getNextStructure Hraw Hnext).
  - unfold FitsStructure.getNextStructure, FitsStructure.getNumStructureBytes,
      FitsStructure.getNumStructureBlocks, FitsStructure.getNumHeaderBlocks,
      mbind, M_bind, bind in Hnext.
    rewrite Hscan in Hnext. discriminate.
  - unfold FitsStructure.getNextStructure, FitsStructure.getNumStructureBytes,
      FitsStructure.getNumStructureBlocks, FitsStructure.getNumHeaderBlocks,
      mbind, M_bind, bind in Hnext.
    rewrite Hscan in Hnext. discriminate.
Qed.

Lemma load_loop_chain :
  forall (fuel : nat) (view : Buffer) (this this' : PrimaryHDU.t),
    PrimaryHDU.load_loop fuel (Some (FitsStructure.new view)) this = (Normal tt, this') ->
    exists views,
      PrimaryHDU.hdu this' = PrimaryHDU.hdu this
      /\ PrimaryHDU.structures this'
         = Some (PrimaryHDU.structures_of this ++ map scanned (view :: views))
      /\ successors view views.
Proof.
  induction fuel as [|fuel IH]; intros view this this' Hrun; [discriminate|].
  cbn [PrimaryHDU.load_loop] in Hrun.
  pose proof (getNextStructure_new (FitsStructure.new view)) as Hnew.
  unfold scanned at 1. cbn [map].
  destruct (FitsStructure.getNextStructure (FitsStructure.new view))
    as [[[next|]| |] unit'] eqn:Hnext; try discriminate.
  - destruct (Hnew next eq_refl) as [view' ->].
    destruct (IH view' _ this' Hrun) as (views & Hhdu & Hstructures & Hchain).
    exists (view' :: views). split; [exact Hhdu|]. split.
    + rewrite Hstructures. cbn [PrimaryHDU.structures_of PrimaryHDU.structures map snd].
      rewrite <- app_assoc. reflexivity.
    + cbn [successors]. rewrite Hnext. split; [reflexivity|exact Hchain].
  - rewrite load_loop_done in Hrun. injection Hrun as <-.
    exists []. split; [reflexivity|]. split; [reflexivity|].
    cbn [successors]. rewrite Hnext. reflexivity.
Qed.

Lemma load_stores (fuel : nat) (file : Buffer) (this : PrimaryHDU.t) :
  PrimaryHDU.load fuel file PrimaryHDU.new = (Normal tt, this) ->
  exists views,
    PrimaryHDU.hdu this = Some (scanned file)
    /\ PrimaryHDU.structures this = Some (map scanned views)
    /\ successors file views.
Proof.
  intros Hload. unfold PrimaryHDU.load in Hload. cbn [PrimaryHDU.hdu PrimaryHDU.new] in Hload.
  pose proof (getNextStructure_new (FitsStructure.new file)) as Hnew.
  fold (scanned file) in Hload.
  destruct (FitsStructure.getNextStructure (FitsStructure.new file))
    as [[[next|]| |] primary] eqn:Hnext; try discriminate.
  - destruct (Hnew next eq_refl) as [view ->].
    destruct (load_loop_chain fuel view _ this Hload) as (views & Hhdu & Hstructures & Hchain).
    cbn [PrimaryHDU.hdu PrimaryHDU.structures_of PrimaryHDU.structures app] in *.
    assert (Hprimary : primary = scanned file) by (unfold scanned; rewrite Hnext; reflexivity).
    exists (view :: views).
    split; [rewrite Hhdu, Hprimary; reflexivity|]. split; [exact Hstructures|].
    cbn [successors]. rewrite Hnext. split; [reflexivity|exact Hchain].
  - rewrite load_loop_done in Hload. injection Hload as <-.
    assert (Hprimary : primary = scanned file) by (unfold scanned; rewrite Hnext; reflexivity).
    exists []. cbn [PrimaryHDU.hdu PrimaryHDU.structures map].
    split; [rewrite Hprimary; reflexivity|]. split; [reflexivity|].
    cbn [successors]. rewrite Hnext. reflexivity.
Qed.

Lemma successors_cached (views : list Buffer) :
  forall view,
    successors view views ->
    Forall (fun structure => is_Some (FitsStructure.rawHeaders structure))
      (map scanned (view :: views))
    /\ map FitsStructure.rawData (map scanned (view :: views)) = view :: views.
Proof.
  induction views as [|next views IHviews]; intros view Hchain; cbn [successors] in Hchain.
  - destruct (scanned_cached view None Hchain) as (Hraw & Hdata & _).
    cbn [map]. split; [repeat constructor; exact Hraw|]. rewrite Hdata. reflexivity.
  - destruct Hchain as [Hnext Hchain].
    destruct (scanned_cached view _ Hnext) as (Hraw & Hdata & _).
    destruct (IHviews next Hchain) as [Hall Hviews].
    cbn [map] in *. split; [constructor; assumption|]. rewrite Hdata, Hviews. reflexivity.
Qed.

(** X22. After a successful [load], [hdu] is the unit on the whole file
    and [structures] are the units on the successive successor views of
    it, in order, up to the one that has no successor; the primary unit is
    not among them; every unit stored has its header cached and is still
    on its own view. *)
Theorem load_chain (fuel : nat) (file : Buffer) (this : PrimaryHDU.t) :
  PrimaryHDU.load fuel file PrimaryHDU.new = (Normal tt, this) ->
  exists views,
    PrimaryHDU.hdu this = Some (scanned file)
    /\ PrimaryHDU.structures this = Some (map scanned views)
    /\ successors file views
    /\ Forall (fun structure => is_Some (FitsStructure.rawHeaders structure))
         (scanned file :: map scanned views)
    /\ map FitsStructure.rawData (map scanned views) = views.
Proof.
  intros Hload.
  destruct (load_stores fuel file this Hload) as (views & Hhdu & Hstructures & Hchain).
  destruct (successors_cached views file Hchain) as [Hall Hviews].
  exists views. split; [exact Hhdu|]. split; [exact Hstructures|]. split; [exact Hchain|].
  split; [exact Hall|]. exact (f_equal (drop 1) Hviews).
Qed.

Lemma load_chain_witness :
  let this := loaded two_unit_file in
  PrimaryHDU.load 2 two_unit_file PrimaryHDU.new = (Normal tt, this)
  /\ exists views,
       PrimaryHDU.hdu this = Some (scanned two_unit_file)
       /\ PrimaryHDU.structures this = Some (map scanned views)
       /\ successors two_unit_file views
       /\ Forall (fun structure => is_Some (FitsStructure.rawHeaders structure))
            (scanned two_unit_file :: map scanned views)
       /\ map FitsStructure.rawData (map scanned views) = views.
Proof.
  cbv zeta.
  assert (Hload : PrimaryHDU.load 2 two_unit_file PrimaryHDU.new
                  = (Normal tt, loaded two_unit_file))
    by (vm_compute; reflexivity).
  split; [exact Hload|].
  exact (load_chain 2 two_unit_file _ Hload).
Defined.

(** ** The successor of a unit *)

Lemma getNumDataBlocks_numAxis (this : FitsStructure.t) (d : num) :
  fst (FitsStructure.getNumDataBlocks this) = Normal d ->
  exists n, fst (FitsStructure.numAxis this) = Normal n.
Proof.
  intros Hd.
  unfold FitsStructure.getNumDataBlocks, FitsStructure.getDataSize, mbind, M_bind, bind in Hd.
  destruct (FitsStructure.numAxis this) as [[n| |] s]; try discriminate Hd.
  exists n. reflexivity.
Qed.

(** X23. The successor of a unit with h header blocks and d data blocks
    (h + d not negative) is the new unit on the view that starts at byte
    (h + d) * 2880 of this unit's view; there is none when the view ends
    at or before that byte. *)
Theorem getNextStructure_successor (this : FitsStructure.t) (h d : Z) :
  ready this ->
  fst (FitsStructure.getNumHeaderBlocks this) = Normal (Int h) ->
  fst (FitsStructure.getNumDataBlocks this) = Normal (Int d) ->
  0 <= h + d ->
  fst (FitsStructure.getNextStructure this)
  = Normal (if (h + d) * 2880 <? Z.of_nat (length (FitsStructure.rawData this))
            then Some (FitsStructure.new
                         (drop (Z.to_nat ((h + d) * 2880)) (FitsStructure.rawData this)))
            else None).
Proof.
  intros Hready Hh Hd Hsum.
  destruct (getNumDataBlocks_numAxis this _ Hd) as [n Haxis].
  destruct (ready_settle this n Hready Haxis) as (raw & this' & Hraw & Hdata & Hsame).
  rewrite (Hsame _ _ scans_first_getNumHeaderBlocks) in Hh.
  rewrite (Hsame _ _ scans_first_getNumDataBlocks) in Hd.
  rewrite (Hsame _ _ scans_first_getNextStructure), <- Hdata.
  apply (preserves_result _ this' raw _ preserves_getNumHeaderBlocks Hraw) in Hh.
  apply (preserves_result _ this' raw _ preserves_getNumDataBlocks Hraw) in Hd.
  unfold FitsStructure.getNextStructure, FitsStructure.getNumStructureBytes,
    FitsStructure.getNumStructureBlocks, mbind, M_bind, bind.
  rewrite Hh, Hd. unfold_M. cbn [num_add num_mul num_gt num_lt buffer_length].
  unfold FitsStructure.BLOCK_SIZE.
  destruct (Z.ltb_spec ((h + d) * 2880) (Z.of_nat (length (FitsStructure.rawData this'))));
    [|reflexivity].
  cbn [fst]. do 3 f_equal. unfold subarray, adjustOffset.
  destruct (Z.ltb_spec ((h + d) * 2880) 0); [lia|].
  rewrite Z.min_l by lia. apply take_ge. rewrite length_drop. lia.
Qed.

Lemma getNextStructure_successor_witness :
  let this := FitsStructure.new two_unit_file in
  ready this
  /\ fst (FitsStructure.getNumHeaderBlocks this) = Normal (Int 1)
  /\ fst (FitsStructure.getNumDataBlocks this) = Normal (Int 0)
  /\ 0 <= 1 + 0
  /\ fst (FitsStructure.getNextStructure this)
     = Normal (Some (FitsStructure.new (drop 2880 two_unit_file))).
Proof.
  cbv zeta.
  assert (Hh : fst (FitsStructure.getNumHeaderBlocks (FitsStructure.new two_unit_file))
               = Normal (Int 1))
    by (vm_compute; reflexivity).
  assert (Hd : fst (FitsStructure.getNumDataBlocks (FitsStructure.new two_unit_file))
               = Normal (Int 0))
    by (vm_compute; reflexivity).
  split; [apply ready_new|]. split; [exact Hh|]. split; [exact Hd|]. split; [lia|].
  rewrite (getNextStructure_successor _ 1 0 (ready_new _) Hh Hd ltac:(lia)).
  vm_compute. reflexivity.
Defined.


(** ** A view shorter than a block *)

Lemma scan_needs_block (data : Buffer) (raw : list jsstring) (this : FitsStructure.t) :
  FitsStructure.getRawHeaders (FitsStructure.new data) = (Normal raw, this) ->
  (2880 <= length data)%nat.
Proof.
  intros Hscan.
  destruct (scan_content data raw this Hscan) as (b & Hraw & Hall & _).
  assert (Hlast : length (recordAt data 35) = 80%nat).
  { rewrite Hraw in Hall. rewrite Forall_forall in Hall. apply Hall.
    apply list_elem_of_In, in_map, in_seq. lia. }
  apply recordAt_full in Hlast. lia.
Qed.

Lemma getNumDataBlocks_needs_block (data : Buffer) (d : num) :
  fst (FitsStructure.getNumDataBlocks (FitsStructure.new data)) = Normal d ->
  (2880 <= length data)%nat.
Proof.
  intros Hd.
  assert (Haxis : exists n, fst (FitsStructure.numAxis (FitsStructure.new data)) = Normal n).
  { unfold FitsStructure.getNumDataBlocks, FitsStructure.getDataSize, mbind, M_bind, bind in Hd.
    destruct (FitsStructure.numAxis (FitsStructure.new data)) as [[n| |] s];
      try discriminate Hd.
    exists n. reflexivity. }
  destruct Haxis as [n Haxis].
  destruct (numAxis_needs_scan data n Haxis) as (raw & this & Hscan).
  exact (scan_needs_block data raw this Hscan).
Qed.

(** ** The image structures *)

Section ImageStructures.
Context `{Runtime}.

Lemma isImage_cached (structure : FitsStructure.t) (raw : list jsstring) :
  FitsStructure.rawHeaders structure = Some raw ->
  FitsStructure.isImage structure
  = (match isImageOf structure with
     | Some b => Normal (inr b)
     | None => Throw (KeyNotFoundError (str "XTENSION"))
     end, structure).
Proof.
  intros Hraw. unfold FitsStructure.isImage, isImageOf, mbind, M_bind, bind.
  rewrite (getMetadataValue_of_map structure structure (FitsStructure.headers structure))
    by (apply (getHeaderMap_cached structure raw Hraw)).
  destruct (FitsStructure.headers structure !! str "XTENSION") as [[|c xtension]|];
    reflexivity.
Qed.

Lemma filter_isImage_all (rest : list FitsStructure.t) :
  forall (visited : list FitsStructure.t) (kept : list nat),
    Forall (fun structure => is_Some (FitsStructure.rawHeaders structure)) rest ->
    Forall (fun structure => is_Some (isImageOf structure)) rest ->
    Layers.filter_isImage visited rest kept
    = (Normal (kept ++ map (fun j => (length visited + j)%nat)
                         (positions (fun structure =>
                                       bool_decide (isImageOf structure = Some true)) rest)),
       visited ++ rest).
Proof.
  induction rest as [|structure rest IH]; intros visited kept Hcached Himage.
  - cbn. rewrite !app_nil_r. reflexivity.
  - apply Forall_cons in Hcached. destruct Hcached as [[raw Hraw] Hcached].
    apply Forall_cons in Himage. destruct Himage as [[b Hb] Himage].
    cbn [Layers.filter_isImage positions]. rewrite (isImage_cached structure raw Hraw), Hb.
    rewrite (IH _ _ Hcached Himage).
    assert (Hshift : forall ps,
               map (fun j => (length (visited ++ [structure]) + j)%nat) ps
               = map (fun j => (length visited + j)%nat) (map S ps)).
    { intros ps. rewrite map_map. apply map_ext. intros j. rewrite length_app. cbn. lia. }
    rewrite Hshift, map_app, <- (app_assoc visited [structure] rest). cbn [app].
    destruct b; cbn [Layers.truthy].
    + rewrite bool_decide_eq_true_2 by reflexivity. cbn [map].
      rewrite Nat.add_0_r, <- app_assoc. reflexivity.
    + rewrite bool_decide_eq_false_2 by discriminate. reflexivity.
Qed.

Lemma filter_isImage_throws (before : list FitsStructure.t) (bare : FitsStructure.t)
    (after : list FitsStructure.t) :
  forall (visited : list FitsStructure.t) (kept : list nat),
    Forall (fun structure => is_Some (FitsStructure.rawHeaders structure)) before ->
    Forall (fun structure => is_Some (isImageOf structure)) before ->
    is_Some (FitsStructure.rawHeaders bare) ->
    isImageOf bare = None ->
    Layers.filter_isImage visited (before ++ bare :: after) kept
    = (Throw (KeyNotFoundError (str "XTENSION")), visited ++ before ++ bare :: after).
Proof.
  induction before as [|structure before IH]; intros visited kept Hcached Himage [raw Hraw] Hbare.
  - cbn [app Layers.filter_isImage]. rewrite (isImage_cached bare raw Hraw), Hbare.
    reflexivity.
  - apply Forall_cons in Hcached. destruct Hcached as [[raw' Hraw'] Hcached].
    apply Forall_cons in Himage. destruct Himage as [[b Hb] Himage].
    cbn [app Layers.filter_isImage]. rewrite (isImage_cached structure raw' Hraw'), Hb.
    rewrite (IH _ _ Hcached Himage (ex_intro _ raw Hraw) Hbare).
    rewrite <- !app_assoc. reflexivity.
Qed.

Lemma objects_positions (test : FitsStructure.t -> bool) (rest : list FitsStructure.t) :
  forall visited : list FitsStructure.t,
    Layers.objects (map (fun j => (length visited + j)%nat) (positions test rest))
      (visited ++ rest)
    = filter (fun structure => test structure = true) rest.
Proof.
  unfold Layers.objects.
  induction rest as [|structure rest IH]; intros visited; [reflexivity|].
  cbn [positions]. rewrite map_app, omap_app, filter_cons, map_map.
  assert (Htail : omap (fun i => (visited ++ structure :: rest) !! i)
                    (map (fun j => (length visited + S j)%nat) (positions test rest))
                  = filter (fun structure => test structure = true) rest).
  { rewrite <- (IH (visited ++ [structure])). rewrite <- app_assoc. cbn [app].
    f_equal. apply map_ext. intros j. rewrite length_app. cbn [length]. lia. }
  rewrite Htail. destruct (test structure) eqn:Htest.
  - rewrite decide_True by reflexivity. cbn [map omap list_omap]. rewrite Nat.add_0_r.
    rewrite lookup_app_r, Nat.sub_diag by lia. reflexivity.
  - rewrite decide_False by discriminate. reflexivity.
Qed.

Lemma filter_bool_decide (structures : list FitsStructure.t) :
  filter (fun structure => bool_decide (isImageOf structure = Some true) = true) structures
  = filter (fun structure => isImageOf structure = Some true) structures.
Proof.
  induction structures as [|structure structures IH]; [reflexivity|].
  rewrite !filter_cons, IH.
  destruct (decide (isImageOf structure = Some true)) as [Himage | Himage].
  - rewrite decide_True by (apply bool_decide_eq_true_2; exact Himage). reflexivity.
  - rewrite decide_False; [reflexivity|].
    rewrite bool_decide_eq_false_2 by exact Himage. discriminate.
Qed.

(** X24. When every stored structure has a non-empty XTENSION value,
    [getImageStructures] returns those whose value, in lower case,
    contains "image", in the order of [structures] and without changing
    them; a second call returns the same list from [images]. *)
Theorem getImageStructures_filter (this : Layers.t) (structures : list FitsStructure.t) :
  Layers.images this = None ->
  PrimaryHDU.structures (Layers.units this) = Some structures ->
  Forall (fun structure => is_Some (FitsStructure.rawHeaders structure)) structures ->
  Forall (fun structure => is_Some (isImageOf structure)) structures ->
  exists this',
    Layers.getImageStructures this
    = (Normal (filter (fun structure => isImageOf structure = Some true) structures), this')
    /\ Layers.units this' = Layers.units this
    /\ Layers.getImageStructures this'
       = (Normal (filter (fun structure => isImageOf structure = Some true) structures), this').
Proof.
  intros Hnone Hstructures Hcached Himage.
  pose proof (filter_isImage_all structures [] [] Hcached Himage) as Hfilter.
  pose proof (objects_positions
                (fun structure => bool_decide (isImageOf structure = Some true))
                structures []) as Hobjects.
  cbn [app length Nat.add] in Hfilter, Hobjects.
  rewrite filter_bool_decide in Hobjects.
  assert (Hunits : Layers.units this
                   = PrimaryHDU.mk (PrimaryHDU.hdu (Layers.units this)) (Some structures)).
  { destruct (Layers.units this) as [hdu s]. cbn in *. congruence. }
  eexists. split; [|split].
  - unfold Layers.getImageStructures, Layers.getStructures, PrimaryHDU.getStructures.
    unfold_M. rewrite Hnone, Hstructures. cbn [fst]. rewrite Hfilter. cbn [fst snd].
    rewrite Hobjects. reflexivity.
  - cbn. symmetry. exact Hunits.
  - unfold Layers.getImageStructures. unfold_M. cbn.
    rewrite Hobjects. reflexivity.
Qed.

(** X25. One stored structure without an XTENSION value makes
    [getImageStructures] throw the missing-key error instead of leaving
    that structure out; [images] stays undefined, so every later call
    throws again. *)
Theorem getImageStructures_missing_XTENSION (this : Layers.t)
    (before after : list FitsStructure.t) (bare : FitsStructure.t) :
  Layers.images this = None ->
  PrimaryHDU.structures (Layers.units this) = Some (before ++ bare :: after) ->
  Forall (fun structure => is_Some (FitsStructure.rawHeaders structure)) before ->
  Forall (fun structure => is_Some (isImageOf structure)) before ->
  is_Some (FitsStructure.rawHeaders bare) ->
  isImageOf bare = None ->
  exists this',
    Layers.getImageStructures this = (Throw (KeyNotFoundError (str "XTENSION")), this')
    /\ Layers.images this' = None
    /\ Layers.getImageStructures this' = (Throw (KeyNotFoundError (str "XTENSION")), this').
Proof.
  intros Hnone Hstructures Hcached Himage Hraw Hbare.
  pose proof (filter_isImage_throws before bare after [] [] Hcached Himage Hraw Hbare)
    as Hfilter.
  cbn [app] in Hfilter.
  eexists. split; [|split].
  - unfold Layers.getImageStructures, Layers.getStructures, PrimaryHDU.getStructures.
    unfold_M. rewrite Hnone, Hstructures. cbn [fst]. rewrite Hfilter. cbn [fst snd].
    reflexivity.
  - cbn. exact Hnone.
  - unfold Layers.getImageStructures, Layers.getStructures, PrimaryHDU.getStructures.
    unfold_M. unfold Layers.set_structures.
    cbn [Layers.images Layers.units PrimaryHDU.structures fst snd].
    rewrite Hnone. cbv beta. cbn [Layers.units PrimaryHDU.structures fst snd].
    rewrite Hfilter. reflexivity.
Qed.

End ImageStructures.

Lemma getImageStructures_filter_witness :
  let this := loaded_layers 2 two_unit_file in
  let structures := [image_unit_scanned two_unit_file] in
  Layers.images this = None
  /\ PrimaryHDU.structures (Layers.units this) = Some structures
  /\ Forall (fun structure => is_Some (FitsStructure.rawHeaders structure)) structures
  /\ Forall (fun structure => is_Some (@isImageOf Samples.runtime structure)) structures
  /\ filter (fun structure => @isImageOf Samples.runtime structure = Some true) structures
     = structures
  /\ exists this',
       @Layers.getImageStructures Samples.runtime this = (Normal structures, this')
       /\ Layers.units this' = Layers.units this
       /\ @Layers.getImageStructures Samples.runtime this' = (Normal structures, this').
Proof.
  cbv zeta.
  assert (Hnone : Layers.images (loaded_layers 2 two_unit_file) = None)
    by (vm_compute; reflexivity).
  assert (Hstructures : PrimaryHDU.structures (Layers.units (loaded_layers 2 two_unit_file))
                        = Some [image_unit_scanned two_unit_file])
    by (vm_compute; reflexivity).
  assert (Hcached : Forall (fun structure => is_Some (FitsStructure.rawHeaders structure))
                      [image_unit_scanned two_unit_file]).
  { repeat constructor.
    exists (map (recordAt (drop 2880 two_unit_file)) (seq 0 36)). vm_compute. reflexivity. }
  assert (Himage : Forall (fun structure => is_Some (@isImageOf Samples.runtime structure))
                     [image_unit_scanned two_unit_file]).
  { repeat constructor. exists true. vm_compute. reflexivity. }
  assert (Hfilter : filter (fun structure => @isImageOf Samples.runtime structure = Some true)
                      [image_unit_scanned two_unit_file]
                    = [image_unit_scanned two_unit_file]).
  { rewrite filter_cons, filter_nil. rewrite decide_True; [reflexivity|].
    vm_compute. reflexivity. }
  split; [exact Hnone|]. split; [exact Hstructures|]. split; [exact Hcached|].
  split; [exact Himage|]. split; [exact Hfilter|].
  destruct (@getImageStructures_filter Samples.runtime _ _ Hnone Hstructures Hcached Himage)
    as (this' & Hfirst & Hunits & Hsecond).
  rewrite Hfilter in Hfirst, Hsecond.
  exists this'. split; [exact Hfirst|]. split; [exact Hunits|exact Hsecond].
Defined.

Lemma getImageStructures_missing_XTENSION_witness :
  let this := loaded_layers 2 bare_extension_file in
  let bare := scanned primary_header in
  Layers.images this = None
  /\ PrimaryHDU.structures (Layers.units this) = Some ([] ++ bare :: [])
  /\ is_Some (FitsStructure.rawHeaders bare)
  /\ @isImageOf Samples.runtime bare = None
  /\ exists this',
       @Layers.getImageStructures Samples.runtime this
       = (Throw (KeyNotFoundError (str "XTENSION")), this')
       /\ Layers.images this' = None
       /\ @Layers.getImageStructures Samples.runtime this'
          = (Throw (KeyNotFoundError (str "XTENSION")), this').
Proof.
  cbv zeta.
  assert (Hnone : Layers.images (loaded_layers 2 bare_extension_file) = None)
    by (vm_compute; reflexivity).
  assert (Hstructures : PrimaryHDU.structures
                          (Layers.units (loaded_layers 2 bare_extension_file))
                        = Some ([] ++ scanned primary_header :: []))
    by (vm_compute; reflexivity).
  assert (Hraw : is_Some (FitsStructure.rawHeaders (scanned primary_header))).
  { exists (map (recordAt primary_header) (seq 0 36)). vm_compute. reflexivity. }
  assert (Hbare : @isImageOf Samples.runtime (scanned primary_header) = None)
    by (vm_compute; reflexivity).
  split; [exact Hnone|]. split; [exact Hstructures|]. split; [exact Hraw|].
  split; [exact Hbare|].
  exact (@getImageStructures_missing_XTENSION Samples.runtime _ [] [] _ Hnone Hstructures
           (Forall_nil_2 _) (Forall_nil_2 _) Hraw Hbare).
Defined.

(** ** Layers *)

Section LayerMethods.
Context `{Runtime}.

Lemma onStructure_cached {A : Type} (method : M FitsStructure.t A) (layerNum : nat)
    (this : Layers.t) (structures : list FitsStructure.t) (structure : FitsStructure.t)
    (result : completion A) :
  PrimaryHDU.structures (Layers.units this) = Some structures ->
  structures !! layerNum = Some structure ->
  method structure = (result, structure) ->
  Layers.onStructure layerNum method this = (result, Layers.set_structures structures this).
Proof.
  intros Hstructures Hlookup Hmethod.
  unfold Layers.onStructure, Layers.getStructures, PrimaryHDU.getStructures. unfold_M.
  rewrite Hstructures. cbn [fst]. rewrite Hlookup, Hmethod.
  rewrite (list_insert_id _ _ _ Hlookup). destruct result; reflexivity.
Qed.

Lemma onStructure_undefined {A : Type} (method : M FitsStructure.t A) (layerNum : nat)
    (this : Layers.t) (structures : list FitsStructure.t) :
  PrimaryHDU.structures (Layers.units this) = Some structures ->
  (length structures <= layerNum)%nat ->
  Layers.onStructure layerNum method this = (Throw TypeError, this).
Proof.
  intros Hstructures Hlen.
  unfold Layers.onStructure, Layers.getStructures, PrimaryHDU.getStructures. unfold_M.
  rewrite Hstructures. cbn [fst]. rewrite (lookup_ge_None_2 _ _ Hlen). reflexivity.
Qed.

Lemma Math_min_max_nan (value : float) :
  Filter.Math_min (Filter.Math_max value nan) nan = nan.
Proof.
  unfold Filter.Math_min. change (is_nan nan) with true. rewrite orb_true_r. reflexivity.
Qed.

Lemma filterEach_constant (filter : Filter.t) (c : float) (data : list float) :
  (forall value, filter value = Normal c) ->
  forall filtered,
    Layers.filterEach filter data filtered = Normal (filtered ++ map (fun _ => c) data).
Proof.
  intros Hfilter. induction data as [|value data IH]; intros filtered.
  - cbn. rewrite app_nil_r. reflexivity.
  - cbn [Layers.filterEach map]. rewrite Hfilter. cbn [mbind completion_bind].
    rewrite IH, <- app_assoc. reflexivity.
Qed.

(** X26. With the default filter, [filterLayer] on a layer with an odd
    number of samples returns NaN for every sample: the median is
    undefined there, so both bounds of the clamp are NaN. *)
Theorem filterLayer_odd_count (this : Layers.t) (layerNum : nat)
    (structures : list FitsStructure.t) (structure : FitsStructure.t)
    (raw : list jsstring) (data : list float) :
  PrimaryHDU.structures (Layers.units this) = Some structures ->
  structures !! layerNum = Some structure ->
  FitsStructure.rawHeaders structure = Some raw ->
  fst (FitsStructure.getDataValues structure) = Normal data ->
  Nat.odd (length data) = true ->
  fst (Layers.filterLayer layerNum None this) = Normal (map (fun _ => nan) data).
Proof.
  intros Hstructures Hlookup Hraw Hdata Hodd.
  apply (preserves_result _ structure raw _ preserves_getDataValues Hraw) in Hdata.
  assert (Hmedian : FitsStructure.median (FitsStructure.dataStats data) = None).
  { destruct (dataStats_fields data) as (-> & _ & _).
    unfold FitsStructure.index_half.
    rewrite (Permutation_length (Array_sort_Permutation data)), <- Nat.negb_odd, Hodd.
    reflexivity. }
  assert (Hfilter : exists filter,
             Filter.basicFilter structure = (Normal filter, structure)
             /\ forall value, filter value = Normal nan).
  { unfold Filter.basicFilter, FitsStructure.getDataStats, mbind, M_bind, bind.
    rewrite Hdata. unfold_M. eexists. split; [reflexivity|].
    intros value. cbv beta. rewrite Hmedian. cbn [Filter.plus Filter.minus].
    rewrite Math_min_max_nan. reflexivity. }
  destruct Hfilter as (filter & Hbasic & Hconstant).
  unfold Layers.filterLayer, mbind, M_bind, bind.
  rewrite (onStructure_cached _ layerNum this structures structure _
             Hstructures Hlookup Hbasic).
  rewrite (onStructure_cached _ layerNum (Layers.set_structures structures this) structures
             structure _ eq_refl Hlookup Hdata).
  unfold lift. cbn [fst]. rewrite (filterEach_constant filter nan data Hconstant).
  reflexivity.
Qed.

Lemma scanned_is_scan (view : Buffer) (next : option FitsStructure.t) :
  fst (FitsStructure.getNextStructure (FitsStructure.new view)) = Normal next ->
  exists raw, FitsStructure.getRawHeaders (FitsStructure.new view) = (Normal raw, scanned view).
Proof.
  intros Hnext. unfold scanned.
  destruct (FitsStructure.getRawHeaders (FitsStructure.new view)) as [[raw|e|] this] eqn:Hscan.
  - destruct (scan_result view raw this Hscan) as [Hraw Hdata].
    rewrite (scans_first_getNextStructure view raw this Hscan).
    rewrite (preserves_getNextStructure this raw Hraw). eauto.
  - unfold FitsStructure.getNextStructure, FitsStructure.getNumStructureBytes,
      FitsStructure.getNumStructureBlocks, FitsStructure.getNumHeaderBlocks,
      mbind, M_bind, bind in Hnext.
    rewrite Hscan in Hnext. discriminate.
  - unfold FitsStructure.getNextStructure, FitsStructure.getNumStructureBytes,
      FitsStructure.getNumStructureBlocks, FitsStructure.getNumHeaderBlocks,
      mbind, M_bind, bind in Hnext.
    rewrite Hscan in Hnext. discriminate.
Qed.

Lemma successors_lookup (views : list Buffer) :
  forall (view : Buffer) (k : nat) (layer : Buffer),
    successors view views -> views !! k = Some layer ->
    exists next, fst (FitsStructure.getNextStructure (FitsStructure.new layer)) = Normal next.
Proof.
  induction views as [|next views IH]; intros view k layer Hchain Hlookup; [discriminate|].
  cbn [successors] in Hchain. destruct Hchain as [_ Hchain].
  destruct k as [|k].
  - injection Hlookup as <-. destruct views; cbn [successors] in Hchain.
    + eauto.
    + destruct Hchain as [Hnext _]. eauto.
  - exact (IH next k layer Hchain Hlookup).
Qed.

(** X27. After a successful [load], layer k of [getLayerStats] is the
    k-th successor of the primary unit, counted from 0: the result is what
    [getDataStats] gives on a new unit over that view, so the data of the
    primary unit are out of reach; a layer number past the last unit
    throws the TypeError of a call on undefined and caches nothing. *)
Theorem getLayerStats_of_successor (fuel : nat) (file : Buffer) (this : Layers.t) :
  Layers.load fuel file Layers.new = (Normal tt, this) ->
  exists views,
    successors file views
    /\ (forall (k : nat) (layer : Buffer),
          views !! k = Some layer ->
          fst (Layers.getLayerStats k this)
          = fst (FitsStructure.getDataStats (FitsStructure.new layer)))
    /\ (forall k : nat,
          (length views <= k)%nat ->
          Layers.getLayerStats k this = (Throw TypeError, this)).
Proof.
  intros Hload. unfold Layers.load in Hload. cbn [Layers.units Layers.new] in Hload.
  destruct (PrimaryHDU.load fuel file PrimaryHDU.new) as [result units'] eqn:Hunits.
  injection Hload as -> <-.
  destruct (load_stores fuel file units' Hunits) as (views & _ & Hstructures & Hchain).
  exists views. split; [exact Hchain|]. split.
  - intros k layer Hlookup.
    destruct (successors_lookup views file k layer Hchain Hlookup) as [next Hnext].
    destruct (scanned_is_scan layer next Hnext) as [raw Hscan].
    destruct (scan_result layer raw _ Hscan) as [Hraw _].
    assert (Hfirst : scans_first FitsStructure.getDataStats)
      by (apply scans_first_bind, scans_first_getDataValues).
    rewrite (Hfirst layer raw _ Hscan).
    assert (Hkeep : preserves FitsStructure.getDataStats).
    { pose proof preserves_getDataValues. unfold FitsStructure.getDataStats.
      repeat preserves_step. }
    pose proof (preserves_run _ _ raw Hkeep Hraw) as Hstats.
    unfold Layers.getLayerStats. unfold mbind, M_bind, bind, gets.
    cbn [Layers.stats]. rewrite lookup_empty.
    assert (Hlayer : map scanned views !! k = Some (scanned layer))
      by (rewrite list_lookup_fmap, Hlookup; reflexivity).
    match goal with
    | |- context [Layers.onStructure k _ ?state] =>
        rewrite (onStructure_cached _ k state (map scanned views) (scanned layer) _
                   Hstructures Hlayer Hstats)
    end.
    destruct (fst (FitsStructure.getDataStats (scanned layer))); reflexivity.
  - intros k Hlen.
    unfold Layers.getLayerStats. unfold mbind, M_bind, bind, gets.
    cbn [Layers.stats]. rewrite lookup_empty.
    match goal with
    | |- context [Layers.onStructure k _ ?state] =>
        rewrite (onStructure_undefined _ k state (map scanned views) Hstructures)
          by (rewrite length_map; exact Hlen)
    end.
    reflexivity.
Qed.

End LayerMethods.

Lemma filterLayer_odd_count_witness :
  let this := loaded_layers 2 five_samples_layer_file in
  let structure := scanned five_samples_file in
  let raw := map (recordAt five_samples_file) (seq 0 36) in
  let data := [1; 2; 3; 4; 5]%float in
  PrimaryHDU.structures (Layers.units this) = Some [structure]
  /\ [structure] !! 0%nat = Some structure
  /\ FitsStructure.rawHeaders structure = Some raw
  /\ fst (FitsStructure.getDataValues structure) = Normal data
  /\ Nat.odd (length data) = true
  /\ fst (@Layers.filterLayer Samples.runtime 0 None this) = Normal [nan; nan; nan; nan; nan].
Proof.
  cbv zeta.
  assert (Hstructures : PrimaryHDU.structures
                          (Layers.units (loaded_layers 2 five_samples_layer_file))
                        = Some [scanned five_samples_file])
    by (vm_compute; reflexivity).
  assert (Hraw : FitsStructure.rawHeaders (scanned five_samples_file)
                 = Some (map (recordAt five_samples_file) (seq 0 36)))
    by (vm_compute; reflexivity).
  assert (Hdata : fst (FitsStructure.getDataValues (scanned five_samples_file))
                  = Normal [1; 2; 3; 4; 5]%float)
    by (vm_compute; reflexivity).
  split; [exact Hstructures|]. split; [reflexivity|]. split; [exact Hraw|].
  split; [exact Hdata|]. split; [reflexivity|].
  exact (@filterLayer_odd_count Samples.runtime _ 0 _ _ _ _ Hstructures eq_refl Hraw Hdata
           eq_refl).
Defined.

Lemma getLayerStats_of_successor_witness :
  let this := loaded_layers 2 five_samples_layer_file in
  Layers.load 2 five_samples_layer_file Layers.new = (Normal tt, this)
  /\ exists views,
       successors five_samples_layer_file views
       /\ (forall (k : nat) (layer : Buffer),
             views !! k = Some layer ->
             fst (@Layers.getLayerStats Samples.runtime k this)
             = fst (@FitsStructure.getDataStats Samples.runtime (FitsStructure.new layer)))
       /\ (forall k : nat,
             (length views <= k)%nat ->
             @Layers.getLayerStats Samples.runtime k this = (Throw TypeError, this)).
Proof.
  cbv zeta.
  assert (Hload : Layers.load 2 five_samples_layer_file Layers.new
                  = (Normal tt, loaded_layers 2 five_samples_layer_file))
    by (vm_compute; reflexivity).
  split; [exact Hload|].
  exact (@getLayerStats_of_successor Samples.runtime 2 _ _ Hload).
Defined.

(** ** Statistics over the rows *)

Section RowStatistics.
Context `{Runtime}.

Lemma sort_insert_row_Permutation (row : list (option float))
    (sorted : list (list (option float))) :
  Layers.sort_insert_row row sorted ≡ₚ row :: sorted.
Proof.
  induction sorted as [|other rest IH]; [reflexivity|].
  cbn [Layers.sort_insert_row].
  destruct (FitsStructure.string_lt _ _); [reflexivity|].
  rewrite IH. apply Permutation_swap.
Qed.

Lemma sort_rows_fold_Permutation (data sorted : list (list (option float))) :
  foldl (fun sorted row => Layers.sort_insert_row row sorted) sorted data ≡ₚ sorted ++ data.
Proof.
  revert sorted. induction data as [|row data IH]; intros sorted.
  - rewrite app_nil_r. reflexivity.
  - cbn [foldl]. rewrite IH, sort_insert_row_Permutation.
    rewrite (Permutation_middle sorted data row). reflexivity.
Qed.

Lemma sort_rows_Permutation (data : list (list (option float))) :
  Layers.sort_rows data ≡ₚ data.
Proof. unfold Layers.sort_rows. apply sort_rows_fold_Permutation. Qed.

Lemma rowStats_cases (data : list (list (option float))) :
  (data = [] -> Layers.rowStats data = Throw TypeError)
  /\ (data <> [] ->
      exists s,
        Layers.rowStats data = Normal s
        /\ Layers.rows_median s
           = if Nat.even (length data)
             then Layers.sort_rows data !! (length data / 2)%nat else None).
Proof.
  pose proof (sort_rows_Permutation data) as Hperm.
  pose proof (Permutation_length Hperm) as Hlen.
  unfold Layers.rowStats. rewrite Hlen.
  destruct (foldl _ (Number_MAX_VALUE, Number_MIN_VALUE, 0%float) (Layers.sort_rows data))
    as [[lo hi] sum].
  destruct (Layers.sort_rows data) as [|first rest] eqn:Hsorted.
  - split; [reflexivity|]. intros Hne. destruct data; [contradiction|discriminate Hlen].
  - split.
    + intros ->. discriminate Hlen.
    + intros _. eexists. split; reflexivity.
Qed.

Lemma preserves_getDataValuesArray : preserves FitsStructure.getDataValuesArray.
Proof.
  pose proof (preserves_sizeAxis 1). pose proof (preserves_sizeAxis 2).
  pose proof preserves_getDataValues.
  unfold FitsStructure.getDataValuesArray. repeat preserves_step.
Qed.

(** X28. The version of [getLayerStats] over the two-dimensional array
    throws the TypeError of [data[0].length] for a layer without rows;
    for a layer with rows it returns, and its median is undefined for an
    odd number of rows and a whole row of the array for an even number. *)
Theorem getLayerStats_rows_median (this : Layers.t) (layerNum : nat)
    (structures : list FitsStructure.t) (structure : FitsStructure.t)
    (raw : list jsstring) (rows : list (list (option float))) :
  Layers.stats this !! layerNum = None ->
  PrimaryHDU.structures (Layers.units this) = Some structures ->
  structures !! layerNum = Some structure ->
  FitsStructure.rawHeaders structure = Some raw ->
  fst (FitsStructure.getDataValuesArray structure) = Normal rows ->
  (rows = [] -> fst (Layers.getLayerStats_rows layerNum this) = Throw TypeError)
  /\ (rows <> [] ->
      exists s,
        fst (Layers.getLayerStats_rows layerNum this) = Normal (inr s)
        /\ (Nat.odd (length rows) = true -> Layers.rows_median s = None)
        /\ (Nat.even (length rows) = true ->
            exists row, Layers.rows_median s = Some row /\ row ∈ rows)).
Proof.
  intros Hstats Hstructures Hlookup Hraw Hrows.
  apply (preserves_result _ structure raw _ preserves_getDataValuesArray Hraw) in Hrows.
  assert (Hrun : fst (Layers.getLayerStats_rows layerNum this)
                 = match Layers.rowStats rows with
                   | Normal s => Normal (inr s)
                   | Throw e => Throw e
                   | Diverge => Diverge
                   end).
  { unfold Layers.getLayerStats_rows. unfold mbind, M_bind, bind, gets. rewrite Hstats.
    rewrite (onStructure_cached _ layerNum this structures structure _
               Hstructures Hlookup Hrows).
    unfold lift. destruct (Layers.rowStats rows); reflexivity. }
  rewrite Hrun. destruct (rowStats_cases rows) as [Hempty Hsome].
  split.
  - intros Hnil. rewrite (Hempty Hnil). reflexivity.
  - intros Hne. destruct (Hsome Hne) as (s & -> & Hmedian).
    exists s. split; [reflexivity|]. rewrite Hmedian. split.
    + intros Hodd. rewrite <- Nat.negb_odd, Hodd. reflexivity.
    + intros Heven. rewrite Heven.
      pose proof (sort_rows_Permutation rows) as Hperm.
      assert (Hlt : (length rows / 2 < length (Layers.sort_rows rows))%nat).
      { rewrite (Permutation_length Hperm). destruct rows; [contradiction|].
        apply Nat.Div0.div_lt_upper_bound. cbn [length]. lia. }
      apply lookup_lt_is_Some_2 in Hlt. destruct Hlt as [row Hrow].
      exists row. split; [exact Hrow|].
      rewrite <- Hperm. eapply list_elem_of_lookup_2. exact Hrow.
Qed.

End RowStatistics.

Lemma getLayerStats_rows_median_witness :
  let this := loaded_layers 2 two_unit_file_cut in
  let structure := scanned (drop 2880 two_unit_file_cut) in
  let raw := map (recordAt (drop 2880 two_unit_file_cut)) (seq 0 36) in
  let rows := [[Some 10; Some 20]; [Some 30; Some 40]]%float in
  Layers.stats this !! 0%nat = None
  /\ PrimaryHDU.structures (Layers.units this) = Some [structure]
  /\ [structure] !! 0%nat = Some structure
  /\ FitsStructure.rawHeaders structure = Some raw
  /\ fst (FitsStructure.getDataValuesArray structure) = Normal rows
  /\ rows <> []
  /\ exists s,
       fst (@Layers.getLayerStats_rows Samples.runtime 0 this) = Normal (inr s)
       /\ exists row, Layers.rows_median s = Some row /\ row ∈ rows.
Proof.
  cbv zeta.
  assert (Hstats : Layers.stats (loaded_layers 2 two_unit_file_cut) !! 0%nat = None)
    by (vm_compute; reflexivity).
  assert (Hstructures : PrimaryHDU.structures (Layers.units (loaded_layers 2 two_unit_file_cut))
                        = Some [scanned (drop 2880 two_unit_file_cut)])
    by (vm_compute; reflexivity).
  assert (Hraw : FitsStructure.rawHeaders (scanned (drop 2880 two_unit_file_cut))
                 = Some (map (recordAt (drop 2880 two_unit_file_cut)) (seq 0 36)))
    by (vm_compute; reflexivity).
  assert (Hrows : fst (FitsStructure.getDataValuesArray (scanned (drop 2880 two_unit_file_cut)))
                  = Normal [[Some 10; Some 20]; [Some 30; Some 40]]%float)
    by (vm_compute; reflexivity).
  assert (Hne : [[Some 10; Some 20]; [Some 30; Some 40]]%float <> [])
    by (intros Hnil; discriminate Hnil).
  split; [exact Hstats|]. split; [exact Hstructures|]. split; [reflexivity|].
  split; [exact Hraw|]. split; [exact Hrows|]. split; [exact Hne|].
  destruct (proj2 (@getLayerStats_rows_median Samples.runtime _ 0 _ _ _ _
                     Hstats Hstructures eq_refl Hraw Hrows) Hne)
    as (s & Hrun & _ & Heven).
  exists s. split; [exact Hrun|]. exact (Heven eq_refl).
Defined.


(** ** A file without a minus sign *)

Lemma digitValue_nonneg (c : N) (d : Z) : digitValue c = Some d -> 0 <= d.
Proof.
  unfold digitValue.
  destruct ((48 <=? c) && (c <=? 57))%N eqn:Hdigit.
  { apply andb_true_iff in Hdigit. destruct Hdigit as [Hlow _]. apply N.leb_le in Hlow.
    intros Hd. injection Hd as <-. lia. }
  destruct ((97 <=? c) && (c <=? 122))%N eqn:Hlower.
  { apply andb_true_iff in Hlower. destruct Hlower as [Hlow _]. apply N.leb_le in Hlow.
    intros Hd. injection Hd as <-. lia. }
  destruct ((65 <=? c) && (c <=? 90))%N eqn:Hupper; [|intros Hd; discriminate Hd].
  apply andb_true_iff in Hupper. destruct Hupper as [Hlow _]. apply N.leb_le in Hlow.
  intros Hd. injection Hd as <-. lia.
Qed.

Lemma parseDigits_nonneg (radix : Z) (s : jsstring) :
  0 <= radix ->
  forall (acc : option Z) (v : Z),
    (forall a, acc = Some a -> 0 <= a) ->
    parseDigits radix s acc = Some v -> 0 <= v.
Proof.
  intros Hradix. induction s as [|c s IH]; intros acc v Hacc Hv; cbn [parseDigits] in Hv.
  - exact (Hacc v Hv).
  - destruct (digitValue c) as [d|] eqn:Hd; [|exact (Hacc v Hv)].
    destruct (d <? radix); [|exact (Hacc v Hv)].
    apply (IH _ v) in Hv; [exact Hv|].
    intros a Ha. injection Ha as <-. pose proof (digitValue_nonneg c d Hd).
    destruct acc as [a|]; [pose proof (Hacc a eq_refl); nia | lia].
Qed.

(** The sign [parseInt] reads: negative only in front of a minus sign. *)
Lemma parseInt_sign (s : jsstring) :
  (let '(sign, _) :=
     match s with
     | 45%N :: s' => (-1, s')
     | 43%N :: s' => (1, s')
     | _ => (1, s)
     end in sign = 1)
  \/ head s = Some 45%N.
Proof.
  destruct s as [|c s]; [left; reflexivity|].
  destruct (N.eq_dec c 45%N) as [->|Hminus]; [right; reflexivity|]. left.
  destruct c as [|p]; [reflexivity|].
  do 6 (try (destruct p as [p|p|]; try reflexivity)). contradiction Hminus; reflexivity.
Qed.

Lemma parseInt_radix (s : jsstring) :
  let '(radix, _) :=
    match s with
    | 48%N :: 120%N :: s' => (16, s')
    | 48%N :: 88%N :: s' => (16, s')
    | _ => (10, s)
    end in 0 <= radix.
Proof.
  destruct (match s with
            | 48%N :: 120%N :: s' => (16, s')
            | 48%N :: 88%N :: s' => (16, s')
            | _ => (10, s)
            end) as [radix rest] eqn:Hradix.
  assert (Hcases : radix = 16 \/ radix = 10); [|lia].
  destruct s as [|c s]; [injection Hradix as <- _; right; reflexivity|].
  destruct c as [|p]; [injection Hradix as <- _; right; reflexivity|].
  do 6 (try (destruct p as [p|p|]; try (injection Hradix as <- _; right; reflexivity))).
  destruct s as [|c s]; [injection Hradix as <- _; right; reflexivity|].
  destruct c as [|p]; [injection Hradix as <- _; right; reflexivity|].
  do 7 (try (destruct p as [p|p|];
             try (injection Hradix as <- _; right; reflexivity);
             try (injection Hradix as <- _; left; reflexivity))).
Qed.

Lemma trimStart_In (s : jsstring) (c : N) : In c (trimStart s) -> In c s.
Proof.
  destruct (trimStart_suffix s) as (blank & Hs & _). intros Hin.
  rewrite Hs. apply in_or_app. right. exact Hin.
Qed.

Lemma parseInt_no_minus (s : jsstring) (z : Z) :
  ~ In 45%N s -> parseInt s = Int z -> 0 <= z.
Proof.
  intros Hminus. unfold parseInt.
  assert (Hhead : head (trimStart s) <> Some 45%N).
  { intros Hhead. apply Hminus, trimStart_In.
    destruct (trimStart s) as [|c t]; [discriminate Hhead|].
    injection Hhead as ->. left. reflexivity. }
  pose proof (parseInt_sign (trimStart s)) as Hsign.
  destruct (match trimStart s with
            | 45%N :: s' => (-1, s')
            | 43%N :: s' => (1, s')
            | _ => (1, trimStart s)
            end) as [sign rest].
  destruct Hsign as [-> | Hsign]; [|contradiction].
  pose proof (parseInt_radix rest) as Hradix.
  destruct (match rest with
            | 48%N :: 120%N :: s' => (16, s')
            | 48%N :: 88%N :: s' => (16, s')
            | _ => (10, rest)
            end) as [radix digits].
  destruct (parseDigits radix digits None) as [v|] eqn:Hv; [|intros Hz; discriminate Hz].
  intros Hz. injection Hz as <-.
  pose proof (parseDigits_nonneg radix digits Hradix None v
                ltac:(intros a Ha; discriminate Ha) Hv).
  lia.
Qed.

Lemma valueOf_In (entry : jsstring) (c : N) : In c (valueOf entry) -> In c entry.
Proof.
  unfold valueOf, substringFrom. intros Hin.
  destruct (trim_middle (split_first (drop 9 entry) 47)) as (before & after & Hsplit & _).
  destruct (split_first_prefix (drop 9 entry) 47) as (_ & rest & Hdrop & _).
  rewrite <- (take_drop 9 entry), Hdrop, Hsplit.
  apply in_or_app. right. apply in_or_app. left.
  apply in_or_app. right. apply in_or_app. left. exact Hin.
Qed.

(** The values a scan stores are cut from the records: a character that
    no record holds is in none of them. *)
Lemma foldl_store_values (c : N) (entries : list jsstring) :
  forall this : FitsStructure.t,
    Forall (fun entry => ~ In c entry) entries ->
    map_Forall (fun _ value => ~ In c value) (FitsStructure.headers this) ->
    map_Forall (fun _ value => ~ In c value)
      (FitsStructure.headers (foldl store this entries)).
Proof.
  induction entries as [|entry entries IH]; intros this Hall Hthis; [exact Hthis|].
  apply Forall_cons in Hall. destruct Hall as [Hentry Hall].
  cbn [foldl]. apply IH; [exact Hall|].
  unfold store. destruct (keyOf entry) as [key|]; [|exact Hthis].
  destruct (MetaDataParser.isCommentaryKeyword key); [exact Hthis|].
  cbn [FitsStructure.set_header FitsStructure.headers].
  apply map_Forall_insert_2; [|exact Hthis].
  intros Hin. apply Hentry, valueOf_In, Hin.
Qed.

Lemma recordAt_no_minus (data : Buffer) (j : nat) :
  Forall (fun b => isAscii b = true /\ b <> x2d) data ->
  ~ In 45%N (recordAt data j).
Proof.
  intros Hall Hin. rewrite recordAt_bytes in Hin.
  assert (Hbytes : Forall (fun b => isAscii b = true /\ b <> x2d) (take 80 (drop (80 * j) data)))
    by apply Forall_take, Forall_drop, Hall.
  unfold toString in Hin. rewrite utf8_run_ascii in Hin.
  - apply in_map_iff in Hin. destruct Hin as (b & Hb & Hin).
    apply list_elem_of_In in Hin. rewrite Forall_forall in Hbytes.
    destruct (Hbytes b Hin) as [_ Hne]. apply Hne.
    pose proof (Byte.of_to_N b) as Hof. rewrite Hb in Hof.
    vm_compute in Hof. injection Hof as <-. reflexivity.
  - eapply Forall_impl; [exact Hbytes|]. intros b [Hb _]. exact Hb.
Qed.

Lemma sizeAxis_no_minus (this : FitsStructure.t) (raw : list jsstring) (index z : Z) :
  FitsStructure.rawHeaders this = Some raw ->
  map_Forall (fun _ value => ~ In 45%N value) (FitsStructure.headers this) ->
  fst (FitsStructure.sizeAxis index this) = Normal (Int z) -> 0 <= z.
Proof.
  intros Hraw Hvalues. unfold FitsStructure.sizeAxis, mbind, M_bind, bind.
  rewrite (preserves_run _ this raw preserves_numAxis Hraw).
  destruct (fst (FitsStructure.numAxis this)) as [n| |]; try (intros Hz; discriminate Hz).
  destruct (isNaN n || num_le n (Int 0)); [intros Hz; discriminate Hz|].
  destruct (FitsStructure.getMetadataValue (str "NAXIS" ++ intToString index) this)
    as [[value| |] this'] eqn:Hvalue; try (intros Hz; discriminate Hz).
  destruct (getMetadataValue_Normal _ _ _ _ Hvalue) as (c & rest & -> & Hlookup).
  pose proof (preserves_getMetadataValue (str "NAXIS" ++ intToString index) this raw Hraw)
    as Hsame.
  rewrite Hvalue in Hsame. cbn [snd] in Hsame. subst this'.
  unfold_M. cbn [fst]. intros Hz. injection Hz as Hz.
  exact (parseInt_no_minus _ z (Hvalues _ _ Hlookup) Hz).
Qed.

Lemma getDataSize_loop_no_minus (this : FitsStructure.t) (raw : list jsstring) :
  FitsStructure.rawHeaders this = Some raw ->
  map_Forall (fun _ value => ~ In 45%N value) (FitsStructure.headers this) ->
  forall (indices : list Z) (prod : num) (z : Z),
    (forall p, prod = Int p -> 0 <= p) ->
    fst (FitsStructure.getDataSize_loop indices prod this) = Normal (Int z) -> 0 <= z.
Proof.
  intros Hraw Hvalues. induction indices as [|index indices IH]; intros prod z Hprod.
  - cbn. unfold_M. cbn [fst]. intros Hz. injection Hz as Hz. exact (Hprod z Hz).
  - cbn [FitsStructure.getDataSize_loop]. unfold mbind, M_bind, bind.
    rewrite (preserves_run _ this raw (preserves_sizeAxis index) Hraw).
    pose proof (sizeAxis_no_minus this raw index) as Hlen.
    destruct (fst (FitsStructure.sizeAxis index this)) as [len| |];
      try (intros Hz; discriminate Hz).
    apply IH. intros p Hp. destruct prod as [|a]; [discriminate Hp|].
    destruct len as [|b]; [discriminate Hp|]. cbn [num_mul] in Hp. injection Hp as <-.
    pose proof (Hprod a eq_refl). pose proof (Hlen b Hraw Hvalues eq_refl). nia.
Qed.

Lemma getNumDataBlocks_no_minus_cached (this : FitsStructure.t) (raw : list jsstring) (d : Z) :
  FitsStructure.rawHeaders this = Some raw ->
  map_Forall (fun _ value => ~ In 45%N value) (FitsStructure.headers this) ->
  fst (FitsStructure.getNumDataBlocks this) = Normal (Int d) -> 0 <= d.
Proof.
  intros Hraw Hvalues.
  assert (Hsize : forall z, fst (FitsStructure.getDataSize this) = Normal (Int z) -> 0 <= z).
  { intros z. unfold FitsStructure.getDataSize, mbind, M_bind, bind.
    rewrite (preserves_run _ this raw preserves_numAxis Hraw).
    destruct (fst (FitsStructure.numAxis this)) as [n| |]; try (intros Hz; discriminate Hz).
    destruct (num_eq n (Int 0)) eqn:Hzero.
    { unfold_M. cbn [fst]. intros Hz. injection Hz as ->.
      unfold num_eq in Hzero. apply Z.eqb_eq in Hzero. lia. }
    rewrite (preserves_run _ this raw preserves_bitsPerPixel Hraw).
    destruct (fst (FitsStructure.bitsPerPixel this)) as [bits| |] eqn:Hbits;
      try (intros Hz; discriminate Hz).
    apply (getDataSize_loop_no_minus this raw Hraw Hvalues).
    intros p Hp. unfold FitsStructure.bitsPerPixel, mbind, M_bind, bind in Hbits.
    destruct (FitsStructure.pixelDataType this) as [[dataType| |] this']; try discriminate Hbits.
    destruct (bool_decide (dataType ∈ PixelDataType.values)); [|discriminate Hbits].
    unfold_M. cbn [fst] in Hbits. injection Hbits as <-.
    destruct (parseInt dataType) as [|a]; [discriminate Hp|].
    cbn [Math_abs num_div_exact] in Hp. injection Hp as <-.
    apply Z.div_pos; lia. }
  unfold FitsStructure.getNumDataBlocks, mbind, M_bind, bind.
  rewrite (preserves_run _ this raw preserves_getDataSize Hraw).
  destruct (fst (FitsStructure.getDataSize this)) as [size| |]; try (intros Hd; discriminate Hd).
  unfold_M. cbn [fst]. intros Hd. injection Hd as Hd.
  destruct size as [|z]; [discriminate Hd|].
  cbn [FitsStructure.numBlocks Math_ceil_div] in Hd. injection Hd as <-.
  pose proof (Hsize z eq_refl).
  pose proof (Z.div_le_upper_bound (- z) 2880 0 ltac:(lia) ltac:(lia)).
  unfold FitsStructure.BLOCK_SIZE. lia.
Qed.

(** A view of ASCII bytes without a minus sign declares no negative
    size: an axis length is read by [parseInt] from characters of the
    header, and is negative only behind a minus sign. *)
Lemma getNumDataBlocks_no_minus (data : Buffer) (d : Z) :
  Forall (fun b => isAscii b = true /\ b <> x2d) data ->
  fst (FitsStructure.getNumDataBlocks (FitsStructure.new data)) = Normal (Int d) -> 0 <= d.
Proof.
  intros Hall Hd.
  assert (Haxis : exists n, fst (FitsStructure.numAxis (FitsStructure.new data)) = Normal n).
  { unfold FitsStructure.getNumDataBlocks, FitsStructure.getDataSize, mbind, M_bind, bind in Hd.
    destruct (FitsStructure.numAxis (FitsStructure.new data)) as [[n| |] s];
      try discriminate Hd.
    exists n. reflexivity. }
  destruct Haxis as [n Haxis].
  destruct (numAxis_needs_scan data n Haxis) as (raw & this & Hscan).
  destruct (scan_result data raw this Hscan) as [Hraw _].
  destruct (scan_content data raw this Hscan) as (b & Hrecords & _ & Hthis & _).
  rewrite (scans_first_getNumDataBlocks data raw this Hscan) in Hd.
  apply (getNumDataBlocks_no_minus_cached this raw d Hraw); [|exact Hd].
  rewrite Hthis. cbn [FitsStructure.set_rawHeaders FitsStructure.headers].
  apply foldl_store_values.
  - rewrite Hrecords. apply Forall_forall. intros entry Hentry.
    apply list_elem_of_In, in_map_iff in Hentry. destruct Hentry as (j & <- & _).
    apply recordAt_no_minus, Hall.
  - cbn [FitsStructure.new FitsStructure.headers]. apply map_Forall_empty.
Qed.

(** ** The walk of [load] on a file of two units *)

Lemma load_ends_witness :
  (forall off d,
      fst (FitsStructure.getNumDataBlocks (FitsStructure.new (drop off two_unit_file)))
      = Normal (Int d) ->
      0 <= d)
  /\ (length two_unit_file / 2880 + 2 <= 5)%nat
  /\ fst (PrimaryHDU.load 5 two_unit_file PrimaryHDU.new) <> Diverge
  /\ length (PrimaryHDU.structures_of (snd (PrimaryHDU.load 5 two_unit_file PrimaryHDU.new)))
     = 1%nat
  /\ fst (PrimaryHDU.load 0 two_unit_file PrimaryHDU.new) = Diverge.
Proof.
  assert (Hbytes : forallb (fun b => isAscii b && negb (Byte.to_N b =? 45)%N) two_unit_file
                   = true) by (vm_compute; reflexivity).
  assert (Hall : Forall (fun b => isAscii b = true /\ b <> x2d) two_unit_file).
  { apply Forall_forall. intros b Hb. apply list_elem_of_In in Hb.
    rewrite forallb_forall in Hbytes. apply Hbytes, andb_true_iff in Hb.
    destruct Hb as [Hascii Hminus]. split; [exact Hascii|].
    intros ->. discriminate Hminus. }
  assert (Hd : forall off d,
             fst (FitsStructure.getNumDataBlocks (FitsStructure.new (drop off two_unit_file)))
             = Normal (Int d) ->
             0 <= d).
  { intros off d. apply getNumDataBlocks_no_minus, Forall_drop, Hall. }
  assert (Hfuel : (length two_unit_file / 2880 + 2 <= 5)%nat) by (vm_compute; lia).
  split; [exact Hd|]. split; [exact Hfuel|].
  split; [exact (load_ends two_unit_file 5 Hd Hfuel)|].
  split; vm_compute; reflexivity.
Defined.
